(** * Scalp-V0: risk gating and trade lifecycle

    A shallow embedding of the protective core of the Scalp-V0 trading agent:
    - [risk/risk_manager.py]     (position sizing),
    - [core/state_manager.py]    (the NORMAL / COOLDOWN / LIMITED / HALT machine),
    - [execution/order_executor.py] (the single in-flight trade and its
      reconciliation against the exchange).

    Around that core, the code that feeds it and reads from it:
    [strategy/scalp_v0.py] (signals), [risk/limits_checker.py] (pre-trade
    guards), the monitoring loop and the result of a trade in
    [app/runner.py], and [analytics/stats_engine.py] with
    [analytics/promotion_checker.py] (statistics of the trade log).

    Numbers.  The Python code computes on [float]; here every monetary
    amount, price, quantity and percentage is an exact rational ([Q]), so
    the statements below are about the arithmetic the code writes down and
    not about binary rounding.  Comparisons are the boolean ones the code
    branches on ([Qle_bool] and friends); equalities between amounts are
    stated up to [Qeq].

    Time.  A [datetime] is the number of microseconds since the epoch, a
    [timedelta(minutes=m)] is [m * 60_000_000] of them; millisecond stamps
    of the exchange are plain integers.

    Text.  A [str] is held as its UTF-8 encoding.  [upper], [isdigit] and
    [int] act on its code points as CPython 3.11 does (Unicode 14.0), and
    the conversions between numbers and text stop at 4300 digits. *)

From Stdlib Require Import ZArith QArith Qround Qabs Lia Lqa.
From Stdlib Require Import NArith List String Ascii Bool DecimalString.
From Stdlib Require Import DecimalPos DecimalN.
From Stdlib Require Import Sorting.Sorted Sorting.Permutation.
Import ListNotations.

Local Open Scope Z_scope.
Local Open Scope Q_scope.
Local Open Scope string_scope.

(* ===================================================================== *)
(** ** Python primitives *)
(* ===================================================================== *)

Module Py.

(** The exceptions the modelled code can raise. [TransportError] stands for
    whatever [requests] raises inside [BybitClient._send_request]. *)
Inductive exn : Type :=
| ValueError (msg : string)
| ZeroDivisionError
| KeyError (msg : string)
| TransportError.

(** Outcome of a call that either returns or raises. *)
Inductive result (A : Type) : Type :=
| Ok (a : A)
| Raise (e : exn).
Arguments Ok {A} a.
Arguments Raise {A} e.

Definition Qlt_bool (x y : Q) : bool := negb (Qle_bool y x).

(** [max(a, b)] on numbers: Python returns [a] unless [b > a]. *)
Definition py_max (a b : Q) : Q := if Qlt_bool a b then b else a.

(** [int(x)]: truncation toward zero. *)
Definition py_int (x : Q) : Z := Z.quot (Qnum x) (Z.pos (Qden x)).

(** [round(x)] with one argument: nearest integer, ties to even. *)
Definition py_round (x : Q) : Z :=
  let f := Qfloor x in
  match Qcompare (x - inject_Z f) (1 # 2) with
  | Lt => f
  | Gt => (f + 1)%Z
  | Eq => if Z.even f then f else (f + 1)%Z
  end.

(** [a / b] on numbers. *)
Definition py_truediv (a b : Q) : result Q :=
  if Qeq_bool b 0 then Raise ZeroDivisionError else Ok (a / b).

(** *** Text

    A Python [str] is a sequence of Unicode code points; it is held here
    as its UTF-8 encoding, a [string] of bytes.  Equality and [split(".")]
    act on the bytes as they do on the code points; [upper], [isdigit] and
    [int] act on the code points, with the tables of Unicode 14.0 that
    CPython 3.11 carries.  Bytes that are no UTF-8 stand for no [str]. *)

Definition code (c : ascii) : N := N_of_ascii c.
Definition byte (n : N) : ascii := ascii_of_N n.

(** What the decoder gives for bytes that are no UTF-8: no code point. *)
Definition undecodable : N := 1114112%N.

(** A byte at the start of a character: what it yields at once, how many
    bytes it still expects, and the bits it contributes. *)
Definition first_byte (b : N) : list N * nat * N :=
  if (b <? 128)%N then ([b], 0%nat, 0%N)
  else if (192 <=? b)%N && (b <? 224)%N then ([], 1%nat, (b - 192)%N)
  else if (224 <=? b)%N && (b <? 240)%N then ([], 2%nat, (b - 224)%N)
  else if (240 <=? b)%N && (b <? 248)%N then ([], 3%nat, (b - 240)%N)
  else ([undecodable], 0%nat, 0%N).

Fixpoint decode_from (pending : nat) (acc : N) (s : string) : list N :=
  match s with
  | EmptyString =>
      match pending with
      | O => []
      | S _ => [undecodable]
      end
  | String c s' =>
      let b := code c in
      match pending with
      | O => let '(out, p, a) := first_byte b in out ++ decode_from p a s'
      | S p =>
          if (128 <=? b)%N && (b <? 192)%N then
            let acc' := (acc * 64 + (b - 128))%N in
            match p with
            | O => acc' :: decode_from 0 0 s'
            | S _ => decode_from p acc' s'
            end
          else
            let '(out, p', a) := first_byte b in
            undecodable :: out ++ decode_from p' a s'
      end
  end.

(** The code points of a [str]. *)
Definition decode (s : string) : list N := decode_from 0 0 s.

Definition encode_cp (c : N) : string :=
  if (c <? 128)%N then String (byte c) EmptyString
  else if (c <? 2048)%N then
    String (byte (192 + c / 64)) (String (byte (128 + c mod 64)) EmptyString)
  else if (c <? 65536)%N then
    String (byte (224 + c / 4096))
      (String (byte (128 + (c / 64) mod 64)) (String (byte (128 + c mod 64)) EmptyString))
  else
    String (byte (240 + c / 262144))
      (String (byte (128 + (c / 4096) mod 64))
         (String (byte (128 + (c / 64) mod 64))
            (String (byte (128 + c mod 64)) EmptyString))).

Definition encode (cps : list N) : string :=
  fold_right (fun c s => encode_cp c ++ s) EmptyString cps.

(** The code points [c] with [chr(c).upper() != chr(c)], each with the
    code points of [chr(c).upper()]. *)
Definition upper_table : list (N * list N) :=
  [ (97, [65]); (98, [66]); (99, [67]); (100, [68]); (101, [69]); (102, [70]);
    (103, [71]); (104, [72]); (105, [73]); (106, [74]); (107, [75]); (108, [76]);
    (109, [77]); (110, [78]); (111, [79]); (112, [80]); (113, [81]); (114, [82]);
    (115, [83]); (116, [84]); (117, [85]); (118, [86]); (119, [87]); (120, [88]);
    (121, [89]); (122, [90]); (181, [924]); (223, [83; 83]); (224, [192]);
    (225, [193]); (226, [194]); (227, [195]); (228, [196]); (229, [197]); (230, [198]);
    (231, [199]); (232, [200]); (233, [201]); (234, [202]); (235, [203]); (236, [204]);
    (237, [205]); (238, [206]); (239, [207]); (240, [208]); (241, [209]); (242, [210]);
    (243, [211]); (244, [212]); (245, [213]); (246, [214]); (248, [216]); (249, [217]);
    (250, [218]); (251, [219]); (252, [220]); (253, [221]); (254, [222]); (255, [376]);
    (257, [256]); (259, [258]); (261, [260]); (263, [262]); (265, [264]); (267, [266]);
    (269, [268]); (271, [270]); (273, [272]); (275, [274]); (277, [276]); (279, [278]);
    (281, [280]); (283, [282]); (285, [284]); (287, [286]); (289, [288]); (291, [290]);
    (293, [292]); (295, [294]); (297, [296]); (299, [298]); (301, [300]); (303, [302]);
    (305, [73]); (307, [306]); (309, [308]); (311, [310]); (314, [313]); (316, [315]);
    (318, [317]); (320, [319]); (322, [321]); (324, [323]); (326, [325]); (328, [327]);
    (329, [700; 78]); (331, [330]); (333, [332]); (335, [334]); (337, [336]);
    (339, [338]); (341, [340]); (343, [342]); (345, [344]); (347, [346]); (349, [348]);
    (351, [350]); (353, [352]); (355, [354]); (357, [356]); (359, [358]); (361, [360]);
    (363, [362]); (365, [364]); (367, [366]); (369, [368]); (371, [370]); (373, [372]);
    (375, [374]); (378, [377]); (380, [379]); (382, [381]); (383, [83]); (384, [579]);
    (387, [386]); (389, [388]); (392, [391]); (396, [395]); (402, [401]); (405, [502]);
    (409, [408]); (410, [573]); (414, [544]); (417, [416]); (419, [418]); (421, [420]);
    (424, [423]); (429, [428]); (432, [431]); (436, [435]); (438, [437]); (441, [440]);
    (445, [444]); (447, [503]); (453, [452]); (454, [452]); (456, [455]); (457, [455]);
    (459, [458]); (460, [458]); (462, [461]); (464, [463]); (466, [465]); (468, [467]);
    (470, [469]); (472, [471]); (474, [473]); (476, [475]); (477, [398]); (479, [478]);
    (481, [480]); (483, [482]); (485, [484]); (487, [486]); (489, [488]); (491, [490]);
    (493, [492]); (495, [494]); (496, [74; 780]); (498, [497]); (499, [497]);
    (501, [500]); (505, [504]); (507, [506]); (509, [508]); (511, [510]); (513, [512]);
    (515, [514]); (517, [516]); (519, [518]); (521, [520]); (523, [522]); (525, [524]);
    (527, [526]); (529, [528]); (531, [530]); (533, [532]); (535, [534]); (537, [536]);
    (539, [538]); (541, [540]); (543, [542]); (547, [546]); (549, [548]); (551, [550]);
    (553, [552]); (555, [554]); (557, [556]); (559, [558]); (561, [560]); (563, [562]);
    (572, [571]); (575, [11390]); (576, [11391]); (578, [577]); (583, [582]);
    (585, [584]); (587, [586]); (589, [588]); (591, [590]); (592, [11375]);
    (593, [11373]); (594, [11376]); (595, [385]); (596, [390]); (598, [393]);
    (599, [394]); (601, [399]); (603, [400]); (604, [42923]); (608, [403]);
    (609, [42924]); (611, [404]); (613, [42893]); (614, [42922]); (616, [407]);
    (617, [406]); (618, [42926]); (619, [11362]); (620, [42925]); (623, [412]);
    (625, [11374]); (626, [413]); (629, [415]); (637, [11364]); (640, [422]);
    (642, [42949]); (643, [425]); (647, [42929]); (648, [430]); (649, [580]);
    (650, [433]); (651, [434]); (652, [581]); (658, [439]); (669, [42930]);
    (670, [42928]); (837, [921]); (881, [880]); (883, [882]); (887, [886]);
    (891, [1021]); (892, [1022]); (893, [1023]); (912, [921; 776; 769]); (940, [902]);
    (941, [904]); (942, [905]); (943, [906]); (944, [933; 776; 769]); (945, [913]);
    (946, [914]); (947, [915]); (948, [916]); (949, [917]); (950, [918]); (951, [919]);
    (952, [920]); (953, [921]); (954, [922]); (955, [923]); (956, [924]); (957, [925]);
    (958, [926]); (959, [927]); (960, [928]); (961, [929]); (962, [931]); (963, [931]);
    (964, [932]); (965, [933]); (966, [934]); (967, [935]); (968, [936]); (969, [937]);
    (970, [938]); (971, [939]); (972, [908]); (973, [910]); (974, [911]); (976, [914]);
    (977, [920]); (981, [934]); (982, [928]); (983, [975]); (985, [984]); (987, [986]);
    (989, [988]); (991, [990]); (993, [992]); (995, [994]); (997, [996]); (999, [998]);
    (1001, [1000]); (1003, [1002]); (1005, [1004]); (1007, [1006]); (1008, [922]);
    (1009, [929]); (1010, [1017]); (1011, [895]); (1013, [917]); (1016, [1015]);
    (1019, [1018]); (1072, [1040]); (1073, [1041]); (1074, [1042]); (1075, [1043]);
    (1076, [1044]); (1077, [1045]); (1078, [1046]); (1079, [1047]); (1080, [1048]);
    (1081, [1049]); (1082, [1050]); (1083, [1051]); (1084, [1052]); (1085, [1053]);
    (1086, [1054]); (1087, [1055]); (1088, [1056]); (1089, [1057]); (1090, [1058]);
    (1091, [1059]); (1092, [1060]); (1093, [1061]); (1094, [1062]); (1095, [1063]);
    (1096, [1064]); (1097, [1065]); (1098, [1066]); (1099, [1067]); (1100, [1068]);
    (1101, [1069]); (1102, [1070]); (1103, [1071]); (1104, [1024]); (1105, [1025]);
    (1106, [1026]); (1107, [1027]); (1108, [1028]); (1109, [1029]); (1110, [1030]);
    (1111, [1031]); (1112, [1032]); (1113, [1033]); (1114, [1034]); (1115, [1035]);
    (1116, [1036]); (1117, [1037]); (1118, [1038]); (1119, [1039]); (1121, [1120]);
    (1123, [1122]); (1125, [1124]); (1127, [1126]); (1129, [1128]); (1131, [1130]);
    (1133, [1132]); (1135, [1134]); (1137, [1136]); (1139, [1138]); (1141, [1140]);
    (1143, [1142]); (1145, [1144]); (1147, [1146]); (1149, [1148]); (1151, [1150]);
    (1153, [1152]); (1163, [1162]); (1165, [1164]); (1167, [1166]); (1169, [1168]);
    (1171, [1170]); (1173, [1172]); (1175, [1174]); (1177, [1176]); (1179, [1178]);
    (1181, [1180]); (1183, [1182]); (1185, [1184]); (1187, [1186]); (1189, [1188]);
    (1191, [1190]); (1193, [1192]); (1195, [1194]); (1197, [1196]); (1199, [1198]);
    (1201, [1200]); (1203, [1202]); (1205, [1204]); (1207, [1206]); (1209, [1208]);
    (1211, [1210]); (1213, [1212]); (1215, [1214]); (1218, [1217]); (1220, [1219]);
    (1222, [1221]); (1224, [1223]); (1226, [1225]); (1228, [1227]); (1230, [1229]);
    (1231, [1216]); (1233, [1232]); (1235, [1234]); (1237, [1236]); (1239, [1238]);
    (1241, [1240]); (1243, [1242]); (1245, [1244]); (1247, [1246]); (1249, [1248]);
    (1251, [1250]); (1253, [1252]); (1255, [1254]); (1257, [1256]); (1259, [1258]);
    (1261, [1260]); (1263, [1262]); (1265, [1264]); (1267, [1266]); (1269, [1268]);
    (1271, [1270]); (1273, [1272]); (1275, [1274]); (1277, [1276]); (1279, [1278]);
    (1281, [1280]); (1283, [1282]); (1285, [1284]); (1287, [1286]); (1289, [1288]);
    (1291, [1290]); (1293, [1292]); (1295, [1294]); (1297, [1296]); (1299, [1298]);
    (1301, [1300]); (1303, [1302]); (1305, [1304]); (1307, [1306]); (1309, [1308]);
    (1311, [1310]); (1313, [1312]); (1315, [1314]); (1317, [1316]); (1319, [1318]);
    (1321, [1320]); (1323, [1322]); (1325, [1324]); (1327, [1326]); (1377, [1329]);
    (1378, [1330]); (1379, [1331]); (1380, [1332]); (1381, [1333]); (1382, [1334]);
    (1383, [1335]); (1384, [1336]); (1385, [1337]); (1386, [1338]); (1387, [1339]);
    (1388, [1340]); (1389, [1341]); (1390, [1342]); (1391, [1343]); (1392, [1344]);
    (1393, [1345]); (1394, [1346]); (1395, [1347]); (1396, [1348]); (1397, [1349]);
    (1398, [1350]); (1399, [1351]); (1400, [1352]); (1401, [1353]); (1402, [1354]);
    (1403, [1355]); (1404, [1356]); (1405, [1357]); (1406, [1358]); (1407, [1359]);
    (1408, [1360]); (1409, [1361]); (1410, [1362]); (1411, [1363]); (1412, [1364]);
    (1413, [1365]); (1414, [1366]); (1415, [1333; 1362]); (4304, [7312]);
    (4305, [7313]); (4306, [7314]); (4307, [7315]); (4308, [7316]); (4309, [7317]);
    (4310, [7318]); (4311, [7319]); (4312, [7320]); (4313, [7321]); (4314, [7322]);
    (4315, [7323]); (4316, [7324]); (4317, [7325]); (4318, [7326]); (4319, [7327]);
    (4320, [7328]); (4321, [7329]); (4322, [7330]); (4323, [7331]); (4324, [7332]);
    (4325, [7333]); (4326, [7334]); (4327, [7335]); (4328, [7336]); (4329, [7337]);
    (4330, [7338]); (4331, [7339]); (4332, [7340]); (4333, [7341]); (4334, [7342]);
    (4335, [7343]); (4336, [7344]); (4337, [7345]); (4338, [7346]); (4339, [7347]);
    (4340, [7348]); (4341, [7349]); (4342, [7350]); (4343, [7351]); (4344, [7352]);
    (4345, [7353]); (4346, [7354]); (4349, [7357]); (4350, [7358]); (4351, [7359]);
    (5112, [5104]); (5113, [5105]); (5114, [5106]); (5115, [5107]); (5116, [5108]);
    (5117, [5109]); (7296, [1042]); (7297, [1044]); (7298, [1054]); (7299, [1057]);
    (7300, [1058]); (7301, [1058]); (7302, [1066]); (7303, [1122]); (7304, [42570]);
    (7545, [42877]); (7549, [11363]); (7566, [42950]); (7681, [7680]); (7683, [7682]);
    (7685, [7684]); (7687, [7686]); (7689, [7688]); (7691, [7690]); (7693, [7692]);
    (7695, [7694]); (7697, [7696]); (7699, [7698]); (7701, [7700]); (7703, [7702]);
    (7705, [7704]); (7707, [7706]); (7709, [7708]); (7711, [7710]); (7713, [7712]);
    (7715, [7714]); (7717, [7716]); (7719, [7718]); (7721, [7720]); (7723, [7722]);
    (7725, [7724]); (7727, [7726]); (7729, [7728]); (7731, [7730]); (7733, [7732]);
    (7735, [7734]); (7737, [7736]); (7739, [7738]); (7741, [7740]); (7743, [7742]);
    (7745, [7744]); (7747, [7746]); (7749, [7748]); (7751, [7750]); (7753, [7752]);
    (7755, [7754]); (7757, [7756]); (7759, [7758]); (7761, [7760]); (7763, [7762]);
    (7765, [7764]); (7767, [7766]); (7769, [7768]); (7771, [7770]); (7773, [7772]);
    (7775, [7774]); (7777, [7776]); (7779, [7778]); (7781, [7780]); (7783, [7782]);
    (7785, [7784]); (7787, [7786]); (7789, [7788]); (7791, [7790]); (7793, [7792]);
    (7795, [7794]); (7797, [7796]); (7799, [7798]); (7801, [7800]); (7803, [7802]);
    (7805, [7804]); (7807, [7806]); (7809, [7808]); (7811, [7810]); (7813, [7812]);
    (7815, [7814]); (7817, [7816]); (7819, [7818]); (7821, [7820]); (7823, [7822]);
    (7825, [7824]); (7827, [7826]); (7829, [7828]); (7830, [72; 817]);
    (7831, [84; 776]); (7832, [87; 778]); (7833, [89; 778]); (7834, [65; 702]);
    (7835, [7776]); (7841, [7840]); (7843, [7842]); (7845, [7844]); (7847, [7846]);
    (7849, [7848]); (7851, [7850]); (7853, [7852]); (7855, [7854]); (7857, [7856]);
    (7859, [7858]); (7861, [7860]); (7863, [7862]); (7865, [7864]); (7867, [7866]);
    (7869, [7868]); (7871, [7870]); (7873, [7872]); (7875, [7874]); (7877, [7876]);
    (7879, [7878]); (7881, [7880]); (7883, [7882]); (7885, [7884]); (7887, [7886]);
    (7889, [7888]); (7891, [7890]); (7893, [7892]); (7895, [7894]); (7897, [7896]);
    (7899, [7898]); (7901, [7900]); (7903, [7902]); (7905, [7904]); (7907, [7906]);
    (7909, [7908]); (7911, [7910]); (7913, [7912]); (7915, [7914]); (7917, [7916]);
    (7919, [7918]); (7921, [7920]); (7923, [7922]); (7925, [7924]); (7927, [7926]);
    (7929, [7928]); (7931, [7930]); (7933, [7932]); (7935, [7934]); (7936, [7944]);
    (7937, [7945]); (7938, [7946]); (7939, [7947]); (7940, [7948]); (7941, [7949]);
    (7942, [7950]); (7943, [7951]); (7952, [7960]); (7953, [7961]); (7954, [7962]);
    (7955, [7963]); (7956, [7964]); (7957, [7965]); (7968, [7976]); (7969, [7977]);
    (7970, [7978]); (7971, [7979]); (7972, [7980]); (7973, [7981]); (7974, [7982]);
    (7975, [7983]); (7984, [7992]); (7985, [7993]); (7986, [7994]); (7987, [7995]);
    (7988, [7996]); (7989, [7997]); (7990, [7998]); (7991, [7999]); (8000, [8008]);
    (8001, [8009]); (8002, [8010]); (8003, [8011]); (8004, [8012]); (8005, [8013]);
    (8016, [933; 787]); (8017, [8025]); (8018, [933; 787; 768]); (8019, [8027]);
    (8020, [933; 787; 769]); (8021, [8029]); (8022, [933; 787; 834]); (8023, [8031]);
    (8032, [8040]); (8033, [8041]); (8034, [8042]); (8035, [8043]); (8036, [8044]);
    (8037, [8045]); (8038, [8046]); (8039, [8047]); (8048, [8122]); (8049, [8123]);
    (8050, [8136]); (8051, [8137]); (8052, [8138]); (8053, [8139]); (8054, [8154]);
    (8055, [8155]); (8056, [8184]); (8057, [8185]); (8058, [8170]); (8059, [8171]);
    (8060, [8186]); (8061, [8187]); (8064, [7944; 921]); (8065, [7945; 921]);
    (8066, [7946; 921]); (8067, [7947; 921]); (8068, [7948; 921]); (8069, [7949; 921]);
    (8070, [7950; 921]); (8071, [7951; 921]); (8072, [7944; 921]); (8073, [7945; 921]);
    (8074, [7946; 921]); (8075, [7947; 921]); (8076, [7948; 921]); (8077, [7949; 921]);
    (8078, [7950; 921]); (8079, [7951; 921]); (8080, [7976; 921]); (8081, [7977; 921]);
    (8082, [7978; 921]); (8083, [7979; 921]); (8084, [7980; 921]); (8085, [7981; 921]);
    (8086, [7982; 921]); (8087, [7983; 921]); (8088, [7976; 921]); (8089, [7977; 921]);
    (8090, [7978; 921]); (8091, [7979; 921]); (8092, [7980; 921]); (8093, [7981; 921]);
    (8094, [7982; 921]); (8095, [7983; 921]); (8096, [8040; 921]); (8097, [8041; 921]);
    (8098, [8042; 921]); (8099, [8043; 921]); (8100, [8044; 921]); (8101, [8045; 921]);
    (8102, [8046; 921]); (8103, [8047; 921]); (8104, [8040; 921]); (8105, [8041; 921]);
    (8106, [8042; 921]); (8107, [8043; 921]); (8108, [8044; 921]); (8109, [8045; 921]);
    (8110, [8046; 921]); (8111, [8047; 921]); (8112, [8120]); (8113, [8121]);
    (8114, [8122; 921]); (8115, [913; 921]); (8116, [902; 921]); (8118, [913; 834]);
    (8119, [913; 834; 921]); (8124, [913; 921]); (8126, [921]); (8130, [8138; 921]);
    (8131, [919; 921]); (8132, [905; 921]); (8134, [919; 834]);
    (8135, [919; 834; 921]); (8140, [919; 921]); (8144, [8152]); (8145, [8153]);
    (8146, [921; 776; 768]); (8147, [921; 776; 769]); (8150, [921; 834]);
    (8151, [921; 776; 834]); (8160, [8168]); (8161, [8169]); (8162, [933; 776; 768]);
    (8163, [933; 776; 769]); (8164, [929; 787]); (8165, [8172]); (8166, [933; 834]);
    (8167, [933; 776; 834]); (8178, [8186; 921]); (8179, [937; 921]);
    (8180, [911; 921]); (8182, [937; 834]); (8183, [937; 834; 921]);
    (8188, [937; 921]); (8526, [8498]); (8560, [8544]); (8561, [8545]); (8562, [8546]);
    (8563, [8547]); (8564, [8548]); (8565, [8549]); (8566, [8550]); (8567, [8551]);
    (8568, [8552]); (8569, [8553]); (8570, [8554]); (8571, [8555]); (8572, [8556]);
    (8573, [8557]); (8574, [8558]); (8575, [8559]); (8580, [8579]); (9424, [9398]);
    (9425, [9399]); (9426, [9400]); (9427, [9401]); (9428, [9402]); (9429, [9403]);
    (9430, [9404]); (9431, [9405]); (9432, [9406]); (9433, [9407]); (9434, [9408]);
    (9435, [9409]); (9436, [9410]); (9437, [9411]); (9438, [9412]); (9439, [9413]);
    (9440, [9414]); (9441, [9415]); (9442, [9416]); (9443, [9417]); (9444, [9418]);
    (9445, [9419]); (9446, [9420]); (9447, [9421]); (9448, [9422]); (9449, [9423]);
    (11312, [11264]); (11313, [11265]); (11314, [11266]); (11315, [11267]);
    (11316, [11268]); (11317, [11269]); (11318, [11270]); (11319, [11271]);
    (11320, [11272]); (11321, [11273]); (11322, [11274]); (11323, [11275]);
    (11324, [11276]); (11325, [11277]); (11326, [11278]); (11327, [11279]);
    (11328, [11280]); (11329, [11281]); (11330, [11282]); (11331, [11283]);
    (11332, [11284]); (11333, [11285]); (11334, [11286]); (11335, [11287]);
    (11336, [11288]); (11337, [11289]); (11338, [11290]); (11339, [11291]);
    (11340, [11292]); (11341, [11293]); (11342, [11294]); (11343, [11295]);
    (11344, [11296]); (11345, [11297]); (11346, [11298]); (11347, [11299]);
    (11348, [11300]); (11349, [11301]); (11350, [11302]); (11351, [11303]);
    (11352, [11304]); (11353, [11305]); (11354, [11306]); (11355, [11307]);
    (11356, [11308]); (11357, [11309]); (11358, [11310]); (11359, [11311]);
    (11361, [11360]); (11365, [570]); (11366, [574]); (11368, [11367]);
    (11370, [11369]); (11372, [11371]); (11379, [11378]); (11382, [11381]);
    (11393, [11392]); (11395, [11394]); (11397, [11396]); (11399, [11398]);
    (11401, [11400]); (11403, [11402]); (11405, [11404]); (11407, [11406]);
    (11409, [11408]); (11411, [11410]); (11413, [11412]); (11415, [11414]);
    (11417, [11416]); (11419, [11418]); (11421, [11420]); (11423, [11422]);
    (11425, [11424]); (11427, [11426]); (11429, [11428]); (11431, [11430]);
    (11433, [11432]); (11435, [11434]); (11437, [11436]); (11439, [11438]);
    (11441, [11440]); (11443, [11442]); (11445, [11444]); (11447, [11446]);
    (11449, [11448]); (11451, [11450]); (11453, [11452]); (11455, [11454]);
    (11457, [11456]); (11459, [11458]); (11461, [11460]); (11463, [11462]);
    (11465, [11464]); (11467, [11466]); (11469, [11468]); (11471, [11470]);
    (11473, [11472]); (11475, [11474]); (11477, [11476]); (11479, [11478]);
    (11481, [11480]); (11483, [11482]); (11485, [11484]); (11487, [11486]);
    (11489, [11488]); (11491, [11490]); (11500, [11499]); (11502, [11501]);
    (11507, [11506]); (11520, [4256]); (11521, [4257]); (11522, [4258]);
    (11523, [4259]); (11524, [4260]); (11525, [4261]); (11526, [4262]);
    (11527, [4263]); (11528, [4264]); (11529, [4265]); (11530, [4266]);
    (11531, [4267]); (11532, [4268]); (11533, [4269]); (11534, [4270]);
    (11535, [4271]); (11536, [4272]); (11537, [4273]); (11538, [4274]);
    (11539, [4275]); (11540, [4276]); (11541, [4277]); (11542, [4278]);
    (11543, [4279]); (11544, [4280]); (11545, [4281]); (11546, [4282]);
    (11547, [4283]); (11548, [4284]); (11549, [4285]); (11550, [4286]);
    (11551, [4287]); (11552, [4288]); (11553, [4289]); (11554, [4290]);
    (11555, [4291]); (11556, [4292]); (11557, [4293]); (11559, [4295]);
    (11565, [4301]); (42561, [42560]); (42563, [42562]); (42565, [42564]);
    (42567, [42566]); (42569, [42568]); (42571, [42570]); (42573, [42572]);
    (42575, [42574]); (42577, [42576]); (42579, [42578]); (42581, [42580]);
    (42583, [42582]); (42585, [42584]); (42587, [42586]); (42589, [42588]);
    (42591, [42590]); (42593, [42592]); (42595, [42594]); (42597, [42596]);
    (42599, [42598]); (42601, [42600]); (42603, [42602]); (42605, [42604]);
    (42625, [42624]); (42627, [42626]); (42629, [42628]); (42631, [42630]);
    (42633, [42632]); (42635, [42634]); (42637, [42636]); (42639, [42638]);
    (42641, [42640]); (42643, [42642]); (42645, [42644]); (42647, [42646]);
    (42649, [42648]); (42651, [42650]); (42787, [42786]); (42789, [42788]);
    (42791, [42790]); (42793, [42792]); (42795, [42794]); (42797, [42796]);
    (42799, [42798]); (42803, [42802]); (42805, [42804]); (42807, [42806]);
    (42809, [42808]); (42811, [42810]); (42813, [42812]); (42815, [42814]);
    (42817, [42816]); (42819, [42818]); (42821, [42820]); (42823, [42822]);
    (42825, [42824]); (42827, [42826]); (42829, [42828]); (42831, [42830]);
    (42833, [42832]); (42835, [42834]); (42837, [42836]); (42839, [42838]);
    (42841, [42840]); (42843, [42842]); (42845, [42844]); (42847, [42846]);
    (42849, [42848]); (42851, [42850]); (42853, [42852]); (42855, [42854]);
    (42857, [42856]); (42859, [42858]); (42861, [42860]); (42863, [42862]);
    (42874, [42873]); (42876, [42875]); (42879, [42878]); (42881, [42880]);
    (42883, [42882]); (42885, [42884]); (42887, [42886]); (42892, [42891]);
    (42897, [42896]); (42899, [42898]); (42900, [42948]); (42903, [42902]);
    (42905, [42904]); (42907, [42906]); (42909, [42908]); (42911, [42910]);
    (42913, [42912]); (42915, [42914]); (42917, [42916]); (42919, [42918]);
    (42921, [42920]); (42933, [42932]); (42935, [42934]); (42937, [42936]);
    (42939, [42938]); (42941, [42940]); (42943, [42942]); (42945, [42944]);
    (42947, [42946]); (42952, [42951]); (42954, [42953]); (42961, [42960]);
    (42967, [42966]); (42969, [42968]); (42998, [42997]); (43859, [42931]);
    (43888, [5024]); (43889, [5025]); (43890, [5026]); (43891, [5027]);
    (43892, [5028]); (43893, [5029]); (43894, [5030]); (43895, [5031]);
    (43896, [5032]); (43897, [5033]); (43898, [5034]); (43899, [5035]);
    (43900, [5036]); (43901, [5037]); (43902, [5038]); (43903, [5039]);
    (43904, [5040]); (43905, [5041]); (43906, [5042]); (43907, [5043]);
    (43908, [5044]); (43909, [5045]); (43910, [5046]); (43911, [5047]);
    (43912, [5048]); (43913, [5049]); (43914, [5050]); (43915, [5051]);
    (43916, [5052]); (43917, [5053]); (43918, [5054]); (43919, [5055]);
    (43920, [5056]); (43921, [5057]); (43922, [5058]); (43923, [5059]);
    (43924, [5060]); (43925, [5061]); (43926, [5062]); (43927, [5063]);
    (43928, [5064]); (43929, [5065]); (43930, [5066]); (43931, [5067]);
    (43932, [5068]); (43933, [5069]); (43934, [5070]); (43935, [5071]);
    (43936, [5072]); (43937, [5073]); (43938, [5074]); (43939, [5075]);
    (43940, [5076]); (43941, [5077]); (43942, [5078]); (43943, [5079]);
    (43944, [5080]); (43945, [5081]); (43946, [5082]); (43947, [5083]);
    (43948, [5084]); (43949, [5085]); (43950, [5086]); (43951, [5087]);
    (43952, [5088]); (43953, [5089]); (43954, [5090]); (43955, [5091]);
    (43956, [5092]); (43957, [5093]); (43958, [5094]); (43959, [5095]);
    (43960, [5096]); (43961, [5097]); (43962, [5098]); (43963, [5099]);
    (43964, [5100]); (43965, [5101]); (43966, [5102]); (43967, [5103]);
    (64256, [70; 70]); (64257, [70; 73]); (64258, [70; 76]); (64259, [70; 70; 73]);
    (64260, [70; 70; 76]); (64261, [83; 84]); (64262, [83; 84]); (64275, [1348; 1350]);
    (64276, [1348; 1333]); (64277, [1348; 1339]); (64278, [1358; 1350]);
    (64279, [1348; 1341]); (65345, [65313]); (65346, [65314]); (65347, [65315]);
    (65348, [65316]); (65349, [65317]); (65350, [65318]); (65351, [65319]);
    (65352, [65320]); (65353, [65321]); (65354, [65322]); (65355, [65323]);
    (65356, [65324]); (65357, [65325]); (65358, [65326]); (65359, [65327]);
    (65360, [65328]); (65361, [65329]); (65362, [65330]); (65363, [65331]);
    (65364, [65332]); (65365, [65333]); (65366, [65334]); (65367, [65335]);
    (65368, [65336]); (65369, [65337]); (65370, [65338]); (66600, [66560]);
    (66601, [66561]); (66602, [66562]); (66603, [66563]); (66604, [66564]);
    (66605, [66565]); (66606, [66566]); (66607, [66567]); (66608, [66568]);
    (66609, [66569]); (66610, [66570]); (66611, [66571]); (66612, [66572]);
    (66613, [66573]); (66614, [66574]); (66615, [66575]); (66616, [66576]);
    (66617, [66577]); (66618, [66578]); (66619, [66579]); (66620, [66580]);
    (66621, [66581]); (66622, [66582]); (66623, [66583]); (66624, [66584]);
    (66625, [66585]); (66626, [66586]); (66627, [66587]); (66628, [66588]);
    (66629, [66589]); (66630, [66590]); (66631, [66591]); (66632, [66592]);
    (66633, [66593]); (66634, [66594]); (66635, [66595]); (66636, [66596]);
    (66637, [66597]); (66638, [66598]); (66639, [66599]); (66776, [66736]);
    (66777, [66737]); (66778, [66738]); (66779, [66739]); (66780, [66740]);
    (66781, [66741]); (66782, [66742]); (66783, [66743]); (66784, [66744]);
    (66785, [66745]); (66786, [66746]); (66787, [66747]); (66788, [66748]);
    (66789, [66749]); (66790, [66750]); (66791, [66751]); (66792, [66752]);
    (66793, [66753]); (66794, [66754]); (66795, [66755]); (66796, [66756]);
    (66797, [66757]); (66798, [66758]); (66799, [66759]); (66800, [66760]);
    (66801, [66761]); (66802, [66762]); (66803, [66763]); (66804, [66764]);
    (66805, [66765]); (66806, [66766]); (66807, [66767]); (66808, [66768]);
    (66809, [66769]); (66810, [66770]); (66811, [66771]); (66967, [66928]);
    (66968, [66929]); (66969, [66930]); (66970, [66931]); (66971, [66932]);
    (66972, [66933]); (66973, [66934]); (66974, [66935]); (66975, [66936]);
    (66976, [66937]); (66977, [66938]); (66979, [66940]); (66980, [66941]);
    (66981, [66942]); (66982, [66943]); (66983, [66944]); (66984, [66945]);
    (66985, [66946]); (66986, [66947]); (66987, [66948]); (66988, [66949]);
    (66989, [66950]); (66990, [66951]); (66991, [66952]); (66992, [66953]);
    (66993, [66954]); (66995, [66956]); (66996, [66957]); (66997, [66958]);
    (66998, [66959]); (66999, [66960]); (67000, [66961]); (67001, [66962]);
    (67003, [66964]); (67004, [66965]); (68800, [68736]); (68801, [68737]);
    (68802, [68738]); (68803, [68739]); (68804, [68740]); (68805, [68741]);
    (68806, [68742]); (68807, [68743]); (68808, [68744]); (68809, [68745]);
    (68810, [68746]); (68811, [68747]); (68812, [68748]); (68813, [68749]);
    (68814, [68750]); (68815, [68751]); (68816, [68752]); (68817, [68753]);
    (68818, [68754]); (68819, [68755]); (68820, [68756]); (68821, [68757]);
    (68822, [68758]); (68823, [68759]); (68824, [68760]); (68825, [68761]);
    (68826, [68762]); (68827, [68763]); (68828, [68764]); (68829, [68765]);
    (68830, [68766]); (68831, [68767]); (68832, [68768]); (68833, [68769]);
    (68834, [68770]); (68835, [68771]); (68836, [68772]); (68837, [68773]);
    (68838, [68774]); (68839, [68775]); (68840, [68776]); (68841, [68777]);
    (68842, [68778]); (68843, [68779]); (68844, [68780]); (68845, [68781]);
    (68846, [68782]); (68847, [68783]); (68848, [68784]); (68849, [68785]);
    (68850, [68786]); (71872, [71840]); (71873, [71841]); (71874, [71842]);
    (71875, [71843]); (71876, [71844]); (71877, [71845]); (71878, [71846]);
    (71879, [71847]); (71880, [71848]); (71881, [71849]); (71882, [71850]);
    (71883, [71851]); (71884, [71852]); (71885, [71853]); (71886, [71854]);
    (71887, [71855]); (71888, [71856]); (71889, [71857]); (71890, [71858]);
    (71891, [71859]); (71892, [71860]); (71893, [71861]); (71894, [71862]);
    (71895, [71863]); (71896, [71864]); (71897, [71865]); (71898, [71866]);
    (71899, [71867]); (71900, [71868]); (71901, [71869]); (71902, [71870]);
    (71903, [71871]); (93792, [93760]); (93793, [93761]); (93794, [93762]);
    (93795, [93763]); (93796, [93764]); (93797, [93765]); (93798, [93766]);
    (93799, [93767]); (93800, [93768]); (93801, [93769]); (93802, [93770]);
    (93803, [93771]); (93804, [93772]); (93805, [93773]); (93806, [93774]);
    (93807, [93775]); (93808, [93776]); (93809, [93777]); (93810, [93778]);
    (93811, [93779]); (93812, [93780]); (93813, [93781]); (93814, [93782]);
    (93815, [93783]); (93816, [93784]); (93817, [93785]); (93818, [93786]);
    (93819, [93787]); (93820, [93788]); (93821, [93789]); (93822, [93790]);
    (93823, [93791]); (125218, [125184]); (125219, [125185]); (125220, [125186]);
    (125221, [125187]); (125222, [125188]); (125223, [125189]); (125224, [125190]);
    (125225, [125191]); (125226, [125192]); (125227, [125193]); (125228, [125194]);
    (125229, [125195]); (125230, [125196]); (125231, [125197]); (125232, [125198]);
    (125233, [125199]); (125234, [125200]); (125235, [125201]); (125236, [125202]);
    (125237, [125203]); (125238, [125204]); (125239, [125205]); (125240, [125206]);
    (125241, [125207]); (125242, [125208]); (125243, [125209]); (125244, [125210]);
    (125245, [125211]); (125246, [125212]); (125247, [125213]); (125248, [125214]);
    (125249, [125215]); (125250, [125216]); (125251, [125217]) ]%N.

Fixpoint assoc {A : Type} (c : N) (table : list (N * A)) : option A :=
  match table with
  | [] => None
  | (k, v) :: table' => if (k =? c)%N then Some v else assoc c table'
  end.

Definition upper_cp (c : N) : list N :=
  match assoc c upper_table with
  | Some cps => cps
  | None => [c]
  end.

(** [s.upper()] *)
Definition upper (s : string) : string := encode (flat_map upper_cp (decode s)).

(** ASCII text, and [upper] as it acts there. *)
Fixpoint is_ascii (s : string) : bool :=
  match s with
  | EmptyString => true
  | String c s' => (code c <? 128)%N && is_ascii s'
  end.

Definition upper_ascii (c : ascii) : ascii :=
  let n := nat_of_ascii c in
  if (97 <=? n)%nat && (n <=? 122)%nat then ascii_of_nat (n - 32) else c.

Fixpoint ascii_upper (s : string) : string :=
  match s with
  | EmptyString => EmptyString
  | String c s' => String (upper_ascii c) (ascii_upper s')
  end.

(** Truthiness of a string: non-empty. *)
Definition string_truthy (v : string) : bool :=
  match v with
  | EmptyString => false
  | _ => true
  end.

(** [s.split(".")] *)
Fixpoint split_dot (s : string) : list string :=
  match s with
  | EmptyString => [EmptyString]
  | String c s' =>
      if Ascii.eqb c "." then EmptyString :: split_dot s'
      else match split_dot s' with
           | p :: ps => String c p :: ps
           | [] => [String c EmptyString]
           end
  end.

(** The decimal digits of Unicode ([isdecimal]), as first and last code
    point of each run: a run starts at a digit zero and counts upwards,
    ten by ten. *)
Definition decimal_ranges : list (N * N) :=
  [ (48, 57); (1632, 1641); (1776, 1785); (1984, 1993); (2406, 2415); (2534, 2543);
    (2662, 2671); (2790, 2799); (2918, 2927); (3046, 3055); (3174, 3183); (3302, 3311);
    (3430, 3439); (3558, 3567); (3664, 3673); (3792, 3801); (3872, 3881); (4160, 4169);
    (4240, 4249); (6112, 6121); (6160, 6169); (6470, 6479); (6608, 6617); (6784, 6793);
    (6800, 6809); (6992, 7001); (7088, 7097); (7232, 7241); (7248, 7257);
    (42528, 42537); (43216, 43225); (43264, 43273); (43472, 43481); (43504, 43513);
    (43600, 43609); (44016, 44025); (65296, 65305); (66720, 66729); (68912, 68921);
    (69734, 69743); (69872, 69881); (69942, 69951); (70096, 70105); (70384, 70393);
    (70736, 70745); (70864, 70873); (71248, 71257); (71360, 71369); (71472, 71481);
    (71904, 71913); (72016, 72025); (72784, 72793); (73040, 73049); (73120, 73129);
    (92768, 92777); (92864, 92873); (93008, 93017); (120782, 120831); (123200, 123209);
    (123632, 123641); (125264, 125273); (130032, 130041) ]%N.

(** The other characters that [isdigit] accepts: superscripts, circled
    digits and the like.  [int] rejects them. *)
Definition other_digit_ranges : list (N * N) :=
  [ (178, 179); (185, 185); (4969, 4977); (6618, 6618); (8304, 8304); (8308, 8313);
    (8320, 8329); (9312, 9320); (9332, 9340); (9352, 9360); (9450, 9450); (9461, 9469);
    (9471, 9471); (10102, 10110); (10112, 10120); (10122, 10130); (68160, 68163);
    (69216, 69224); (69714, 69722); (127232, 127242) ]%N.

Definition in_range (c : N) (r : N * N) : bool := (fst r <=? c)%N && (c <=? snd r)%N.

Definition decimal_value (c : N) : option N :=
  match find (in_range c) decimal_ranges with
  | Some r => Some ((c - fst r) mod 10)%N
  | None => None
  end.

Definition isdigit_cp (c : N) : bool :=
  existsb (in_range c) decimal_ranges || existsb (in_range c) other_digit_ranges.

(** [s.isdigit()]: at least one character, and all of them digits. *)
Definition isdigit (s : string) : bool :=
  match decode s with
  | [] => false
  | cps => forallb isdigit_cp cps
  end.

(** ASCII digits. *)
Definition is_digit (c : ascii) : bool :=
  let n := nat_of_ascii c in (48 <=? n)%nat && (n <=? 57)%nat.

Fixpoint all_digits (s : string) : bool :=
  match s with
  | EmptyString => true
  | String c s' => is_digit c && all_digits s'
  end.

Fixpoint int_of_digits (acc : N) (s : string) : N :=
  match s with
  | EmptyString => acc
  | String c s' => int_of_digits (acc * 10 + N.of_nat (nat_of_ascii c - 48))%N s'
  end.

(** [sys.get_int_max_str_digits()], as CPython 3.11 starts with. *)
Definition int_max_str_digits : nat := 4300.

(** The decimal digits a text starts with: their value, their number,
    and what follows them. *)
Fixpoint decimal_run (acc : N) (digits : nat) (cps : list N) : N * nat * list N :=
  match cps with
  | [] => (acc, digits, [])
  | c :: rest =>
      match decimal_value c with
      | Some d => decimal_run (acc * 10 + d)%N (S digits) rest
      | None => (acc, digits, cps)
      end
  end.

(** [int(s)] for a text that [isdigit] accepted (no sign, blank or
    underscore). *)
Definition py_int_of_string (s : string) : result N :=
  let '(value, digits, rest) := decimal_run 0 0 (decode s) in
  if (int_max_str_digits <? digits)%nat
  then Raise (ValueError "Exceeds the limit (4300 digits) for integer string conversion")
  else
    match digits, rest with
    | S _, [] => Ok value
    | _, _ => Raise (ValueError "invalid literal for int() with base 10")
    end.

(** [str(n)], without and with the limit on the number of digits. *)
Definition py_str (n : N) : string := NilZero.string_of_uint (N.to_uint n).

Definition py_format_int (n : N) : result string :=
  let text := py_str n in
  if (int_max_str_digits <? String.length text)%nat
  then Raise (ValueError "Exceeds the limit (4300 digits) for integer string conversion")
  else Ok text.

(** A number whose decimal text is within the limit. *)
Definition convertible (n : N) : Prop :=
  (String.length (py_str n) <=? int_max_str_digits)%nat = true.

End Py.
Import Py.

(* ===================================================================== *)
(** ** Configuration ([core/config_manager.py]) and instrument metadata
       ([data/symbol_info.py]) *)
(* ===================================================================== *)

Module Config.

Record ProfileConfig : Type := {
  profile_name : string;
  risk_per_trade_pct : Q;
  max_daily_loss_pct : Q;
  max_daily_trades : Z;
  max_consecutive_losses_for_cooldown : Z;
  min_account_balance_usdt : Q
}.

Record RiskLimitsConfig : Type := {
  global_drawdown_pct : Q;
  limited_mode_recovery_pct : Q;
  limited_mode_duration_minutes : Z;
  cooldown_short_minutes : Z;
  cooldown_long_minutes : Z;
  reference_account_size_usdt : Q
}.

(** [BotConfig], restricted to the two sections the modelled code reads. *)
Record BotConfig : Type := {
  profile : ProfileConfig;
  risk_limits : RiskLimitsConfig
}.

End Config.
Import Config.

Module Symbols.

Record SymbolInfo : Type := {
  symbol : string;
  base_asset : string;
  quote_asset : string;
  min_qty : Q;
  qty_step : Q;
  tick_size : Q;
  leverage : Z;
  margin_mode : string
}.

Definition _BTCUSDT_INFO : SymbolInfo := {|
  symbol := "BTCUSDT"; base_asset := "BTC"; quote_asset := "USDT";
  min_qty := 1 # 1000; qty_step := 1 # 1000; tick_size := 1 # 10;
  leverage := 5; margin_mode := "ISOLATED" |}.

Definition _SOLUSDT_INFO : SymbolInfo := {|
  symbol := "SOLUSDT"; base_asset := "SOL"; quote_asset := "USDT";
  min_qty := 1 # 10; qty_step := 1 # 10; tick_size := 1 # 1000;
  leverage := 3; margin_mode := "ISOLATED" |}.

Definition _SYMBOL_MAP : list (string * SymbolInfo) :=
  [ (symbol _BTCUSDT_INFO, _BTCUSDT_INFO); (symbol _SOLUSDT_INFO, _SOLUSDT_INFO) ].

Fixpoint dict_get {A : Type} (d : list (string * A)) (k : string) : option A :=
  match d with
  | [] => None
  | (k', v) :: d' => if String.eqb k k' then Some v else dict_get d' k
  end.

Definition get_symbol_info (name : string) : result SymbolInfo :=
  match dict_get _SYMBOL_MAP (upper name) with
  | Some info => Ok info
  | None => Raise (KeyError "Symbol metadata not found")
  end.

End Symbols.
Import Symbols.

(* ===================================================================== *)
(** ** RiskManager ([risk/risk_manager.py]) *)
(* ===================================================================== *)

Module RiskManager.

Record RiskResult : Type := {
  qty : Q;
  entry_price : Q;
  sl_price : Q;
  tp_price : Q;
  risk_amount : Q
}.

Definition err_stop_distance : exn := ValueError "Stop distance must be positive".
Definition err_below_minimum : exn := ValueError "Position size below exchange minimum".

Section WithInstrument.

Variable config : BotConfig.
Variable symbol_info : SymbolInfo.

(** [precision = int(round(1 / step))] *)
Definition precision_of_step : result Z :=
  match py_truediv 1 (qty_step symbol_info) with
  | Raise e => Raise e
  | Ok inv => Ok (py_round inv)
  end.

(** [return int(qty * precision) / precision] *)
Definition _apply_precision (qty : Q) : result Q :=
  match precision_of_step with
  | Raise e => Raise e
  | Ok precision =>
      py_truediv (inject_Z (py_int (qty * inject_Z precision))) (inject_Z precision)
  end.

Definition evaluate (entry_price sl_price tp_price : Q) : result RiskResult :=
  let reference := reference_account_size_usdt (risk_limits config) in
  let risk_amount := reference * risk_per_trade_pct (profile config) in
  let stop_distance := Qabs (entry_price - sl_price) in
  if Qle_bool stop_distance 0 then Raise err_stop_distance
  else
    match _apply_precision (risk_amount / stop_distance) with
    | Raise e => Raise e
    | Ok qty =>
        if Qlt_bool qty (min_qty symbol_info) then Raise err_below_minimum
        else Ok {| qty := qty;
                   entry_price := entry_price;
                   sl_price := sl_price;
                   tp_price := tp_price;
                   risk_amount := risk_amount |}
    end.

End WithInstrument.

(** The quantity grid as the specification words it: the largest multiple of
    [step] that does not exceed [raw]. *)
Definition floor_to_step (raw step : Q) : Q :=
  inject_Z (Qfloor (raw / step)) * step.

(** An instrument whose step is the reciprocal of a whole number (0.1,
    0.001, ...) and whose minimum order size is positive.  Every entry of
    [_SYMBOL_MAP] is of this kind. *)
Definition decimal_step (info : SymbolInfo) : bool :=
  Qlt_bool 0 (qty_step info)
  && Qeq_bool (qty_step info * inject_Z (py_round (1 / qty_step info))) 1
  && Qlt_bool 0 (min_qty info).

End RiskManager.

(* ===================================================================== *)
(** ** StateManager ([core/state_manager.py]) *)
(* ===================================================================== *)

Module StateManager.

(** Instants and calendar days.  [trading_day] is the ISO string of a UTC
    date in the source; two such strings are equal exactly when the dates
    are, so the day is kept as its ordinal (days since the epoch). *)
Definition datetime : Type := Z.
Definition minute_us : Z := 60000000.
Definition day_us : Z := 86400000000.
Definition timedelta_minutes (m : Z) : Z := (m * minute_us)%Z.
Definition utc_date (t : datetime) : Z := (t / day_us)%Z.

Inductive BotMode : Type := NORMAL | COOLDOWN | LIMITED | HALT.

Definition BotMode_eqb (a b : BotMode) : bool :=
  match a, b with
  | NORMAL, NORMAL | COOLDOWN, COOLDOWN | LIMITED, LIMITED | HALT, HALT => true
  | _, _ => false
  end.

(** [mode.value] and [BotMode(value)] *)
Definition BotMode_value (m : BotMode) : string :=
  match m with
  | NORMAL => "NORMAL" | COOLDOWN => "COOLDOWN" | LIMITED => "LIMITED" | HALT => "HALT"
  end.

Definition BotMode_of_value (v : string) : result BotMode :=
  if String.eqb v "NORMAL" then Ok NORMAL
  else if String.eqb v "COOLDOWN" then Ok COOLDOWN
  else if String.eqb v "LIMITED" then Ok LIMITED
  else if String.eqb v "HALT" then Ok HALT
  else Raise (ValueError "not a valid BotMode").

Record SessionStats : Type := {
  trading_day : Z;
  daily_pnl : Q;
  daily_trades : Z;
  consecutive_losses : Z
}.

(** [SessionStats(trading_day=d)] with the dataclass defaults. *)
Definition new_session (d : Z) : SessionStats :=
  {| trading_day := d; daily_pnl := 0; daily_trades := 0; consecutive_losses := 0 |}.

Record EquityStats : Type := {
  cumulative_pnl : Q;
  peak_equity : Q;
  max_drawdown_pct : Q
}.

Record TradeResult : Type := {
  pnl : Q;
  timestamp : datetime;
  fees : Q
}.

Definition net_pnl (r : TradeResult) : Q := pnl r - fees r.
Definition is_loss (r : TradeResult) : bool := Qlt_bool (net_pnl r) 0.

(** [_cooldown_counters]: a dict that holds exactly the keys "short" and
    "long" from construction on. *)
Record Counters : Type := { short : Z; long : Z }.

(** The attributes of a [StateManager] instance ([_config] and [_now] are
    the parameters of the operations below). *)
Record State : Type := {
  _session_stats : SessionStats;
  _equity_stats : EquityStats;
  _mode : BotMode;
  _cooldown_until : option datetime;
  _next_mode_after_cooldown : BotMode;
  _limited_until : option datetime;
  _limited_exit_equity : option Q;
  _internal_version : string;
  _cooldown_counters : Counters;
  _cooldown_enabled : bool
}.

Definition set_session (x : SessionStats) (s : State) : State :=
  {| _session_stats := x; _equity_stats := _equity_stats s; _mode := _mode s;
     _cooldown_until := _cooldown_until s;
     _next_mode_after_cooldown := _next_mode_after_cooldown s;
     _limited_until := _limited_until s; _limited_exit_equity := _limited_exit_equity s;
     _internal_version := _internal_version s;
     _cooldown_counters := _cooldown_counters s; _cooldown_enabled := _cooldown_enabled s |}.

Definition set_equity (x : EquityStats) (s : State) : State :=
  {| _session_stats := _session_stats s; _equity_stats := x; _mode := _mode s;
     _cooldown_until := _cooldown_until s;
     _next_mode_after_cooldown := _next_mode_after_cooldown s;
     _limited_until := _limited_until s; _limited_exit_equity := _limited_exit_equity s;
     _internal_version := _internal_version s;
     _cooldown_counters := _cooldown_counters s; _cooldown_enabled := _cooldown_enabled s |}.

Definition set_mode (x : BotMode) (s : State) : State :=
  {| _session_stats := _session_stats s; _equity_stats := _equity_stats s; _mode := x;
     _cooldown_until := _cooldown_until s;
     _next_mode_after_cooldown := _next_mode_after_cooldown s;
     _limited_until := _limited_until s; _limited_exit_equity := _limited_exit_equity s;
     _internal_version := _internal_version s;
     _cooldown_counters := _cooldown_counters s; _cooldown_enabled := _cooldown_enabled s |}.

Definition set_cooldown_until (x : option datetime) (s : State) : State :=
  {| _session_stats := _session_stats s; _equity_stats := _equity_stats s; _mode := _mode s;
     _cooldown_until := x;
     _next_mode_after_cooldown := _next_mode_after_cooldown s;
     _limited_until := _limited_until s; _limited_exit_equity := _limited_exit_equity s;
     _internal_version := _internal_version s;
     _cooldown_counters := _cooldown_counters s; _cooldown_enabled := _cooldown_enabled s |}.

Definition set_next_mode (x : BotMode) (s : State) : State :=
  {| _session_stats := _session_stats s; _equity_stats := _equity_stats s; _mode := _mode s;
     _cooldown_until := _cooldown_until s;
     _next_mode_after_cooldown := x;
     _limited_until := _limited_until s; _limited_exit_equity := _limited_exit_equity s;
     _internal_version := _internal_version s;
     _cooldown_counters := _cooldown_counters s; _cooldown_enabled := _cooldown_enabled s |}.

Definition set_limited_until (x : option datetime) (s : State) : State :=
  {| _session_stats := _session_stats s; _equity_stats := _equity_stats s; _mode := _mode s;
     _cooldown_until := _cooldown_until s;
     _next_mode_after_cooldown := _next_mode_after_cooldown s;
     _limited_until := x; _limited_exit_equity := _limited_exit_equity s;
     _internal_version := _internal_version s;
     _cooldown_counters := _cooldown_counters s; _cooldown_enabled := _cooldown_enabled s |}.

Definition set_limited_exit_equity (x : option Q) (s : State) : State :=
  {| _session_stats := _session_stats s; _equity_stats := _equity_stats s; _mode := _mode s;
     _cooldown_until := _cooldown_until s;
     _next_mode_after_cooldown := _next_mode_after_cooldown s;
     _limited_until := _limited_until s; _limited_exit_equity := x;
     _internal_version := _internal_version s;
     _cooldown_counters := _cooldown_counters s; _cooldown_enabled := _cooldown_enabled s |}.

Definition set_internal_version (x : string) (s : State) : State :=
  {| _session_stats := _session_stats s; _equity_stats := _equity_stats s; _mode := _mode s;
     _cooldown_until := _cooldown_until s;
     _next_mode_after_cooldown := _next_mode_after_cooldown s;
     _limited_until := _limited_until s; _limited_exit_equity := _limited_exit_equity s;
     _internal_version := x;
     _cooldown_counters := _cooldown_counters s; _cooldown_enabled := _cooldown_enabled s |}.

Definition set_counters (x : Counters) (s : State) : State :=
  {| _session_stats := _session_stats s; _equity_stats := _equity_stats s; _mode := _mode s;
     _cooldown_until := _cooldown_until s;
     _next_mode_after_cooldown := _next_mode_after_cooldown s;
     _limited_until := _limited_until s; _limited_exit_equity := _limited_exit_equity s;
     _internal_version := _internal_version s;
     _cooldown_counters := x; _cooldown_enabled := _cooldown_enabled s |}.

(** Truthiness of an optional number ([None] and [0.0] are both falsy). *)
Definition truthy_number (x : option Q) : bool :=
  match x with
  | Some v => negb (Qeq_bool v 0)
  | None => false
  end.

(** [until and now >= until]: a [datetime] is always truthy. *)
Definition reached (now : datetime) (until : option datetime) : bool :=
  match until with
  | Some t => (t <=? now)%Z
  | None => false
  end.

Section WithConfig.

Variable config : BotConfig.

Definition reference : Q := reference_account_size_usdt (risk_limits config).

Definition _max_daily_loss_abs : Q := reference * max_daily_loss_pct (profile config).

Definition _current_equity (s : State) : Q :=
  reference + cumulative_pnl (_equity_stats s).

Definition _maybe_roll_daily_stats (timestamp : datetime) (s : State) : State :=
  let trading_day' := utc_date timestamp in
  if negb (trading_day' =? trading_day (_session_stats s))%Z
  then set_session (new_session trading_day') s
  else s.

Definition _update_drawdown_metrics (s : State) : State :=
  let e := _equity_stats s in
  let current_equity := reference + cumulative_pnl e in
  let peak := py_max (peak_equity e) current_equity in
  if Qle_bool peak 0
  then set_equity {| cumulative_pnl := cumulative_pnl e; peak_equity := peak;
                     max_drawdown_pct := max_drawdown_pct e |} s
  else
    let drawdown := (peak - current_equity) / peak in
    set_equity {| cumulative_pnl := cumulative_pnl e; peak_equity := peak;
                  max_drawdown_pct := py_max (max_drawdown_pct e) drawdown |} s.

Definition _enter_cooldown (now : datetime) (minutes : Z) (next_mode : BotMode)
    (s : State) : State :=
  if (minutes <=? 0)%Z then set_mode next_mode s
  else
    let cooldown_until := (now + timedelta_minutes minutes)%Z in
    let s1 := set_next_mode next_mode
                (set_cooldown_until (Some cooldown_until) (set_mode COOLDOWN s)) in
    if BotMode_eqb next_mode LIMITED then
      let limited_until :=
        (cooldown_until
         + timedelta_minutes (limited_mode_duration_minutes (risk_limits config)))%Z in
      let recovery :=
        _current_equity s1
        + reference * limited_mode_recovery_pct (risk_limits config) in
      set_limited_exit_equity (Some recovery) (set_limited_until (Some limited_until) s1)
    else s1.

Definition _trigger_daily_loss_cooldown (now : datetime) (s : State) : State :=
  if negb (_cooldown_enabled s) then s
  else
    let minutes := cooldown_long_minutes (risk_limits config) in
    let c := _cooldown_counters s in
    _enter_cooldown now minutes LIMITED
      (set_counters {| short := short c; long := (long c + 1)%Z |} s).

Definition _trigger_short_cooldown (now : datetime) (s : State) : State :=
  if negb (_cooldown_enabled s) then s
  else
    let minutes := cooldown_short_minutes (risk_limits config) in
    let c := _cooldown_counters s in
    _enter_cooldown now minutes NORMAL
      (set_counters {| short := (short c + 1)%Z; long := long c |} s).

Definition _evaluate_timers (now : datetime) (s : State) : State :=
  let s1 :=
    if BotMode_eqb (_mode s) COOLDOWN && reached now (_cooldown_until s)
    then set_cooldown_until None (set_mode (_next_mode_after_cooldown s) s)
    else s in
  if BotMode_eqb (_mode s1) LIMITED && reached now (_limited_until s1)
  then set_limited_exit_equity None (set_limited_until None (set_mode NORMAL s1))
  else s1.

Definition _evaluate_limited_exit (s : State) : State :=
  if BotMode_eqb (_mode s) LIMITED && truthy_number (_limited_exit_equity s) then
    match _limited_exit_equity s with
    | Some threshold =>
        if Qle_bool threshold (_current_equity s)
        then set_limited_until None (set_limited_exit_equity None (set_mode NORMAL s))
        else s
    | None => s
    end
  else s.

Definition _evaluate_global_drawdown (s : State) : State :=
  let dd_pct := max_drawdown_pct (_equity_stats s) in
  if Qle_bool (global_drawdown_pct (risk_limits config)) dd_pct
  then set_mode HALT s
  else s.

(** The bookkeeping lines of [on_trade_closed] that precede the transition
    checks. *)
Definition accumulate (trade_result : TradeResult) (s : State) : State :=
  let s0 := _maybe_roll_daily_stats (timestamp trade_result) s in
  let pnl := net_pnl trade_result in
  let ss := _session_stats s0 in
  let s1 := set_session
              {| trading_day := trading_day ss;
                 daily_pnl := daily_pnl ss + pnl;
                 daily_trades := (daily_trades ss + 1)%Z;
                 consecutive_losses :=
                   if is_loss trade_result then (consecutive_losses ss + 1)%Z else 0%Z |}
              s0 in
  let e := _equity_stats s1 in
  let s2 := set_equity
              {| cumulative_pnl := cumulative_pnl e + pnl;
                 peak_equity := peak_equity e;
                 max_drawdown_pct := max_drawdown_pct e |}
              s1 in
  _update_drawdown_metrics s2.

Definition daily_loss_breached (s : State) : bool :=
  Qle_bool (daily_pnl (_session_stats s)) (- _max_daily_loss_abs).

Definition loss_streak_reached (s : State) : bool :=
  (max_consecutive_losses_for_cooldown (profile config)
   <=? consecutive_losses (_session_stats s))%Z.

(** [now] is what [self._now()] answers when [_enter_cooldown] asks. *)
Definition on_trade_closed (now : datetime) (trade_result : TradeResult) (s : State)
    : State :=
  let s2 := accumulate trade_result s in
  let s3 :=
    if daily_loss_breached s2 then _trigger_daily_loss_cooldown now s2
    else if loss_streak_reached s2 then _trigger_short_cooldown now s2
    else s2 in
  _evaluate_limited_exit (_evaluate_global_drawdown s3).

Definition can_trade_now (now : datetime) (s : State) : (bool * option string) * State :=
  let s' := _evaluate_timers now s in
  match _mode s' with
  | HALT => ((false, Some "HALT"), s')
  | COOLDOWN => ((false, Some "COOLDOWN"), s')
  | _ => ((true, None), s')
  end.

Definition current_mode (now : datetime) (s : State) : BotMode * State :=
  let s' := _evaluate_timers now s in (_mode s', s').

(** *** Persistence: [export_state], [_hydrate], [__init__] *)

(** The "cooldown_counters" entry of a snapshot: each key may be missing. *)
Record CountersPayload : Type := { c_short : option Z; c_long : option Z }.

(** A snapshot dictionary.  A field is [None] when the key is missing; for
    the keys read through [payload.get(..)] a JSON null reads the same.
    ISO strings of instants are kept as the instants they denote
    ([datetime.fromisoformat] inverts [isoformat]). *)
Record Payload : Type := {
  p_mode : option string;
  p_session_stats : option SessionStats;
  p_equity_stats : option EquityStats;
  p_cooldown_until : option datetime;
  p_next_mode_after_cooldown : option string;
  p_limited_until : option datetime;
  p_limited_exit_equity : option Q;
  p_internal_version : option string;
  p_cooldown_counters : option CountersPayload
}.

Definition export_state (s : State) : Payload :=
  {| p_mode := Some (BotMode_value (_mode s));
     p_session_stats := Some (_session_stats s);
     p_equity_stats := Some (_equity_stats s);
     p_cooldown_until := _cooldown_until s;
     p_next_mode_after_cooldown := Some (BotMode_value (_next_mode_after_cooldown s));
     p_limited_until := _limited_until s;
     p_limited_exit_equity := _limited_exit_equity s;
     p_internal_version := Some (_internal_version s);
     p_cooldown_counters :=
       Some {| c_short := Some (short (_cooldown_counters s));
               c_long := Some (long (_cooldown_counters s)) |} |}.

(** [dict.update] on the two counters. *)
Definition counters_update (c : Counters) (u : CountersPayload) : Counters :=
  {| short := match c_short u with Some v => v | None => short c end;
     long := match c_long u with Some v => v | None => long c end |}.

(** A dict is truthy when it has at least one key. *)
Definition counters_payload_truthy (u : CountersPayload) : bool :=
  match c_short u, c_long u with
  | None, None => false
  | _, _ => true
  end.

Definition _hydrate (payload : Payload) (s : State) : result State :=
  match
    (match p_mode payload with
     | Some v =>
         match BotMode_of_value v with
         | Ok m => Ok (set_mode m s)
         | Raise e => Raise e
         end
     | None => Ok s
     end)
  with
  | Raise e => Raise e
  | Ok s1 =>
      let s2 := match p_session_stats payload with
                | Some x => set_session x s1 | None => s1 end in
      let s3 := match p_equity_stats payload with
                | Some x => set_equity x s2 | None => s2 end in
      let s4 := match p_cooldown_until payload with
                | Some t => set_cooldown_until (Some t) s3 | None => s3 end in
      match BotMode_of_value
              (match p_next_mode_after_cooldown payload with
               | Some v => v | None => "NORMAL" end)
      with
      | Raise e => Raise e
      | Ok next =>
          let s5 := set_next_mode next s4 in
          let s6 := match p_limited_until payload with
                    | Some t => set_limited_until (Some t) s5 | None => s5 end in
          let s7 := set_limited_exit_equity (p_limited_exit_equity payload) s6 in
          let s8 := match p_internal_version payload with
                    | Some v => if string_truthy v then set_internal_version v s7 else s7
                    | None => s7 end in
          let s9 := match p_cooldown_counters payload with
                    | Some u =>
                        if counters_payload_truthy u
                        then set_counters (counters_update (_cooldown_counters s8) u) s8
                        else s8
                    | None => s8 end in
          Ok s9
      end
  end.

(** [if initial_state:] -- the snapshot has at least one key.  (A snapshot
    whose only keys carry null is skipped here although Python would
    hydrate it; [_hydrate] changes nothing on such a snapshot.) *)
Definition payload_truthy (p : Payload) : bool :=
  match p_mode p, p_session_stats p, p_equity_stats p, p_cooldown_until p,
        p_next_mode_after_cooldown p, p_limited_until p, p_limited_exit_equity p,
        p_internal_version p, p_cooldown_counters p with
  | None, None, None, None, None, None, None, None, None => false
  | _, _, _, _, _, _, _, _, _ => true
  end.

(** [StateManager(config, initial_state, now_provider=..)]; [now] is the
    clock reading taken by [_current_day]. *)
Definition __init__ (now : datetime) (initial_state : option Payload) : result State :=
  let utc_today := utc_date now in
  let s0 :=
    {| _session_stats := new_session utc_today;
       _equity_stats := {| cumulative_pnl := 0; peak_equity := reference;
                           max_drawdown_pct := 0 |};
       _mode := NORMAL;
       _cooldown_until := None;
       _next_mode_after_cooldown := NORMAL;
       _limited_until := None;
       _limited_exit_equity := None;
       _internal_version := "0.0.1";
       _cooldown_counters := {| short := 0; long := 0 |};
       _cooldown_enabled := true |} in
  match initial_state with
  | Some p => if payload_truthy p then _hydrate p s0 else Ok s0
  | None => Ok s0
  end.

(** [f"{major}.{minor}.{patch}"] *)
Definition format_version (major minor patch : N) : result string :=
  match py_format_int major with
  | Raise e => Raise e
  | Ok a =>
      match py_format_int minor with
      | Raise e => Raise e
      | Ok b =>
          match py_format_int patch with
          | Raise e => Raise e
          | Ok c => Ok (a ++ "." ++ b ++ "." ++ c)
          end
      end
  end.

(** A [ValueError] out of [int] or out of the formatting leaves the
    machine as it was. *)
Definition bump_internal_version (s : State) : result string * State :=
  let parts := split_dot (_internal_version s) in
  match parts with
  | [a; b; c] =>
      if isdigit a && isdigit b && isdigit c then
        match py_int_of_string a with
        | Raise e => (Raise e, s)
        | Ok major =>
            match py_int_of_string b with
            | Raise e => (Raise e, s)
            | Ok minor =>
                match py_int_of_string c with
                | Raise e => (Raise e, s)
                | Ok patch =>
                    let patch := (patch + 1)%N in
                    match format_version major minor patch with
                    | Raise e => (Raise e, s)
                    | Ok v => (Ok v, set_internal_version v s)
                    end
                end
            end
        end
      else (Ok "0.0.1", set_internal_version "0.0.1" s)
  | _ => (Ok "0.0.1", set_internal_version "0.0.1" s)
  end.

(** [current_cooldown_countdown]: [now] is read by [_evaluate_timers],
    [now'] by the method itself. *)
Definition current_cooldown_countdown (now now' : datetime) (s : State)
    : (option string * Q) * State :=
  let s' := _evaluate_timers now s in
  match _mode s', _cooldown_until s' with
  | COOLDOWN, Some until =>
      let minutes_left := py_max 0 (inject_Z (until - now') / inject_Z minute_us) in
      let cooldown_type :=
        if BotMode_eqb (_next_mode_after_cooldown s') LIMITED then "LONG" else "SHORT" in
      ((Some cooldown_type, minutes_left), s')
  | _, _ => ((None, 0), s')
  end.

(** *** Driving the machine *)

(** What a caller can do to the machine, each with the clock reading the
    call observes. *)
Inductive event : Type :=
| TradeClosed (now : datetime) (r : TradeResult)
| CanTradeNow (now : datetime)
| CurrentMode (now : datetime)
| CooldownCountdown (now now' : datetime)
| BumpVersion
| ReadAttributes.

Inductive observation : Type :=
| Returned_none
| Returned_can_trade (allowed : bool) (reason : option string)
| Returned_mode (m : BotMode)
| Returned_countdown (kind : option string) (minutes_left : Q)
| Returned_version (v : string)
| Raised (e : exn)
| Returned_attributes (ss : SessionStats) (es : EquityStats) (c : Counters) (v : string).

Definition step (s : State) (e : event) : observation * State :=
  match e with
  | TradeClosed now r => (Returned_none, on_trade_closed now r s)
  | CanTradeNow now =>
      let '((allowed, reason), s') := can_trade_now now s in
      (Returned_can_trade allowed reason, s')
  | CurrentMode now =>
      let '(m, s') := current_mode now s in (Returned_mode m, s')
  | CooldownCountdown now now' =>
      let '((kind, minutes), s') := current_cooldown_countdown now now' s in
      (Returned_countdown kind minutes, s')
  | BumpVersion =>
      match bump_internal_version s with
      | (Ok v, s') => (Returned_version v, s')
      | (Raise e, s') => (Raised e, s')
      end
  | ReadAttributes =>
      (Returned_attributes (_session_stats s) (_equity_stats s) (_cooldown_counters s)
         (_internal_version s), s)
  end.

Fixpoint run (s : State) (es : list event) : list observation * State :=
  match es with
  | [] => ([], s)
  | e :: es' =>
      let '(o, s1) := step s e in
      let '(os, s2) := run s1 es' in
      (o :: os, s2)
  end.

(** States a machine can be in: built by the constructor (fresh or from a
    snapshot) and then driven by events. *)
Inductive reachable : State -> Prop :=
| reachable_init now p s : __init__ now p = Ok s -> reachable s
| reachable_step s e : reachable s -> reachable (snd (step s e)).

End WithConfig.

(** Accessors: every event but the closing of a trade. *)
Definition is_accessor (e : event) : bool :=
  match e with
  | TradeClosed _ _ => false
  | _ => true
  end.

(** What the constructor never changes and never empties. *)
Definition well_formed (s : State) : Prop :=
  string_truthy (_internal_version s) = true /\ _cooldown_enabled s = true.

End StateManager.

(* ===================================================================== *)
(** ** OrderExecutor ([execution/order_executor.py]) *)
(* ===================================================================== *)

Module OrderExecutor.

Definition datetime : Type := Z.
Definition timedelta_minutes (m : Z) : Z := (m * 60000000)%Z.

Record ActiveTrade : Type := {
  side : string;
  qty : Q;
  entry_price : Q;
  sl_price : Q;
  tp_price : Q;
  opened_at : datetime;
  entry_order_id : string;
  time_stop_minutes : Z;
  entry_exec_time_ms : Z;
  last_exec_time_ms : Z
}.

Definition is_time_stop_reached (self : ActiveTrade) (now : datetime) : bool :=
  if (time_stop_minutes self <=? 0)%Z then false
  else
    let limit := (opened_at self + timedelta_minutes (time_stop_minutes self))%Z in
    (limit <=? now)%Z.

Definition with_last_exec_time_ms (v : Z) (t : ActiveTrade) : ActiveTrade :=
  {| side := side t; qty := qty t; entry_price := entry_price t; sl_price := sl_price t;
     tp_price := tp_price t; opened_at := opened_at t;
     entry_order_id := entry_order_id t; time_stop_minutes := time_stop_minutes t;
     entry_exec_time_ms := entry_exec_time_ms t; last_exec_time_ms := v |}.

(** *** The exchange as the executor sees it

    Rows are what the code has in hand after its [row.get(key, default)]
    lookups and [float(..)] / [int(..)] conversions. *)

Record OrderRequest : Type := {
  o_side : string;
  o_qty : Q;
  o_price : option Q;
  o_order_type : string;
  o_sl : option Q;
  o_tp : option Q
}.

Record PositionRow : Type := {
  p_size : Q;
  p_side : string;
  p_stopLoss : Q;
  p_takeProfit : Q;
  p_entryPrice : Q;
  p_positionIdx : string
}.

Record ExecutionRow : Type := {
  x_orderId : string;
  x_side : string;
  x_execPrice : Q;
  x_execTime : Z
}.

(** Everything outside the process: the three [BybitClient] calls the
    executor makes and the two clocks it reads.  The executor is
    deterministic given the answers it receives, so an environment is the
    answer to the [n]-th interaction, for every [n]; an answer is either a
    returned value or a raised exception.  [create_order] answers with the
    ["orderId"] of [resp["result"]] when there is one. *)
Record Environment : Type := {
  create_order : nat -> OrderRequest -> result (option string);
  get_position : nat -> result (list PositionRow);
  get_executions : nat -> option Z -> result (list ExecutionRow);
  time_ms : nat -> Z;
  utcnow : nat -> datetime
}.

(** *** Executor state

    [ActiveTrade] objects are mutable and shared with the caller, so they
    live in a store and the slot holds a reference. *)
Definition ref : Type := nat.

Record Executor : Type := {
  store : ref -> ActiveTrade;
  next_ref : ref;
  _active_trade : option ref;
  interactions : nat
}.

(** Computations that read and write the executor, talk to the
    environment, and may raise; what was written before a raise stays
    written. *)
Definition M (A : Type) : Type := Executor -> result A * Executor.

Definition ret {A : Type} (a : A) : M A := fun ex => (Ok a, ex).

Definition bind {A B : Type} (m : M A) (k : A -> M B) : M B :=
  fun ex =>
    match m ex with
    | (Ok a, ex') => k a ex'
    | (Raise e, ex') => (Raise e, ex')
    end.

Notation "x <- m ;; k" := (bind m (fun x => k))
  (at level 61, m at next level, right associativity).
Notation "m ;;; k" := (bind m (fun _ => k))
  (at level 61, right associativity).

Definition interact {A : Type} (answer : nat -> result A) : M A :=
  fun ex =>
    (answer (interactions ex),
     {| store := store ex; next_ref := next_ref ex;
        _active_trade := _active_trade ex;
        interactions := S (interactions ex) |}).

Definition get_slot : M (option ref) := fun ex => (Ok (_active_trade ex), ex).

Definition set_slot (r : option ref) : M unit :=
  fun ex =>
    (Ok tt, {| store := store ex; next_ref := next_ref ex;
               _active_trade := r; interactions := interactions ex |}).

Definition deref (r : ref) : M ActiveTrade := fun ex => (Ok (store ex r), ex).

Definition new_object (t : ActiveTrade) : M ref :=
  fun ex =>
    let r := next_ref ex in
    (Ok r, {| store := fun r' => if Nat.eqb r' r then t else store ex r';
              next_ref := S r;
              _active_trade := _active_trade ex;
              interactions := interactions ex |}).

Definition set_last_exec_time_ms (r : ref) (v : Z) : M unit :=
  fun ex =>
    (Ok tt, {| store := fun r' => if Nat.eqb r' r
                                  then with_last_exec_time_ms v (store ex r)
                                  else store ex r';
               next_ref := next_ref ex;
               _active_trade := _active_trade ex;
               interactions := interactions ex |}).

(** [sorted(executions, key=lambda row: int(row.get("execTime", 0)))]:
    a stable sort. *)
Fixpoint insert_by_time (row : ExecutionRow) (l : list ExecutionRow) : list ExecutionRow :=
  match l with
  | [] => [row]
  | y :: l' =>
      if (x_execTime row <=? x_execTime y)%Z then row :: l
      else y :: insert_by_time row l'
  end.

Fixpoint sorted_by_time (l : list ExecutionRow) : list ExecutionRow :=
  match l with
  | [] => []
  | row :: l' => insert_by_time row (sorted_by_time l')
  end.

(** The body of the [for row in sorted_execs] loop of [_find_exit_fill]:
    the first row it returns on, if any. *)
Fixpoint first_exit_row (trade_side : string) (watermark : Z) (rows : list ExecutionRow)
    : option ExecutionRow :=
  match rows with
  | [] => None
  | row :: rest =>
      if (x_execTime row <=? watermark)%Z then first_exit_row trade_side watermark rest
      else
        let side := upper (x_side row) in
        if String.eqb trade_side "LONG" && String.eqb side "SELL" then Some row
        else if String.eqb trade_side "SHORT" && String.eqb side "BUY" then Some row
        else first_exit_row trade_side watermark rest
  end.

Definition truthy_int (x : option Z) : bool :=
  match x with
  | Some v => negb (v =? 0)%Z
  | None => false
  end.

Definition truthy_float (x : option Q) : bool :=
  match x with
  | Some v => negb (Qeq_bool v 0)
  | None => false
  end.

Definition order_id_of (resp : option string) : string :=
  match resp with
  | Some id => id
  | None => "unknown"
  end.

Section WithEnvironment.

Variable env : Environment.

(** [for _ in range(5): time.sleep(1); ...] *)
Fixpoint _fetch_fill_loop (attempts : nat) (order_id : string)
    : M (option Q * option Z) :=
  match attempts with
  | O => ret (None, None)
  | S attempts' =>
      executions <- interact (fun n => get_executions env n None) ;;
      match find (fun row => String.eqb (x_orderId row) order_id) executions with
      | Some row => ret (Some (x_execPrice row), Some (x_execTime row))
      | None => _fetch_fill_loop attempts' order_id
      end
  end.

Definition _fetch_fill (order_id : string) : M (option Q * option Z) :=
  _fetch_fill_loop 5 order_id.

Definition _find_exit_fill (trade : ref) : M (option Q) :=
  t <- deref trade ;;
  executions <- interact (fun n => get_executions env n (Some (entry_exec_time_ms t))) ;;
  match executions with
  | [] => ret None
  | _ =>
      let sorted_execs := sorted_by_time executions in
      t <- deref trade ;;
      match first_exit_row (side t) (last_exec_time_ms t) sorted_execs with
      | Some row =>
          set_last_exec_time_ms trade (x_execTime row) ;;;
          ret (Some (x_execPrice row))
      | None => ret None
      end
  end.

Definition open_trade (side : string) (qty entry_price sl_price tp_price : Q)
    (time_stop_minutes : Z) : M ref :=
  resp <- interact (fun n =>
            create_order env n
              {| o_side := if String.eqb side "LONG" then "Buy" else "Sell";
                 o_qty := qty; o_price := None; o_order_type := "Market";
                 o_sl := Some sl_price; o_tp := Some tp_price |}) ;;
  let order_id := order_id_of resp in
  fill <- _fetch_fill order_id ;;
  let '(fill_price, exec_time) := fill in
  let entry_price :=
    match fill_price with
    | Some p => if truthy_float fill_price then p else entry_price
    | None => entry_price
    end in
  exec_time_ms <-
    match exec_time with
    | Some t => if truthy_int exec_time then ret t
                else interact (fun n => Ok (time_ms env n))
    | None => interact (fun n => Ok (time_ms env n))
    end ;;
  now <- interact (fun n => Ok (utcnow env n)) ;;
  trade <- new_object
             {| side := side; qty := qty; entry_price := entry_price;
                sl_price := sl_price; tp_price := tp_price; opened_at := now;
                entry_order_id := order_id; time_stop_minutes := time_stop_minutes;
                entry_exec_time_ms := exec_time_ms;
                last_exec_time_ms := exec_time_ms |} ;;
  set_slot (Some trade) ;;;
  ret trade.

Definition close_trade (reason : string) (price : option Q) : M (option Q) :=
  slot <- get_slot ;;
  match slot with
  | None => ret None
  | Some active =>
      t <- deref active ;;
      let closing_side := if String.eqb (side t) "LONG" then "Sell" else "Buy" in
      resp <- interact (fun n =>
                create_order env n
                  {| o_side := closing_side; o_qty := qty t; o_price := price;
                     o_order_type := "Market"; o_sl := None; o_tp := None |}) ;;
      let order_id := order_id_of resp in
      fill <- _fetch_fill order_id ;;
      let '(fill_price, exec_time) := fill in
      slot' <- get_slot ;;
      match exec_time, slot' with
      | Some t', Some active' =>
          if truthy_int exec_time then set_last_exec_time_ms active' t' else ret tt
      | _, _ => ret tt
      end ;;;
      set_slot None ;;;
      ret fill_price
  end.

Definition active_trade : M (option ref) := get_slot.

Definition refresh_active_trade : M (option ref) :=
  rows <- interact (get_position env) ;;
  match find (fun row => negb (Qeq_bool (p_size row) 0)) rows with
  | Some row =>
      let size := p_size row in
      let side := upper (p_side row) in
      let sl := p_stopLoss row in
      let tp := p_takeProfit row in
      let entry := p_entryPrice row in
      now_ms <- interact (fun n => Ok (time_ms env n)) ;;
      now <- interact (fun n => Ok (utcnow env n)) ;;
      slot <- get_slot ;;
      minutes <-
        match slot with
        | Some active => t <- deref active ;; ret (time_stop_minutes t)
        | None => ret 0%Z
        end ;;
      trade <- new_object
                 {| side := if String.eqb side "BUY" then "LONG" else "SHORT";
                    qty := size; entry_price := entry; sl_price := sl; tp_price := tp;
                    opened_at := now; entry_order_id := p_positionIdx row;
                    time_stop_minutes := minutes;
                    entry_exec_time_ms := now_ms; last_exec_time_ms := now_ms |} ;;
      set_slot (Some trade) ;;;
      ret (Some trade)
  | None =>
      set_slot None ;;;
      ret None
  end.

Definition bootstrap_open_position : M (option ref) := refresh_active_trade.

Definition open_size (rows : list PositionRow) : Q :=
  fold_left (fun acc row => acc + p_size row) rows 0.

Definition poll_trade_close (trade : ref) : M (option Q) :=
  rows <- interact (get_position env) ;;
  if Qlt_bool 0 (open_size rows) then ret None
  else
    exit_price <- _find_exit_fill trade ;;
    set_slot None ;;;
    ret exit_price.

End WithEnvironment.

(** *** Vocabulary of the statements below *)

(** Order of execution times. *)
Definition earlier (a b : ExecutionRow) : Prop := (x_execTime a <= x_execTime b)%Z.

(** A fill closes a trade when its side is the inverse of the entry side. *)
Definition closes (trade_side : string) (row : ExecutionRow) : Prop :=
  (trade_side = "LONG" /\ upper (x_side row) = "SELL") \/
  (trade_side = "SHORT" /\ upper (x_side row) = "BUY").

(** An exit candidate for a trade: a closing fill strictly after the
    trade's watermark. *)
Definition exit_candidate (t : ActiveTrade) (row : ExecutionRow) : Prop :=
  (last_exec_time_ms t < x_execTime row)%Z /\ closes (side t) row.

Definition exit_candidateb (trade_side : string) (watermark : Z) (row : ExecutionRow)
    : bool :=
  (watermark <? x_execTime row)%Z
  && (String.eqb trade_side "LONG" && String.eqb (upper (x_side row)) "SELL"
      || String.eqb trade_side "SHORT" && String.eqb (upper (x_side row)) "BUY").

(** The total open position size of a position report: the sum of the
    sizes of its rows. *)
Definition total_size (rows : list PositionRow) : Q :=
  fold_right (fun row total => p_size row + total) 0 rows.

(** The poll finds nothing when none of its answers lists the order. *)
Definition no_fill_reported (env : Environment) (order_id : string) (first : nat)
    (attempts : nat) : Prop :=
  forall k, (k < attempts)%nat ->
    exists rows,
      get_executions env (first + k) None = Ok rows /\
      find (fun row => String.eqb (x_orderId row) order_id) rows = None.

(** The market order [close_trade] submits for trade [t]. *)
Definition closing_request (t : ActiveTrade) (price : option Q) : OrderRequest :=
  {| o_side := if String.eqb (side t) "LONG" then "Sell" else "Buy";
     o_qty := qty t; o_price := price; o_order_type := "Market";
     o_sl := None; o_tp := None |}.

End OrderExecutor.

(* ===================================================================== *)
(** ** Scenarios: concrete inputs the statements are tried on *)
(* ===================================================================== *)

Module Scenarios.
Import StateManager OrderExecutor.

(** The sizing scenario of the specification: balance 1000, 1% risk. *)
Definition scenario_config : BotConfig :=
  {| profile := {| profile_name := "PROFILE_PROD"; risk_per_trade_pct := 1 # 100;
                   max_daily_loss_pct := 3 # 100; max_daily_trades := 10;
                   max_consecutive_losses_for_cooldown := 5;
                   min_account_balance_usdt := 100 |};
     risk_limits := {| global_drawdown_pct := 20 # 100;
                       limited_mode_recovery_pct := 1 # 100;
                       limited_mode_duration_minutes := 120;
                       cooldown_short_minutes := 15;
                       cooldown_long_minutes := 60;
                       reference_account_size_usdt := 1000 |} |}.

(** The scenario configuration with the long cooldown switched off. *)
Definition no_long_cooldown_config : BotConfig :=
  {| profile := profile scenario_config;
     risk_limits :=
       {| global_drawdown_pct := 20 # 100;
          limited_mode_recovery_pct := 1 # 100;
          limited_mode_duration_minutes := 120;
          cooldown_short_minutes := 15;
          cooldown_long_minutes := 0;
          reference_account_size_usdt := 1000 |} |}.

(** A fresh machine at the epoch, under the scenario configuration. *)
Definition fresh_state : State :=
  {| _session_stats := new_session 0;
     _equity_stats := {| cumulative_pnl := 0; peak_equity := 1000; max_drawdown_pct := 0 |};
     _mode := NORMAL; _cooldown_until := None; _next_mode_after_cooldown := NORMAL;
     _limited_until := None; _limited_exit_equity := None;
     _internal_version := "0.0.1";
     _cooldown_counters := {| short := 0; long := 0 |};
     _cooldown_enabled := true |}.

Definition loss_of (amount : Q) : TradeResult :=
  {| pnl := - amount; timestamp := 0%Z; fees := 0 |}.

(** Sample exchange: a LONG trade of 0.5 entered at 100 (fill stamped
    1000 ms) whose protective order has sold at 101 (stamped 2000 ms); the
    exchange lists the fills newest first and reports no open position. *)

Definition sample_trade : ActiveTrade :=
  {| side := "LONG"; qty := 1 # 2; entry_price := 100; sl_price := 99; tp_price := 101;
     opened_at := 0%Z; entry_order_id := "entry-1"; time_stop_minutes := 30%Z;
     entry_exec_time_ms := 1000%Z; last_exec_time_ms := 1000%Z |}.

Definition sample_fills : list ExecutionRow :=
  [ {| x_orderId := "late-1"; x_side := "Sell"; x_execPrice := 102; x_execTime := 3000%Z |};
    {| x_orderId := "tp-1"; x_side := "Sell"; x_execPrice := 101; x_execTime := 2000%Z |};
    {| x_orderId := "entry-1"; x_side := "Buy"; x_execPrice := 100; x_execTime := 1000%Z |} ].

Definition flat_env : Environment :=
  {| create_order := fun _ _ => Ok (Some "close-1");
     get_position := fun _ => Ok [];
     get_executions := fun _ _ => Ok sample_fills;
     time_ms := fun n => (5000 + Z.of_nat n)%Z;
     utcnow := fun n => (5000000 + Z.of_nat n)%Z |}.

Definition holding : Executor :=
  {| store := fun _ => sample_trade; next_ref := 1%nat;
     _active_trade := Some 0%nat; interactions := 0%nat |}.

(** An exchange on which the position stays open: the closing order is
    accepted as "close-1", but the only fill ever listed is the entry. *)
Definition stuck_env : Environment :=
  {| create_order := fun _ _ => Ok (Some "close-1");
     get_position := fun _ =>
       Ok [ {| p_size := 1 # 2; p_side := "Buy"; p_stopLoss := 99; p_takeProfit := 101;
               p_entryPrice := 100; p_positionIdx := "0" |} ];
     get_executions := fun _ _ =>
       Ok [ {| x_orderId := "entry-1"; x_side := "Buy"; x_execPrice := 100;
               x_execTime := 1000%Z |} ];
     time_ms := fun n => (5000 + Z.of_nat n)%Z;
     utcnow := fun n => (5000000 + Z.of_nat n)%Z |}.

(** An executor freshly started: nothing in the slot. *)
Definition restarted : Executor :=
  {| store := fun _ => sample_trade; next_ref := 0%nat;
     _active_trade := None; interactions := 0%nat |}.

End Scenarios.

(* ===================================================================== *)
(** ** The strategy section of the configuration and market snapshots
       ([core/config_manager.py], [data/market_data.py]) *)
(* ===================================================================== *)

Module StrategyConfig.

(** [StrategyParams], the section of the configuration that the strategy
    and [LimitsChecker] read beside the two of [BotConfig] above. *)
Record StrategyParams : Type := {
  ema_fast : Z;
  ema_slow : Z;
  vwap_window : Z;
  atr_period : Z;
  atr_multiplier_sl : Q;
  atr_multiplier_tp : Q;
  min_atr : Q;
  time_stop_minutes : Z;
  max_vwap_distance_pct : Q;
  max_price_ema_distance_pct : Q;
  pullback_tolerance_pct : Q;
  min_volatility : Q;
  rsi_period : Z;
  rsi_long_max : Q;
  rsi_long_min : Q;
  rsi_short_max : Q;
  rsi_short_min : Q
}.

End StrategyConfig.

Module MarketData.

Definition datetime : Type := Z.

(** [CandleSnapshot]; its [ema_fast] is [candle_ema_fast] here. *)
Record CandleSnapshot : Type := {
  open : Q;
  high : Q;
  low : Q;
  close : Q;
  candle_ema_fast : Q
}.

(** [MarketSnapshot].  [volatility] is a float that the strategy tests
    against [None] before it reads it.  Indicator values are numbers: the
    not-a-number that a rolling window yields before it is full is left
    out, as [_build_snapshot] leaves it out of [rsi]. *)
Record MarketSnapshot : Type := {
  symbol : string;
  price : Q;
  trend_5m : string;
  trend_15m : string;
  ema_fast : Q;
  ema_slow : Q;
  atr : Q;
  vwap : Q;
  vwap_distance_pct : Q;
  volatility : option Q;
  rsi : option Q;
  current_candle : CandleSnapshot;
  previous_candle : option CandleSnapshot;
  timestamp : datetime
}.

End MarketData.

(* ===================================================================== *)
(** ** LimitsChecker ([risk/limits_checker.py]) *)
(* ===================================================================== *)

Module LimitsChecker.
Import StrategyConfig MarketData StateManager.

Record LimitCheckResult : Type := {
  allow_trade : bool;
  reason : option string
}.

(** The attribute of a [LimitsChecker] that is its own ([_config] and
    [_state_manager] are parameters of [evaluate]). *)
Record Checker : Type := { _enforce_daily_loss : bool }.

Definition new_checker : Checker := {| _enforce_daily_loss := true |}.

(** [now1] is the clock reading of [can_trade_now], [now2] the one of
    [current_mode]; logging is left out. *)
Definition evaluate (self : Checker) (config : BotConfig) (strategy_params : StrategyParams)
    (now1 now2 : datetime) (snapshot : MarketSnapshot) (s : State)
    : LimitCheckResult * State :=
  let '((allow, reason), s1) := can_trade_now now1 s in
  if negb allow then ({| allow_trade := false; reason := reason |}, s1)
  else
    let stats := _session_stats s1 in
    let ref := reference_account_size_usdt (risk_limits config) in
    let max_daily_loss := ref * max_daily_loss_pct (profile config) in
    let '(mode, s2) := current_mode now2 s1 in
    if _enforce_daily_loss self
       && Qle_bool (daily_pnl stats) (- max_daily_loss)
       && negb (BotMode_eqb mode LIMITED)
    then ({| allow_trade := false; reason := Some "DAILY_LOSS_LIMIT" |}, s2)
    else if (max_daily_trades (profile config) <=? daily_trades stats)%Z
    then ({| allow_trade := false; reason := Some "DAILY_TRADE_LIMIT" |}, s2)
    else if Qlt_bool (atr snapshot) (min_atr strategy_params)
    then ({| allow_trade := false; reason := Some "MARKET_TOO_DEAD" |}, s2)
    else if Qlt_bool (3 # 2) (Qabs (vwap_distance_pct snapshot))
    then ({| allow_trade := false; reason := Some "EXTENDED_FROM_VWAP" |}, s2)
    else ({| allow_trade := true; reason := None |}, s2).

(** A run of [evaluate] calls, each with its two clock readings and its
    snapshot. *)
Fixpoint evaluate_all (self : Checker) (config : BotConfig) (strategy_params : StrategyParams)
    (calls : list (datetime * datetime * MarketSnapshot)) (s : State)
    : list LimitCheckResult * State :=
  match calls with
  | [] => ([], s)
  | (now1, now2, snapshot) :: rest =>
      let '(r, s1) := evaluate self config strategy_params now1 now2 snapshot s in
      let '(rs, s2) := evaluate_all self config strategy_params rest s1 in
      (r :: rs, s2)
  end.

(** The tests of [evaluate], on the state the call leaves behind. *)
Definition gate_open (s' : State) : Prop := _mode s' = NORMAL \/ _mode s' = LIMITED.

Definition daily_loss_blocked (self : Checker) (config : BotConfig) (s' : State) : bool :=
  _enforce_daily_loss self
  && Qle_bool (daily_pnl (_session_stats s'))
       (- (reference_account_size_usdt (risk_limits config)
           * max_daily_loss_pct (profile config)))
  && negb (BotMode_eqb (_mode s') LIMITED).

Definition trade_count_blocked (config : BotConfig) (s' : State) : bool :=
  (max_daily_trades (profile config) <=? daily_trades (_session_stats s'))%Z.

Definition market_dead (strategy_params : StrategyParams) (snapshot : MarketSnapshot)
    : bool :=
  Qlt_bool (atr snapshot) (min_atr strategy_params).

Definition market_extended (snapshot : MarketSnapshot) : bool :=
  Qlt_bool (3 # 2) (Qabs (vwap_distance_pct snapshot)).

End LimitsChecker.

(* ===================================================================== *)
(** ** ScalpV0Strategy ([strategy/scalp_v0.py]) *)
(* ===================================================================== *)

Module ScalpV0.
Import StrategyConfig MarketData.

(** A time of day, in microseconds since midnight. *)
Definition time : Type := Z.

(** [timestamp.astimezone(timezone.utc).time()] *)
Definition utc_time (t : datetime) : time := (t mod 86400000000)%Z.

Record TradeSignal : Type := {
  side : string;
  entry_price : Q;
  sl_price : Q;
  tp_price : Q;
  time_stop_minutes : Z;
  reason : option string
}.

(** The strategy object; [_sessions] holds the windows as
    [_build_sessions] parsed them. *)
Record ScalpV0Strategy : Type := {
  _params : StrategyParams;
  _profile : ProfileConfig;
  _sessions : list (time * time);
  _allow_offsession : bool
}.

(** [TradeSignal("NO_TRADE", snapshot.price, snapshot.price,
    snapshot.price, 0, reason)] *)
Definition no_trade (snapshot : MarketSnapshot) (reason : string) : TradeSignal :=
  {| side := "NO_TRADE"; entry_price := price snapshot; sl_price := price snapshot;
     tp_price := price snapshot; time_stop_minutes := 0; reason := Some reason |}.

Section WithStrategy.

Variable self : ScalpV0Strategy.

Definition _build_levels (side : string) (entry atr : Q) : Q * Q :=
  let sl_distance := atr * atr_multiplier_sl (_params self) in
  let tp_distance := atr * atr_multiplier_tp (_params self) in
  if String.eqb side "LONG" then (entry - sl_distance, entry + tp_distance)
  else (entry + sl_distance, entry - tp_distance).

(** The [for start, end in self._sessions] loop of [_is_in_session]. *)
Fixpoint session_scan (ts : time) (sessions : list (time * time)) : bool :=
  match sessions with
  | [] => false
  | (start, end_) :: rest =>
      if (start <=? end_)%Z then
        if (start <=? ts)%Z && (ts <=? end_)%Z then true else session_scan ts rest
      else
        if (start <=? ts)%Z || (ts <=? end_)%Z then true else session_scan ts rest
  end.

Definition _is_in_session (timestamp : datetime) : bool :=
  match _sessions self with
  | [] => true
  | sessions => session_scan (utc_time timestamp) sessions
  end.

Definition _is_high_quality_offsession (snapshot : MarketSnapshot) : bool :=
  let atr_condition := Qle_bool (min_atr (_params self) * (3 # 2)) (atr snapshot) in
  let vwap_condition :=
    Qle_bool (Qabs (vwap_distance_pct snapshot))
      (max_vwap_distance_pct (_params self) / 2) in
  let rsi_condition :=
    match rsi snapshot with
    | None => false
    | Some v =>
        Qle_bool v (rsi_short_min (_params self))
        || Qle_bool (rsi_long_max (_params self)) v
    end in
  atr_condition && vwap_condition && rsi_condition.

Definition _pullback_long (prev current : CandleSnapshot) : bool :=
  let tolerance := pullback_tolerance_pct (_params self) / 100 in
  if Qlt_bool (candle_ema_fast prev) (low prev) then false
  else if Qle_bool (open prev) (close prev) then false
  else if Qle_bool (close current) (open current) then false
  else if Qle_bool (close current) (high prev) then false
  else if Qle_bool (close current) (candle_ema_fast current) then false
  else if Qlt_bool (close current * tolerance)
            (Qabs (close current - candle_ema_fast current)) then false
  else true.

Definition _pullback_short (prev current : CandleSnapshot) : bool :=
  let tolerance := pullback_tolerance_pct (_params self) / 100 in
  if Qlt_bool (high prev) (candle_ema_fast prev) then false
  else if Qle_bool (close prev) (open prev) then false
  else if Qle_bool (open current) (close current) then false
  else if Qle_bool (low prev) (close current) then false
  else if Qle_bool (candle_ema_fast current) (close current) then false
  else if Qlt_bool (close current * tolerance)
            (Qabs (close current - candle_ema_fast current)) then false
  else true.

Definition _rsi_allows_long (value : option Q) : bool :=
  match value with
  | None => true
  | Some v =>
      Qle_bool (rsi_long_min (_params self)) v && Qle_bool v (rsi_long_max (_params self))
  end.

Definition _rsi_allows_short (value : option Q) : bool :=
  match value with
  | None => true
  | Some v =>
      Qle_bool (rsi_short_min (_params self)) v
      && Qle_bool v (rsi_short_max (_params self))
  end.

(** [current_candle] is always there; the test for a missing candle can
    only fire on [previous_candle]. *)
Definition _detect_setup (snapshot : MarketSnapshot) : option string :=
  let current := current_candle snapshot in
  match previous_candle snapshot with
  | None => None
  | Some prev =>
      if Qlt_bool (ema_slow snapshot) (ema_fast snapshot)
         && Qlt_bool (vwap snapshot) (price snapshot)
      then
        if negb (_rsi_allows_long (rsi snapshot)) then None
        else if _pullback_long prev current then Some "LONG"
        else None
      else if Qlt_bool (ema_fast snapshot) (ema_slow snapshot)
              && Qlt_bool (price snapshot) (vwap snapshot)
      then
        if negb (_rsi_allows_short (rsi snapshot)) then None
        else if _pullback_short prev current then Some "SHORT"
        else None
      else None
  end.

(** [generate_signal] from the VWAP guard on, where the session tests
    leave it.  The distance to the fast average divides by the price. *)
Definition generate_signal_in_session (snapshot : MarketSnapshot) : result TradeSignal :=
  if Qlt_bool (max_vwap_distance_pct (_params self)) (Qabs (vwap_distance_pct snapshot))
  then Ok (no_trade snapshot "DISTANT_FROM_VWAP")
  else
    match py_truediv (Qabs (price snapshot - ema_fast snapshot)) (price snapshot) with
    | Raise e => Raise e
    | Ok q =>
        let ema_distance_pct := q * 100 in
        if Qlt_bool (max_price_ema_distance_pct (_params self)) ema_distance_pct
        then Ok (no_trade snapshot "FAR_FROM_EMA")
        else if match volatility snapshot with
                | Some v => Qlt_bool v (min_volatility (_params self))
                | None => false
                end
        then Ok (no_trade snapshot "VOLATILITY_TOO_LOW")
        else if String.eqb (profile_name (_profile self)) "PROFILE_PROD"
                && Qlt_bool (1 # 2) (Qabs (vwap_distance_pct snapshot))
        then Ok (no_trade snapshot "DISTANT_FROM_VWAP")
        else
          match _detect_setup snapshot with
          | None => Ok (no_trade snapshot "NO_SETUP")
          | Some setup =>
              let side := setup in
              let entry := price snapshot in
              let '(sl, tp) := _build_levels side entry (atr snapshot) in
              Ok {| side := side; entry_price := entry; sl_price := sl; tp_price := tp;
                    time_stop_minutes := StrategyConfig.time_stop_minutes (_params self);
                    reason := None |}
          end
    end.

Definition generate_signal (snapshot : MarketSnapshot) : result TradeSignal :=
  if Qlt_bool (atr snapshot) (min_atr (_params self))
  then Ok (no_trade snapshot "ATR_TOO_LOW")
  else if negb (_is_in_session (timestamp snapshot)) then
    if negb (_allow_offsession self) then Ok (no_trade snapshot "OUT_OF_SESSION")
    else if negb (_is_high_quality_offsession snapshot)
    then Ok (no_trade snapshot "OFFSESSION_LOW_QUALITY")
    else generate_signal_in_session snapshot
  else generate_signal_in_session snapshot.

End WithStrategy.

(** A signal to trade, as [BotRunner._cycle] tests it. *)
Definition is_trade (signal : TradeSignal) : Prop := side signal <> "NO_TRADE".

End ScalpV0.

(* ===================================================================== *)
(** ** BotRunner ([app/runner.py]): watching a trade, and its result *)
(* ===================================================================== *)

Module Runner.
Import OrderExecutor.

Definition _calculate_pnl (trade : ActiveTrade) (exit_price : Q) : Q :=
  let delta := exit_price - entry_price trade in
  let delta := if String.eqb (side trade) "SHORT" then - delta else delta in
  delta * qty trade.

(** [a or b] on an optional float: [None] and [0.0] are falsy. *)
Definition py_or (a : option Q) (b : Q) : Q :=
  match a with
  | Some p => if truthy_float a then p else b
  | None => b
  end.

Section WithEnvironment.

Variable env : Environment.

(** [self._market_data.refresh_snapshot().price], as answered at the
    [n]-th interaction: a price, or the exception of a failed download. *)
Variable refresh_snapshot : nat -> result Q.

(** The [while True] loop of [_monitor_trade], cut after [polls] rounds:
    [Some (exit_price, reason)] is what the loop hands to
    [_finalize_trade] before its [break], [None] says that it is still
    polling.  [time.sleep(10)] passes time only. *)
Fixpoint _monitor_trade (polls : nat) (trade : ref) : M (option (Q * string)) :=
  match polls with
  | O => ret None
  | S polls' =>
      price <- interact refresh_snapshot ;;
      now <- interact (fun n => Ok (utcnow env n)) ;;
      exit_price <- poll_trade_close env trade ;;
      match exit_price with
      | Some p => ret (Some (p, "SL/TP"))
      | None =>
          t <- deref trade ;;
          if is_time_stop_reached t now then
            closed <- close_trade env "TIME_STOP" None ;;
            ret (Some (py_or closed price, "TIME_STOP"))
          else _monitor_trade polls' trade
      end
  end.

End WithEnvironment.

End Runner.

(* ===================================================================== *)
(** ** StatsEngine and PromotionChecker ([analytics/stats_engine.py],
       [analytics/promotion_checker.py]) *)
(* ===================================================================== *)

Module StatsEngine.

Definition datetime : Type := Z.

(** A row of the trade log ([analytics/trade_logger.py]); [timestamp] is
    the instant the runner wrote, in UTC. *)
Record TradeRecord : Type := {
  timestamp : datetime;
  environment : string;
  profile : string;
  mode : string;
  side : string;
  qty : Q;
  entry_price : Q;
  exit_price : Q;
  sl : Q;
  tp : Q;
  pnl : Q;
  fees : Q;
  r_multiple : Q
}.

(** [pnl_by_day] is a dict from a calendar day to an amount; days are day
    ordinals, the dict an association list in insertion order. *)
Record StatsSnapshot : Type := {
  total_trades : Z;
  winrate : Q;
  average_r : Q;
  net_pnl : Q;
  max_drawdown_pct : Q;
  pnl_by_day : list (Z * Q)
}.

Definition date (t : datetime) : Z := (t / 86400000000)%Z.

(** [sum(f(t) for t in trades)] *)
Definition py_sum (f : TradeRecord -> Q) (trades : list TradeRecord) : Q :=
  fold_left (fun acc t => acc + f t) trades 0.

(** [pnl_by_day[day] += amount] on a [defaultdict(float)]. *)
Fixpoint add_to_day (day : Z) (amount : Q) (d : list (Z * Q)) : list (Z * Q) :=
  match d with
  | [] => [(day, 0 + amount)]
  | (k, v) :: d' =>
      if (k =? day)%Z then (k, v + amount) :: d'
      else (k, v) :: add_to_day day amount d'
  end.

(** One round of the loop of [_aggregate_daily]. *)
Definition daily_step (pnl_by_day : list (Z * Q)) (trade : TradeRecord) : list (Z * Q) :=
  add_to_day (date (timestamp trade)) (pnl trade) pnl_by_day.

Definition _aggregate_daily (trades : list TradeRecord) : list (Z * Q) :=
  fold_left daily_step trades [].

(** One round of the loop of [_compute_drawdown], on
    [(profit_curve, peak, max_drawdown)]; the division is guarded by
    [peak > 0]. *)
Definition drawdown_step (st : Q * Q * Q) (trade : TradeRecord) : Q * Q * Q :=
  let '(profit_curve, peak, max_drawdown) := st in
  let profit_curve := profit_curve + pnl trade in
  let peak := py_max peak profit_curve in
  if Qlt_bool 0 peak then
    let dd := (peak - profit_curve) / peak in
    (profit_curve, peak, py_max max_drawdown dd)
  else (profit_curve, peak, max_drawdown).

Definition _compute_drawdown (trades : list TradeRecord) : Q :=
  snd (fold_left drawdown_step trades (0, 0, 0)).

(** [compute], on the rows [read_all] returned. *)
Definition compute (trades : list TradeRecord) : StatsSnapshot :=
  match trades with
  | [] => {| total_trades := 0; winrate := 0; average_r := 0; net_pnl := 0;
             max_drawdown_pct := 0; pnl_by_day := [] |}
  | _ =>
      let total_trades := Z.of_nat (List.length trades) in
      let winners := Z.of_nat (List.length (filter (fun t => Qlt_bool 0 (pnl t)) trades)) in
      let winrate :=
        if (total_trades =? 0)%Z then 0 else inject_Z winners / inject_Z total_trades in
      let average_r :=
        if (total_trades =? 0)%Z then 0 else py_sum r_multiple trades / inject_Z total_trades in
      let net_pnl := py_sum pnl trades in
      let pnl_by_day := _aggregate_daily trades in
      let max_drawdown_pct := _compute_drawdown trades in
      {| total_trades := total_trades; winrate := winrate; average_r := average_r;
         net_pnl := net_pnl; max_drawdown_pct := max_drawdown_pct;
         pnl_by_day := pnl_by_day |}
  end.

(** [pnl_by_day.get(day)] *)
Fixpoint day_get (day : Z) (d : list (Z * Q)) : option Q :=
  match d with
  | [] => None
  | (k, v) :: d' => if (k =? day)%Z then Some v else day_get day d'
  end.

(** The trades of the history stamped on [day]. *)
Definition trades_of_day (day : Z) (trades : list TradeRecord) : list TradeRecord :=
  filter (fun t => (date (timestamp t) =? day)%Z) trades.

(** Total of the amounts of a daily breakdown. *)
Definition total_of_days (d : list (Z * Q)) : Q :=
  fold_right (fun kv acc => snd kv + acc) 0 d.

(** The running profit is never above zero: after no trade of the history
    is the sum of the results so far positive. *)
Definition never_in_profit (trades : list TradeRecord) : Prop :=
  forall n, py_sum pnl (firstn n trades) <= 0.

End StatsEngine.

Module PromotionChecker.
Import StatsEngine.

Record PromotionRules : Type := {
  min_demo_trades : Z;
  min_net_profit_usdt : Q;
  max_drawdown_pct : Q
}.

(** The two verdicts of a [PromotionStatus]; [details] is a formatted
    message. *)
Record PromotionStatus : Type := {
  demo_to_live_ready : bool;
  scale_up_ready : bool
}.

Definition evaluate (rules : PromotionRules) (trades : list TradeRecord) : PromotionStatus :=
  let stats := compute trades in
  let demo_ready :=
    (min_demo_trades rules <=? total_trades stats)%Z
    && Qle_bool (min_net_profit_usdt rules) (net_pnl stats)
    && Qle_bool (StatsEngine.max_drawdown_pct stats) (max_drawdown_pct rules) in
  let scale_up :=
    demo_ready && Qle_bool (55 # 100) (winrate stats) && Qle_bool 1 (average_r stats) in
  {| demo_to_live_ready := demo_ready; scale_up_ready := scale_up |}.

End PromotionChecker.

(* ===================================================================== *)
(** ** Further vocabulary and scenarios *)
(* ===================================================================== *)

Module Coverage.
Import StateManager.

(** Sum of the net results of the trades closed along a run of events. *)
Fixpoint net_of_events (es : list event) : Q :=
  match es with
  | [] => 0
  | TradeClosed _ r :: es' => net_pnl r + net_of_events es'
  | _ :: es' => net_of_events es'
  end.

(** A machine in its long cooldown, one hour long from the epoch, with the
    limited window ending two hours after that. *)
Definition cooling_state : State :=
  {| _session_stats := {| trading_day := 0; daily_pnl := - (50); daily_trades := 1;
                          consecutive_losses := 1 |};
     _equity_stats := {| cumulative_pnl := - (50); peak_equity := 1000;
                         max_drawdown_pct := 1 # 20 |};
     _mode := COOLDOWN; _cooldown_until := Some 3600000000%Z;
     _next_mode_after_cooldown := LIMITED;
     _limited_until := Some 10800000000%Z; _limited_exit_equity := Some 960;
     _internal_version := "0.0.1";
     _cooldown_counters := {| short := 0; long := 1 |};
     _cooldown_enabled := true |}.

(** The same machine once the limited window has run out: NORMAL, with the
    day's loss still on the books. *)
Definition recovered_state : State :=
  {| _session_stats := _session_stats cooling_state;
     _equity_stats := _equity_stats cooling_state;
     _mode := NORMAL; _cooldown_until := None;
     _next_mode_after_cooldown := LIMITED;
     _limited_until := None; _limited_exit_equity := None;
     _internal_version := "0.0.1";
     _cooldown_counters := {| short := 0; long := 1 |};
     _cooldown_enabled := true |}.

(** The same machine in LIMITED, window open. *)
Definition limited_state : State :=
  {| _session_stats := _session_stats cooling_state;
     _equity_stats := _equity_stats cooling_state;
     _mode := LIMITED; _cooldown_until := None;
     _next_mode_after_cooldown := LIMITED;
     _limited_until := Some 10800000000%Z; _limited_exit_equity := Some 960;
     _internal_version := "0.0.1";
     _cooldown_counters := {| short := 0; long := 1 |};
     _cooldown_enabled := true |}.

Definition win_of (amount : Q) (t : datetime) : TradeResult :=
  {| pnl := amount; timestamp := t; fees := 0 |}.

Definition quiet_params : StrategyConfig.StrategyParams :=
  {| StrategyConfig.ema_fast := 20; StrategyConfig.ema_slow := 50;
     StrategyConfig.vwap_window := 30; StrategyConfig.atr_period := 14;
     StrategyConfig.atr_multiplier_sl := 1; StrategyConfig.atr_multiplier_tp := 2;
     StrategyConfig.min_atr := 1 # 2; StrategyConfig.time_stop_minutes := 30;
     StrategyConfig.max_vwap_distance_pct := 1;
     StrategyConfig.max_price_ema_distance_pct := 1;
     StrategyConfig.pullback_tolerance_pct := 1 # 10;
     StrategyConfig.min_volatility := 0; StrategyConfig.rsi_period := 14;
     StrategyConfig.rsi_long_max := 70; StrategyConfig.rsi_long_min := 40;
     StrategyConfig.rsi_short_max := 60; StrategyConfig.rsi_short_min := 30 |}.

(** A green candle closing just above the fast average after a red one
    that dipped to it. *)
Definition sample_candles : MarketData.CandleSnapshot * MarketData.CandleSnapshot :=
  ({| MarketData.open := 1001 # 10; MarketData.high := 1002 # 10;
      MarketData.low := 997 # 10; MarketData.close := 999 # 10;
      MarketData.candle_ema_fast := 998 # 10 |},
   {| MarketData.open := 999 # 10; MarketData.high := 1004 # 10;
      MarketData.low := 998 # 10; MarketData.close := 1003 # 10;
      MarketData.candle_ema_fast := 1002 # 10 |}).

Definition market (atr vwap_distance_pct : Q) : MarketData.MarketSnapshot :=
  {| MarketData.symbol := "BTCUSDT"; MarketData.price := 1003 # 10;
     MarketData.trend_5m := "BULLISH"; MarketData.trend_15m := "SIDEWAYS";
     MarketData.ema_fast := 1002 # 10; MarketData.ema_slow := 100;
     MarketData.atr := atr; MarketData.vwap := 100;
     MarketData.vwap_distance_pct := vwap_distance_pct;
     MarketData.volatility := Some (1 # 1000); MarketData.rsi := Some 55;
     MarketData.current_candle := snd sample_candles;
     MarketData.previous_candle := Some (fst sample_candles);
     MarketData.timestamp := 36000000000%Z |}.

Definition lively_market : MarketData.MarketSnapshot := market 2 (1 # 4).

Definition dead_market : MarketData.MarketSnapshot := market 0 5.

(** Two versions whose patch is no ASCII digit: a superscript two, which
    [isdigit] accepts and [int] rejects, and an Arabic-Indic three, which
    both accept.  A name that reads SOLUSDT with a long s in front. *)
Definition superscript_version : string :=
  "1.2." ++ String (byte 194) (String (byte 178) EmptyString).

Definition arabic_version : string :=
  "1.2." ++ String (byte 217) (String (byte 163) EmptyString).

Definition long_s_name : string :=
  String (byte 197) (String (byte 191) "olusdt").

(** The strategy of a PROFILE_PROD configuration without session windows. *)
Definition sample_strategy : ScalpV0.ScalpV0Strategy :=
  {| ScalpV0._params := quiet_params;
     ScalpV0._profile := profile Scenarios.scenario_config;
     ScalpV0._sessions := [];
     ScalpV0._allow_offsession := false |}.

(** An exchange that reports the position gone but lists no fill for its
    exit, and accepts no order. *)
Definition ghost_env : OrderExecutor.Environment :=
  {| OrderExecutor.create_order := fun _ _ => Raise TransportError;
     OrderExecutor.get_position := fun _ => Ok [];
     OrderExecutor.get_executions := fun _ _ =>
       Ok [ {| OrderExecutor.x_orderId := "entry-1"; OrderExecutor.x_side := "Buy";
               OrderExecutor.x_execPrice := 100; OrderExecutor.x_execTime := 1000%Z |} ];
     OrderExecutor.time_ms := fun n => (5000 + Z.of_nat n)%Z;
     OrderExecutor.utcnow := fun n => (5000000 + Z.of_nat n)%Z |}.

(** The same exchange read half an hour later, past the time stop of the
    sample trade. *)
Definition overdue_ghost_env : OrderExecutor.Environment :=
  {| OrderExecutor.create_order := OrderExecutor.create_order ghost_env;
     OrderExecutor.get_position := OrderExecutor.get_position ghost_env;
     OrderExecutor.get_executions := OrderExecutor.get_executions ghost_env;
     OrderExecutor.time_ms := fun n => (2000000 + Z.of_nat n)%Z;
     OrderExecutor.utcnow := fun n => (2000000000 + Z.of_nat n)%Z |}.

(** An executor holding the sample trade with its time stop switched off. *)
Definition unlimited : OrderExecutor.Executor :=
  {| OrderExecutor.store := fun _ =>
       {| OrderExecutor.side := "LONG"; OrderExecutor.qty := 1 # 2;
          OrderExecutor.entry_price := 100; OrderExecutor.sl_price := 99;
          OrderExecutor.tp_price := 101; OrderExecutor.opened_at := 0%Z;
          OrderExecutor.entry_order_id := "entry-1";
          OrderExecutor.time_stop_minutes := 0%Z;
          OrderExecutor.entry_exec_time_ms := 1000%Z;
          OrderExecutor.last_exec_time_ms := 1000%Z |};
     OrderExecutor.next_ref := 1%nat;
     OrderExecutor._active_trade := Some 0%nat;
     OrderExecutor.interactions := 0%nat |}.

(** A market that answers every snapshot with the price 100. *)
Definition steady_market : nat -> result Q := fun _ => Ok 100.

(** A row of the trade log: a LONG of 1 entered at 100 that closed at
    instant [t] with result [amount]. *)
Definition log_row (t : Z) (amount : Q) : StatsEngine.TradeRecord :=
  {| StatsEngine.timestamp := t; StatsEngine.environment := "ENV_DEMO_MAINNET";
     StatsEngine.profile := "PROFILE_PROD"; StatsEngine.mode := "NORMAL";
     StatsEngine.side := "LONG"; StatsEngine.qty := 1;
     StatsEngine.entry_price := 100; StatsEngine.exit_price := 100 + amount;
     StatsEngine.sl := 90; StatsEngine.tp := 120;
     StatsEngine.pnl := amount; StatsEngine.fees := 0;
     StatsEngine.r_multiple := amount / 10 |}.

(** Two days of trading: a loss of 10 and a win of 30 on the first day, a
    loss of 5 on the second. *)
Definition sample_history : list StatsEngine.TradeRecord :=
  [ log_row 1000000 (- (10)); log_row 2000000 30; log_row 86401000000 (- (5)) ].

(** A history of losses only. *)
Definition losing_history : list StatsEngine.TradeRecord :=
  [ log_row 1000000 (- (10)); log_row 2000000 (- (30)) ].

Definition lenient_rules : PromotionChecker.PromotionRules :=
  {| PromotionChecker.min_demo_trades := 2;
     PromotionChecker.min_net_profit_usdt := - (100);
     PromotionChecker.max_drawdown_pct := 1 # 10 |}.

End Coverage.

(* ===================================================================== *)
(** * Properties *)
(* ===================================================================== *)

(** ** Arithmetic of the Python primitives *)

Module PyFacts.

Lemma Qle_bool_false (a b : Q) : Qle_bool a b = false <-> b < a.
Proof.
  split; intro H.
  - apply Qnot_le_lt. intro Hle. apply Qle_bool_iff in Hle. congruence.
  - destruct (Qle_bool a b) eqn:E; [|reflexivity].
    apply Qle_bool_iff in E. exfalso. apply (Qlt_not_le _ _ H E).
Qed.

Lemma Qlt_bool_true (a b : Q) : Qlt_bool a b = true <-> a < b.
Proof.
  unfold Qlt_bool. rewrite negb_true_iff. apply Qle_bool_false.
Qed.

Lemma Qlt_bool_false (a b : Q) : Qlt_bool a b = false <-> b <= a.
Proof.
  unfold Qlt_bool. rewrite negb_false_iff. apply Qle_bool_iff.
Qed.

Lemma Qeq_bool_false (a b : Q) : Qeq_bool a b = false <-> ~ a == b.
Proof.
  split; intro H.
  - intro E. apply Qeq_bool_iff in E. congruence.
  - destruct (Qeq_bool a b) eqn:E; [|reflexivity].
    apply Qeq_bool_iff in E. contradiction.
Qed.

Lemma py_max_le_l (a b : Q) : a <= py_max a b.
Proof.
  unfold py_max. destruct (Qlt_bool a b) eqn:E.
  - apply Qlt_bool_true in E. apply Qlt_le_weak, E.
  - apply Qle_refl.
Qed.

Lemma py_max_le_r (a b : Q) : b <= py_max a b.
Proof.
  unfold py_max. destruct (Qlt_bool a b) eqn:E.
  - apply Qle_refl.
  - apply Qlt_bool_false in E. exact E.
Qed.

Lemma py_max_cases (a b : Q) : py_max a b = a \/ py_max a b = b.
Proof. unfold py_max. destruct (Qlt_bool a b); auto. Qed.

(** [int(x)] is the floor of [x] as soon as it is positive. *)
Lemma py_int_floor_of_pos (x : Q) : (0 < py_int x)%Z -> py_int x = Qfloor x.
Proof.
  destruct x as [n d]. unfold py_int, Qfloor. simpl. intro H.
  destruct (Z_lt_le_dec n 0) as [Hn|Hn].
  - exfalso.
    assert (Hq : (0 <= Z.quot (- n) (Z.pos d))%Z)
      by (apply Z.quot_pos; lia).
    rewrite Z.quot_opp_l in Hq by lia. lia.
  - apply Z.quot_div_nonneg; lia.
Qed.

Lemma py_truediv_ok (a b : Q) : ~ b == 0 -> py_truediv a b = Ok (a / b).
Proof.
  intro H. unfold py_truediv. apply Qeq_bool_false in H. now rewrite H.
Qed.

Lemma py_truediv_zero (a b : Q) : b == 0 -> py_truediv a b = Raise ZeroDivisionError.
Proof.
  intro H. unfold py_truediv. apply Qeq_bool_iff in H. now rewrite H.
Qed.

(** *** Text: ASCII inside Unicode *)

(** An ASCII character is one byte and one code point; its upper case is
    the ASCII one. *)
Lemma ascii_char (c : ascii) :
  (code c <? 128)%N = true ->
  first_byte (code c) = ([code c], 0%nat, 0%N) /\
  upper_cp (code c) = [code (upper_ascii c)] /\
  encode_cp (code (upper_ascii c)) = String (upper_ascii c) EmptyString /\
  (code (upper_ascii c) <? 128)%N = true.
Proof.
  destruct c as [[] [] [] [] [] [] [] []]; intro H; vm_compute in H;
    try discriminate H; vm_compute; repeat split.
Qed.

Lemma ascii_digit (c : ascii) :
  is_digit c = true ->
  (code c <? 128)%N = true /\
  decimal_value (code c) = Some (N.of_nat (nat_of_ascii c - 48)) /\
  isdigit_cp (code c) = true.
Proof.
  destruct c as [[] [] [] [] [] [] [] []]; intro H; vm_compute in H;
    try discriminate H; vm_compute; repeat split.
Qed.

Lemma decode_ascii (s : string) :
  is_ascii s = true -> decode s = map code (list_ascii_of_string s).
Proof.
  unfold decode. induction s as [|c s IH]; intro H; [reflexivity|].
  cbn [is_ascii] in H. apply andb_true_iff in H. destruct H as [Hc Hs].
  cbn [decode_from list_ascii_of_string map].
  rewrite (proj1 (ascii_char c Hc)). cbn [app]. now rewrite (IH Hs).
Qed.

Lemma upper_ascii_text (s : string) : is_ascii s = true -> upper s = ascii_upper s.
Proof.
  intro H. unfold upper. rewrite (decode_ascii s H).
  induction s as [|c s IH]; [reflexivity|].
  cbn [is_ascii] in H. apply andb_true_iff in H. destruct H as [Hc Hs].
  destruct (ascii_char c Hc) as (_ & Hup & Henc & _).
  cbn [list_ascii_of_string map flat_map ascii_upper].
  rewrite Hup. cbn [app encode fold_right]. fold (encode (flat_map upper_cp
    (map code (list_ascii_of_string s)))).
  rewrite Henc, (IH Hs). reflexivity.
Qed.

Lemma ascii_upper_is_ascii (s : string) : is_ascii s = true -> is_ascii (ascii_upper s) = true.
Proof.
  induction s as [|c s IH]; intro H; [reflexivity|].
  cbn [is_ascii] in H. apply andb_true_iff in H. destruct H as [Hc Hs].
  cbn [ascii_upper is_ascii]. rewrite (IH Hs).
  now rewrite (proj2 (proj2 (proj2 (ascii_char c Hc)))).
Qed.

Lemma upper_ascii_idempotent (c : ascii) : upper_ascii (upper_ascii c) = upper_ascii c.
Proof. destruct c as [[] [] [] [] [] [] [] []]; reflexivity. Qed.

Lemma ascii_upper_idempotent (s : string) : ascii_upper (ascii_upper s) = ascii_upper s.
Proof.
  induction s as [|c s IH]; [reflexivity|].
  cbn [ascii_upper]. now rewrite upper_ascii_idempotent, IH.
Qed.

(** On ASCII text [upper] is idempotent. *)
Lemma upper_idempotent_ascii (s : string) :
  is_ascii s = true -> upper (upper s) = upper s.
Proof.
  intro H. rewrite (upper_ascii_text s H).
  rewrite (upper_ascii_text _ (ascii_upper_is_ascii s H)).
  apply ascii_upper_idempotent.
Qed.

(** Texts of ASCII digits. *)
Lemma all_digits_is_ascii (s : string) : all_digits s = true -> is_ascii s = true.
Proof.
  induction s as [|c s IH]; intro H; [reflexivity|].
  cbn [all_digits] in H. apply andb_true_iff in H. destruct H as [Hc Hs].
  cbn [is_ascii]. now rewrite (proj1 (ascii_digit c Hc)), (IH Hs).
Qed.

Lemma isdigit_ascii_digits (s : string) :
  all_digits s = true -> isdigit s = string_truthy s.
Proof.
  intro H. unfold isdigit. rewrite (decode_ascii s (all_digits_is_ascii s H)).
  destruct s as [|c s]; [reflexivity|].
  cbn [list_ascii_of_string map string_truthy].
  assert (Hall : forall t, all_digits t = true ->
                   forallb isdigit_cp (map code (list_ascii_of_string t)) = true).
  { induction t as [|d t IH]; intro Ht; [reflexivity|].
    cbn [all_digits] in Ht. apply andb_true_iff in Ht. destruct Ht as [Hd Ht].
    cbn [list_ascii_of_string map forallb].
    now rewrite (proj2 (proj2 (ascii_digit d Hd))), (IH Ht). }
  exact (Hall (String c s) H).
Qed.

Lemma decimal_run_ascii_digits (s : string) (acc : N) (digits : nat) :
  all_digits s = true ->
  decimal_run acc digits (map code (list_ascii_of_string s))
  = (int_of_digits acc s, (digits + String.length s)%nat, []).
Proof.
  revert acc digits. induction s as [|c s IH]; intros acc digits H.
  - cbn. now rewrite Nat.add_0_r.
  - cbn [all_digits] in H. apply andb_true_iff in H. destruct H as [Hc Hs].
    cbn [list_ascii_of_string map decimal_run int_of_digits String.length].
    rewrite (proj1 (proj2 (ascii_digit c Hc))), (IH _ _ Hs).
    now rewrite Nat.add_succ_r.
Qed.

Lemma py_int_ascii_digits (s : string) :
  all_digits s = true -> string_truthy s = true ->
  (String.length s <=? int_max_str_digits)%nat = true ->
  py_int_of_string s = Ok (int_of_digits 0 s).
Proof.
  intros H Hne Hlen. unfold py_int_of_string.
  rewrite (decode_ascii s (all_digits_is_ascii s H)), (decimal_run_ascii_digits s 0 0 H).
  cbn [Nat.add]. apply Nat.leb_le in Hlen.
  destruct (Nat.ltb_spec int_max_str_digits (String.length s)) as [Hlt|_]; [lia|].
  destruct s; [discriminate Hne | reflexivity].
Qed.

End PyFacts.

(** ** RiskManager *)

Module RiskManagerFacts.
Import PyFacts RiskManager Scenarios.

Lemma decimal_step_precision (info : SymbolInfo) :
  decimal_step info = true ->
  exists p : Z,
    (0 < p)%Z /\ precision_of_step info = Ok p /\
    qty_step info * inject_Z p == 1 /\ 0 < qty_step info /\ 0 < min_qty info.
Proof.
  unfold decimal_step. rewrite !andb_true_iff.
  intros [[Hs Hp] Hm].
  apply Qlt_bool_true in Hs. apply Qlt_bool_true in Hm. apply Qeq_bool_iff in Hp.
  exists (py_round (1 / qty_step info)).
  assert (Hpos : (0 < py_round (1 / qty_step info))%Z).
  { destruct (Z_lt_le_dec 0 (py_round (1 / qty_step info))) as [|Hle]; [assumption|].
    exfalso.
    assert (Hq : inject_Z (py_round (1 / qty_step info)) <= 0)
      by (rewrite Zle_Qle in Hle; exact Hle).
    assert (qty_step info * inject_Z (py_round (1 / qty_step info)) <= qty_step info * 0)
      by (apply Qmult_le_l; assumption).
    rewrite Hp, Qmult_0_r in H. revert H. apply Qlt_not_le. reflexivity. }
  repeat split; try assumption.
  unfold precision_of_step. rewrite py_truediv_ok; [reflexivity|]. lra.
Qed.

Lemma apply_precision_decimal (info : SymbolInfo) (p : Z) (raw : Q) :
  (0 < p)%Z -> precision_of_step info = Ok p ->
  _apply_precision info raw = Ok (inject_Z (py_int (raw * inject_Z p)) / inject_Z p).
Proof.
  intros Hp Hprec. unfold _apply_precision. rewrite Hprec.
  apply py_truediv_ok. intro E.
  assert (0 < inject_Z p) by (rewrite (Zlt_Qlt 0 p) in Hp; exact Hp). lra.
Qed.

(** Every instrument the program knows has a decimal step. *)
Lemma symbol_map_decimal (name : string) (info : SymbolInfo) :
  get_symbol_info name = Ok info -> decimal_step info = true.
Proof.
  unfold get_symbol_info, _SYMBOL_MAP. simpl.
  destruct (String.eqb (upper name) "BTCUSDT").
  - intro H. inversion H. reflexivity.
  - destruct (String.eqb (upper name) "SOLUSDT").
    + intro H. inversion H. reflexivity.
    + discriminate.
Qed.

Lemma positive_size_is_floored (p : Z) (raw step q : Q) :
  (0 < p)%Z -> step * inject_Z p == 1 ->
  q = inject_Z (py_int (raw * inject_Z p)) / inject_Z p ->
  0 < q ->
  q == floor_to_step raw step /\ q <= raw.
Proof.
  intros Hp Hstep -> Hq.
  assert (HpQ : 0 < inject_Z p) by (rewrite (Zlt_Qlt 0 p) in Hp; exact Hp).
  assert (Hk : (0 < py_int (raw * inject_Z p))%Z).
  { destruct (Z_lt_le_dec 0 (py_int (raw * inject_Z p))) as [|Hle]; [assumption|].
    exfalso. rewrite Zle_Qle in Hle.
    assert (inject_Z (py_int (raw * inject_Z p)) / inject_Z p <= 0).
    { apply Qle_shift_div_r; [exact HpQ|]. rewrite Qmult_0_l. exact Hle. }
    apply (Qlt_not_le _ _ Hq). assumption. }
  rewrite (py_int_floor_of_pos _ Hk) in *.
  assert (Hdiv : raw / step == raw * inject_Z p).
  { assert (~ step == 0) by (intro E; rewrite E in Hstep; lra).
    field_simplify_eq; [|assumption].
    transitivity (raw * (step * inject_Z p)); [rewrite Hstep; ring | ring]. }
  split.
  - unfold floor_to_step. rewrite (Qfloor_comp _ _ Hdiv).
    assert (~ inject_Z p == 0) by lra.
    field_simplify_eq; [|assumption].
    transitivity (inject_Z (Qfloor (raw * inject_Z p)) * (step * inject_Z p));
      [rewrite Hstep; ring | ring].
  - apply Qle_shift_div_r; [exact HpQ|]. apply Qfloor_le.
Qed.

Lemma evaluate_unfold (config : BotConfig) (info : SymbolInfo) (entry sl tp q : Q) :
  0 < Qabs (entry - sl) ->
  _apply_precision info
    (reference_account_size_usdt (risk_limits config)
     * risk_per_trade_pct (profile config) / Qabs (entry - sl)) = Ok q ->
  evaluate config info entry sl tp =
    if Qlt_bool q (min_qty info) then Raise err_below_minimum
    else Ok {| qty := q; entry_price := entry; sl_price := sl; tp_price := tp;
               risk_amount := reference_account_size_usdt (risk_limits config)
                              * risk_per_trade_pct (profile config) |}.
Proof.
  intros Hd Hq. unfold evaluate.
  apply Qle_bool_false in Hd. rewrite Hd, Hq. reflexivity.
Qed.

(** C7.  On an instrument with a decimal step and a positive stop distance,
    [evaluate] either rejects the size as below the minimum or returns a
    result whose [risk_amount] is [reference * risk_per_trade_pct] and whose
    [qty] is [risk_amount / |entry - sl|] floored to the quantity step: it
    is a multiple of the step, it is not above the raw quantity, and
    [qty * stop_distance] does not exceed [risk_amount]. *)
Theorem evaluate_floors_to_step
    (config : BotConfig) (info : SymbolInfo) (entry sl tp : Q) :
  decimal_step info = true ->
  0 < Qabs (entry - sl) ->
  let risk := reference_account_size_usdt (risk_limits config)
              * risk_per_trade_pct (profile config) in
  let distance := Qabs (entry - sl) in
  (exists q,
      _apply_precision info (risk / distance) = Ok q /\
      evaluate config info entry sl tp =
        if Qlt_bool q (min_qty info) then Raise err_below_minimum
        else Ok {| qty := q; entry_price := entry; sl_price := sl; tp_price := tp;
                   risk_amount := risk |}) /\
  (forall r,
      evaluate config info entry sl tp = Ok r ->
      risk_amount r = risk /\
      qty r == floor_to_step (risk / distance) (qty_step info) /\
      qty r <= risk / distance /\
      qty r * distance <= risk_amount r).
Proof.
  intros Hinfo Hd risk distance.
  destruct (decimal_step_precision info Hinfo) as (p & Hp & Hprec & Hstep & Hs & Hm).
  pose proof (apply_precision_decimal info p (risk / distance) Hp Hprec) as Hq.
  pose proof (evaluate_unfold config info entry sl tp _ Hd Hq) as He.
  fold risk distance in He.
  split.
  - eexists. split; [exact Hq | exact He].
  - intros r Hr. rewrite He in Hr.
    destruct (Qlt_bool _ (min_qty info)) eqn:Hmin; [discriminate|].
    inversion Hr; subst r; clear Hr. simpl.
    apply Qlt_bool_false in Hmin.
    assert (Hqpos : 0 < inject_Z (py_int (risk / distance * inject_Z p)) / inject_Z p)
      by (eapply Qlt_le_trans; eassumption).
    destruct (positive_size_is_floored p (risk / distance) (qty_step info) _
                Hp Hstep eq_refl Hqpos) as [Hfloor Hle].
    repeat split; try assumption.
    apply Qle_trans with (risk / distance * distance).
    + apply Qmult_le_compat_r; [exact Hle | apply Qlt_le_weak, Hd].
    + rewrite Qmult_comm, Qmult_div_r; [apply Qle_refl|].
      intro E. fold distance in Hd. rewrite E in Hd. discriminate Hd.
Qed.

(** The scenario of the specification on BTCUSDT: balance 1000, 1% risk,
    entry 100, stop 99. *)
Lemma evaluate_floors_to_step_scenario :
  exists r,
    evaluate scenario_config _BTCUSDT_INFO 100 99 102 = Ok r /\
    risk_amount r == 10 /\ qty r == 10 /\
    qty r == floor_to_step (10 / 1) (1 # 1000) /\
    qty r * 1 <= 10.
Proof.
  destruct (evaluate_floors_to_step scenario_config _BTCUSDT_INFO 100 99 102
              eq_refl eq_refl) as [_ H].
  eexists. split; [vm_compute; reflexivity|].
  match goal with |- context [risk_amount ?r] => specialize (H r eq_refl) end.
  destruct H as (H1 & H2 & H3 & H4).
  repeat split; vm_compute; congruence.
Defined.



End RiskManagerFacts.

(** ** StateManager *)

Module StateManagerFacts.
Import PyFacts StateManager Scenarios.

Ltac case_if :=
  match goal with
  | |- context [if ?b then _ else _] => destruct b eqn:?
  end.

Section Transitions.

Variable config : BotConfig.

(** *** What each helper leaves alone *)

Lemma equity_enter_cooldown now minutes next s :
  _equity_stats (_enter_cooldown config now minutes next s) = _equity_stats s.
Proof. unfold _enter_cooldown. repeat case_if; reflexivity. Qed.

Lemma equity_trigger_daily now s :
  _equity_stats (_trigger_daily_loss_cooldown config now s) = _equity_stats s.
Proof.
  unfold _trigger_daily_loss_cooldown. case_if; [reflexivity|].
  now rewrite equity_enter_cooldown.
Qed.

Lemma equity_trigger_short now s :
  _equity_stats (_trigger_short_cooldown config now s) = _equity_stats s.
Proof.
  unfold _trigger_short_cooldown. case_if; [reflexivity|].
  now rewrite equity_enter_cooldown.
Qed.

Lemma equity_global_drawdown s :
  _equity_stats (_evaluate_global_drawdown config s) = _equity_stats s.
Proof. unfold _evaluate_global_drawdown. case_if; reflexivity. Qed.

Lemma equity_limited_exit s :
  _equity_stats (_evaluate_limited_exit config s) = _equity_stats s.
Proof.
  unfold _evaluate_limited_exit. case_if; [|reflexivity].
  destruct (_limited_exit_equity s); [|reflexivity]. case_if; reflexivity.
Qed.

Lemma equity_timers now s :
  _equity_stats (_evaluate_timers now s) = _equity_stats s.
Proof. unfold _evaluate_timers. repeat case_if; reflexivity. Qed.

Lemma equity_on_trade_closed now r s :
  _equity_stats (on_trade_closed config now r s) = _equity_stats (accumulate config r s).
Proof.
  unfold on_trade_closed.
  rewrite equity_limited_exit, equity_global_drawdown.
  repeat case_if; auto using equity_trigger_daily, equity_trigger_short.
Qed.

Lemma format_version_truthy major minor patch v :
  format_version major minor patch = Ok v -> string_truthy v = true.
Proof.
  unfold format_version.
  destruct (py_format_int major) as [a|e]; [|discriminate].
  destruct (py_format_int minor) as [b|e]; [|discriminate].
  destruct (py_format_int patch) as [c|e]; [|discriminate].
  intro H. inversion H. destruct a; reflexivity.
Qed.

(** [bump_internal_version] either stores and returns a version, or
    raises and leaves the machine alone. *)
Lemma bump_cases s :
  (exists v, bump_internal_version s = (Ok v, set_internal_version v s) /\
             string_truthy v = true) \/
  (exists e, bump_internal_version s = (Raise e, s)).
Proof.
  unfold bump_internal_version.
  destruct (split_dot (_internal_version s)) as [|a [|b [|c [|d l]]]];
    try (left; eexists; split; reflexivity).
  destruct (isdigit a && isdigit b && isdigit c);
    [|left; eexists; split; reflexivity].
  destruct (py_int_of_string a) as [major|e]; [|right; eauto].
  destruct (py_int_of_string b) as [minor|e]; [|right; eauto].
  destruct (py_int_of_string c) as [patch|e]; [|right; eauto].
  destruct (format_version major minor (patch + 1)) as [v|e] eqn:E; [|right; eauto].
  left. exists v. split; [reflexivity|]. eapply format_version_truthy, E.
Qed.

Lemma equity_bump s : _equity_stats (snd (bump_internal_version s)) = _equity_stats s.
Proof.
  destruct (bump_cases s) as [(v & -> & _)|(e & ->)]; reflexivity.
Qed.

Lemma equity_countdown now now' s :
  _equity_stats (snd (current_cooldown_countdown now now' s)) = _equity_stats s.
Proof.
  unfold current_cooldown_countdown.
  destruct (_mode _); try (simpl; apply equity_timers).
  destruct (_cooldown_until _); simpl; apply equity_timers.
Qed.

Lemma equity_can_trade now s :
  _equity_stats (snd (can_trade_now now s)) = _equity_stats s.
Proof.
  unfold can_trade_now. destruct (_mode _); simpl; apply equity_timers.
Qed.

(** *** Drawdown bookkeeping *)

Lemma update_drawdown_peak s :
  peak_equity (_equity_stats (_update_drawdown_metrics config s))
  = py_max (peak_equity (_equity_stats s)) (_current_equity config s).
Proof. unfold _update_drawdown_metrics. case_if; reflexivity. Qed.

Lemma update_drawdown_max s :
  let peak := peak_equity (_equity_stats (_update_drawdown_metrics config s)) in
  max_drawdown_pct (_equity_stats (_update_drawdown_metrics config s))
  = if Qlt_bool 0 peak
    then py_max (max_drawdown_pct (_equity_stats s))
                ((peak - _current_equity config s) / peak)
    else max_drawdown_pct (_equity_stats s).
Proof.
  simpl. rewrite update_drawdown_peak.
  unfold _update_drawdown_metrics, Qlt_bool.
  fold (reference config). fold (_current_equity config s).
  destruct (Qle_bool _ 0); reflexivity.
Qed.

Lemma update_drawdown_cumulative s :
  cumulative_pnl (_equity_stats (_update_drawdown_metrics config s))
  = cumulative_pnl (_equity_stats s).
Proof. unfold _update_drawdown_metrics. case_if; reflexivity. Qed.

Lemma equity_roll t s :
  _equity_stats (_maybe_roll_daily_stats t s) = _equity_stats s.
Proof. unfold _maybe_roll_daily_stats. case_if; reflexivity. Qed.

Lemma accumulate_cumulative r s :
  cumulative_pnl (_equity_stats (accumulate config r s))
  = cumulative_pnl (_equity_stats s) + net_pnl r.
Proof.
  unfold accumulate. rewrite update_drawdown_cumulative. simpl.
  now rewrite equity_roll.
Qed.

Lemma accumulate_peak r s :
  peak_equity (_equity_stats (accumulate config r s))
  = py_max (peak_equity (_equity_stats s))
           (reference config + (cumulative_pnl (_equity_stats s) + net_pnl r)).
Proof.
  unfold accumulate. rewrite update_drawdown_peak. unfold _current_equity. simpl.
  now rewrite equity_roll.
Qed.

Lemma accumulate_max_drawdown r s :
  let equity := reference config + (cumulative_pnl (_equity_stats s) + net_pnl r) in
  let peak := py_max (peak_equity (_equity_stats s)) equity in
  max_drawdown_pct (_equity_stats (accumulate config r s))
  = if Qlt_bool 0 peak
    then py_max (max_drawdown_pct (_equity_stats s)) ((peak - equity) / peak)
    else max_drawdown_pct (_equity_stats s).
Proof.
  simpl. unfold accumulate.
  match goal with |- context [_update_drawdown_metrics config ?x] => set (s2 := x) end.
  pose proof (update_drawdown_max s2) as H. simpl in H. rewrite H. clear H.
  rewrite update_drawdown_peak.
  unfold _current_equity. subst s2. simpl.
  now rewrite equity_roll.
Qed.

Lemma step_monotone s e :
  peak_equity (_equity_stats s) <= peak_equity (_equity_stats (snd (step config s e))) /\
  max_drawdown_pct (_equity_stats s)
  <= max_drawdown_pct (_equity_stats (snd (step config s e))).
Proof.
  destruct e as [now r|now|now|now now'| |]; simpl.
  - rewrite equity_on_trade_closed. split.
    + rewrite accumulate_peak. apply py_max_le_l.
    + pose proof (accumulate_max_drawdown r s) as H. simpl in H. rewrite H.
      case_if; [apply py_max_le_l | apply Qle_refl].
  - pose proof (equity_can_trade now s) as H.
    destruct (can_trade_now now s) as [[a b] s']. simpl in *. rewrite H.
    split; apply Qle_refl.
  - unfold current_mode. simpl. rewrite equity_timers. split; apply Qle_refl.
  - pose proof (equity_countdown now now' s) as H.
    destruct (current_cooldown_countdown now now' s) as [[a b] s'].
    simpl in *. rewrite H. split; apply Qle_refl.
  - pose proof (equity_bump s) as H.
    destruct (bump_internal_version s) as [[v|e'] s']; simpl in *; rewrite H;
      split; apply Qle_refl.
  - split; apply Qle_refl.
Qed.

Lemma run_app s es1 es2 :
  snd (run config s (es1 ++ es2)) = snd (run config (snd (run config s es1)) es2).
Proof.
  revert s. induction es1 as [|e es1 IH]; intro s; simpl; [reflexivity|].
  destruct (step config s e) as [o s1] eqn:E1.
  specialize (IH s1).
  destruct (run config s1 (es1 ++ es2)) as [os2 s2].
  destruct (run config s1 es1) as [os1 s1']. simpl in *. exact IH.
Qed.

Lemma run_monotone s es :
  peak_equity (_equity_stats s) <= peak_equity (_equity_stats (snd (run config s es))) /\
  max_drawdown_pct (_equity_stats s)
  <= max_drawdown_pct (_equity_stats (snd (run config s es))).
Proof.
  revert s. induction es as [|e es IH]; intro s; simpl.
  - split; apply Qle_refl.
  - pose proof (step_monotone s e) as [Hp Hd].
    destruct (step config s e) as [o s1]. simpl in *.
    destruct (IH s1) as [Hp' Hd'].
    destruct (run config s1 es) as [os s2]. simpl in *.
    split; eapply Qle_trans; eassumption.
Qed.

(** *** Modes *)

Lemma timers_halt now s : _mode s = HALT -> _evaluate_timers now s = s.
Proof. intro H. unfold _evaluate_timers. rewrite H. simpl. rewrite H. reflexivity. Qed.

Lemma limited_exit_keeps_other_modes s :
  _mode s <> LIMITED -> _evaluate_limited_exit config s = s.
Proof.
  intro H. unfold _evaluate_limited_exit.
  destruct (_mode s); try reflexivity. contradiction.
Qed.

(** *** Cooldown triggers *)

Lemma accumulate_frame r s :
  exists ss es, accumulate config r s = set_equity es (set_session ss s).
Proof.
  unfold accumulate, _update_drawdown_metrics, _maybe_roll_daily_stats.
  repeat case_if; do 2 eexists; reflexivity.
Qed.

Lemma session_enter_cooldown now minutes next s :
  _session_stats (_enter_cooldown config now minutes next s) = _session_stats s.
Proof. unfold _enter_cooldown. repeat case_if; reflexivity. Qed.

Lemma session_global_drawdown s :
  _session_stats (_evaluate_global_drawdown config s) = _session_stats s.
Proof. unfold _evaluate_global_drawdown. case_if; reflexivity. Qed.

Lemma session_limited_exit s :
  _session_stats (_evaluate_limited_exit config s) = _session_stats s.
Proof.
  unfold _evaluate_limited_exit. case_if; [|reflexivity].
  destruct (_limited_exit_equity s); [|reflexivity]. case_if; reflexivity.
Qed.

Lemma session_on_trade_closed now r s :
  _session_stats (on_trade_closed config now r s) = _session_stats (accumulate config r s).
Proof.
  unfold on_trade_closed, _trigger_daily_loss_cooldown, _trigger_short_cooldown.
  rewrite session_limited_exit, session_global_drawdown.
  repeat case_if; rewrite ?session_enter_cooldown; reflexivity.
Qed.

Lemma enter_cooldown_positive now minutes next s :
  (0 < minutes)%Z ->
  let until := (now + timedelta_minutes minutes)%Z in
  let s1 := set_next_mode next (set_cooldown_until (Some until) (set_mode COOLDOWN s)) in
  _enter_cooldown config now minutes next s
  = if BotMode_eqb next LIMITED
    then set_limited_exit_equity
           (Some (_current_equity config s
                  + reference config * limited_mode_recovery_pct (risk_limits config)))
           (set_limited_until
              (Some (until + timedelta_minutes
                               (limited_mode_duration_minutes (risk_limits config)))%Z)
              s1)
    else s1.
Proof.
  intro H. simpl. unfold _enter_cooldown.
  assert (E : (minutes <=? 0)%Z = false) by (apply Z.leb_gt; exact H).
  rewrite E. reflexivity.
Qed.

Lemma enter_cooldown_immediate now minutes next s :
  (minutes <= 0)%Z -> _enter_cooldown config now minutes next s = set_mode next s.
Proof.
  intro H. unfold _enter_cooldown.
  assert (E : (minutes <=? 0)%Z = true) by (apply Z.leb_le; exact H).
  now rewrite E.
Qed.

(** After a cooldown has been entered, the two closing checks can only
    replace COOLDOWN by HALT. *)
Lemma closing_checks_from_cooldown s3 :
  _mode s3 = COOLDOWN ->
  _evaluate_limited_exit config (_evaluate_global_drawdown config s3)
  = if Qle_bool (global_drawdown_pct (risk_limits config))
         (max_drawdown_pct (_equity_stats s3))
    then set_mode HALT s3 else s3.
Proof.
  intro H. unfold _evaluate_global_drawdown.
  case_if; apply limited_exit_keeps_other_modes; simpl; rewrite ?H; discriminate.
Qed.

Lemma closing_checks_never_cooldown s3 :
  _mode s3 <> COOLDOWN ->
  let s' := _evaluate_limited_exit config (_evaluate_global_drawdown config s3) in
  _mode s' <> COOLDOWN /\ _cooldown_until s' = _cooldown_until s3.
Proof.
  intro H. simpl. unfold _evaluate_limited_exit, _evaluate_global_drawdown.
  repeat (case_if; simpl);
    repeat match goal with
      | |- context [match ?x with Some _ => _ | None => _ end] => destruct x; simpl
      end; repeat (case_if; simpl); split; auto; discriminate.
Qed.

End Transitions.

Lemma accessor_keeps_halt (config : BotConfig) (s : State) (e : event) :
  is_accessor e = true -> _mode s = HALT -> _mode (snd (step config s e)) = HALT.
Proof.
  intros Ha H. destruct e as [now r|now|now|now now'| |]; simpl in *.
  - discriminate.
  - unfold can_trade_now. rewrite (timers_halt now s H), H. simpl. exact H.
  - unfold current_mode. rewrite (timers_halt now s H). exact H.
  - unfold current_cooldown_countdown. rewrite (timers_halt now s H), H. exact H.
  - destruct (bump_cases s) as [(v & -> & _)|(e & ->)]; exact H.
  - exact H.
Qed.

(** C3.  Along every sequence of events (trade results fed to
    [on_trade_closed], and any accessor calls between them), [peak_equity]
    and [max_drawdown_pct] never decrease: the values after a prefix of the
    sequence are at most the values after the whole of it.  Each closed
    trade sets the peak to the maximum of the old peak and the new equity
    and, the peak being positive, the drawdown to the maximum of the old
    value and [(peak_equity - current_equity) / peak_equity]. *)
Theorem drawdown_metrics_never_decrease
    (config : BotConfig) (s : State) (es1 es2 : list event) :
  let before := _equity_stats (snd (run config s es1)) in
  let after := _equity_stats (snd (run config s (es1 ++ es2))) in
  (peak_equity before <= peak_equity after /\
   max_drawdown_pct before <= max_drawdown_pct after) /\
  (forall now r,
      let closed := on_trade_closed config now r s in
      let equity := _current_equity config closed in
      let peak := peak_equity (_equity_stats closed) in
      peak = py_max (peak_equity (_equity_stats s)) equity /\
      max_drawdown_pct (_equity_stats closed)
      = if Qlt_bool 0 peak
        then py_max (max_drawdown_pct (_equity_stats s)) ((peak - equity) / peak)
        else max_drawdown_pct (_equity_stats s)).
Proof.
  simpl. split.
  - rewrite run_app. apply run_monotone.
  - intros now r. unfold _current_equity.
    rewrite equity_on_trade_closed, accumulate_cumulative, accumulate_peak.
    split; [reflexivity|]. apply accumulate_max_drawdown.
Qed.

(** C4.  A call of [on_trade_closed] that leaves [max_drawdown_pct] at or
    above [global_drawdown_pct] ends in HALT, whatever cooldown trigger
    fired in the same call; and the lazy timer evaluation leaves a halted
    machine exactly as it is, so no sequence of accessor calls takes the
    mode away from HALT. *)
Theorem global_drawdown_forces_halt (config : BotConfig) :
  (forall now r s,
      global_drawdown_pct (risk_limits config)
      <= max_drawdown_pct (_equity_stats (on_trade_closed config now r s)) ->
      _mode (on_trade_closed config now r s) = HALT) /\
  (forall now s, _mode s = HALT -> _evaluate_timers now s = s) /\
  (forall es s,
      forallb is_accessor es = true -> _mode s = HALT ->
      _mode (snd (run config s es)) = HALT).
Proof.
  split; [|split].
  - intros now r s H. rewrite equity_on_trade_closed in H.
    unfold on_trade_closed.
    match goal with
    | |- _mode (_evaluate_limited_exit _ (_evaluate_global_drawdown _ ?x)) = _ =>
        set (s3 := x)
    end.
    assert (E : _equity_stats s3 = _equity_stats (accumulate config r s)).
    { subst s3. repeat case_if; auto using equity_trigger_daily, equity_trigger_short. }
    assert (Hh : _mode (_evaluate_global_drawdown config s3) = HALT).
    { unfold _evaluate_global_drawdown. rewrite E.
      apply Qle_bool_iff in H. rewrite H. reflexivity. }
    rewrite limited_exit_keeps_other_modes; [exact Hh|]. rewrite Hh. discriminate.
  - apply timers_halt.
  - induction es as [|e es IH]; intros s Ha H; simpl in *; [exact H|].
    apply andb_true_iff in Ha. destruct Ha as [He Hes].
    pose proof (accessor_keeps_halt config s e He H) as H1.
    destruct (step config s e) as [o s1]. simpl in *.
    specialize (IH s1 Hes H1).
    destruct (run config s1 es) as [os s2]. exact IH.
Qed.

(** A single loss of 300 on a balance of 1000 breaches the 3% daily limit
    (the long cooldown fires) and the 20% drawdown limit at once: the call
    ends in HALT, and reading the mode two hours later still answers HALT. *)
Lemma global_drawdown_forces_halt_sample :
  let halted := on_trade_closed scenario_config 0%Z (loss_of 300) fresh_state in
  long (_cooldown_counters halted) = 1%Z /\
  _mode halted = HALT /\
  _evaluate_timers 7200000000%Z halted = halted.
Proof.
  destruct (global_drawdown_forces_halt scenario_config) as (H1 & H2 & _).
  simpl. split; [reflexivity|].
  assert (H : _mode (on_trade_closed scenario_config 0%Z (loss_of 300) fresh_state) = HALT)
    by (apply H1; vm_compute; discriminate).
  split; [exact H | apply H2; exact H].
Defined.

(** C9.  [can_trade_now] first evaluates the timers; on the resulting mode
    it answers [(False, mode)] exactly for COOLDOWN and HALT and
    [(True, None)] exactly for NORMAL and LIMITED. *)
Theorem can_trade_now_gate (now : datetime) (s : State) :
  let s' := _evaluate_timers now s in
  let answer := fst (can_trade_now now s) in
  snd (can_trade_now now s) = s' /\
  (fst answer = false <-> _mode s' = COOLDOWN \/ _mode s' = HALT) /\
  (fst answer = true <-> _mode s' = NORMAL \/ _mode s' = LIMITED) /\
  (answer = (false, Some (BotMode_value (_mode s')))
   <-> _mode s' = COOLDOWN \/ _mode s' = HALT) /\
  (answer = (true, None) <-> _mode s' = NORMAL \/ _mode s' = LIMITED).
Proof.
  simpl. unfold can_trade_now.
  destruct (_mode (_evaluate_timers now s)) eqn:E; simpl;
    repeat split; intros; try discriminate; auto;
    match goal with
    | H : _ \/ _ |- _ => destruct H; discriminate
    end.
Qed.

(** *** Snapshots *)

Lemma BotMode_value_round_trip (m : BotMode) : BotMode_of_value (BotMode_value m) = Ok m.
Proof. destruct m; reflexivity. Qed.

Lemma append_truthy (a b : string) (c : ascii) : string_truthy (a ++ String c b) = true.
Proof. destruct a; reflexivity. Qed.

Lemma hydrate_well_formed (p : Payload) (s0 s : State) :
  _hydrate p s0 = Ok s -> well_formed s0 -> well_formed s.
Proof.
  unfold _hydrate, well_formed. intros H [Hv He].
  destruct (p_mode p) as [v|].
  - destruct (BotMode_of_value v); [|discriminate].
    destruct (BotMode_of_value _); [|discriminate].
    inversion H; subst s; clear H.
    destruct (p_session_stats p), (p_equity_stats p), (p_cooldown_until p),
      (p_limited_until p), (p_internal_version p) as [v'|],
      (p_cooldown_counters p) as [u|];
      try destruct (string_truthy v') eqn:?; try destruct (counters_payload_truthy u);
      simpl; auto.
  - destruct (BotMode_of_value _); [|discriminate].
    inversion H; subst s; clear H.
    destruct (p_session_stats p), (p_equity_stats p), (p_cooldown_until p),
      (p_limited_until p), (p_internal_version p) as [v'|],
      (p_cooldown_counters p) as [u|];
      try destruct (string_truthy v') eqn:?; try destruct (counters_payload_truthy u);
      simpl; auto.
Qed.

Lemma init_well_formed (config : BotConfig) now p s :
  __init__ config now p = Ok s -> well_formed s.
Proof.
  unfold __init__. intro H.
  destruct p as [p|].
  - destruct (payload_truthy p).
    + eapply hydrate_well_formed; [exact H|]. split; reflexivity.
    + inversion H. split; reflexivity.
  - inversion H. split; reflexivity.
Qed.

Lemma timers_well_formed now s : well_formed s -> well_formed (_evaluate_timers now s).
Proof. unfold _evaluate_timers, well_formed. repeat case_if; simpl; auto. Qed.

Lemma on_trade_closed_well_formed (config : BotConfig) now r s :
  well_formed s -> well_formed (on_trade_closed config now r s).
Proof.
  intro H. destruct (accumulate_frame config r s) as (ss & es & Hacc).
  unfold on_trade_closed. rewrite Hacc.
  unfold well_formed, _evaluate_limited_exit, _evaluate_global_drawdown,
    _trigger_daily_loss_cooldown, _trigger_short_cooldown, _enter_cooldown in *.
  destruct H as [Hv He].
  repeat (case_if; simpl; auto);
    repeat match goal with
      | |- context [match ?x with Some _ => _ | None => _ end] => destruct x; simpl; auto
      end; repeat (case_if; simpl; auto).
Qed.

Lemma step_well_formed (config : BotConfig) s e :
  well_formed s -> well_formed (snd (step config s e)).
Proof.
  intro H. destruct e as [now r|now|now|now now'| |]; simpl.
  - apply on_trade_closed_well_formed, H.
  - unfold can_trade_now. pose proof (timers_well_formed now s H).
    destruct (_mode _); simpl; assumption.
  - apply timers_well_formed, H.
  - unfold current_cooldown_countdown. pose proof (timers_well_formed now s H).
    destruct (_mode _); simpl; try assumption.
    destruct (_cooldown_until _); simpl; assumption.
  - destruct (bump_cases s) as [(v & -> & Hv')|(e & ->)]; [|exact H].
    destruct H as [Hv He]. split; [exact Hv' | exact He].
  - exact H.
Qed.

Lemma reachable_well_formed (config : BotConfig) s :
  reachable config s -> well_formed s.
Proof.
  induction 1 as [now p s H | s e _ IH].
  - eapply init_well_formed, H.
  - apply step_well_formed, IH.
Qed.

(** Hydrating a machine that has no timers yet, as the constructor does,
    from an exported snapshot. *)
Lemma hydrate_export (s s0 : State) :
  well_formed s ->
  _cooldown_enabled s0 = true -> _cooldown_until s0 = None -> _limited_until s0 = None ->
  _hydrate (export_state s) s0 = Ok s.
Proof.
  intros [Hv He] He0 Hc0 Hl0. unfold _hydrate, export_state. simpl.
  rewrite !BotMode_value_round_trip. rewrite Hv.
  destruct s as [ss es m cu nm lu le v c en]. simpl in *. subst en.
  destruct c as [sh lo].
  destruct s0 as [ss0 es0 m0 cu0 nm0 lu0 le0 v0 c0 en0]. simpl in *. subst.
  destruct cu, lu; reflexivity.
Qed.

(** C2, as stated, fails, in two ways.  With [cooldown_long_minutes = 0] a
    loss of 50 on a balance of 1000 breaches the 3% daily limit, yet the
    call ends in LIMITED, not COOLDOWN, and no limited window has been
    written.  And under the scenario configuration a loss of 300 breaches
    the daily limit and the 20% drawdown limit together: the call ends in
    HALT. *)
Lemma daily_loss_breach_without_cooldown :
  (let config := no_long_cooldown_config in
   let s' := on_trade_closed config 0%Z (loss_of 50) fresh_state in
   ~ (daily_pnl (_session_stats s')
      <= - (reference config * max_daily_loss_pct (profile config)) ->
      _mode s' = COOLDOWN /\
      _next_mode_after_cooldown s' = LIMITED /\
      exists threshold,
        _limited_exit_equity s' = Some threshold /\
        threshold == _current_equity config s'
                     + reference config * limited_mode_recovery_pct (risk_limits config)))
  /\
  (let config := scenario_config in
   let s' := on_trade_closed config 0%Z (loss_of 300) fresh_state in
   ~ (daily_pnl (_session_stats s')
      <= - (reference config * max_daily_loss_pct (profile config)) ->
      _mode s' = COOLDOWN /\
      _next_mode_after_cooldown s' = LIMITED /\
      exists threshold,
        _limited_exit_equity s' = Some threshold /\
        threshold == _current_equity config s'
                     + reference config * limited_mode_recovery_pct (risk_limits config))).
Proof.
  split; intros config s' H.
  - assert (Hmode : _mode s' = COOLDOWN) by (apply H; vm_compute; discriminate).
    revert Hmode. vm_compute. discriminate.
  - assert (Hmode : _mode s' = COOLDOWN) by (apply H; vm_compute; discriminate).
    revert Hmode. vm_compute. discriminate.
Qed.

(** C2, amended.  On a machine with cooldowns enabled (every constructed
    machine), after a call of [on_trade_closed]:
    - daily loss breached and [cooldown_long_minutes > 0]: the cooldown
      timer is set to [now + cooldown_long_minutes] with next mode LIMITED,
      and the limited window is written, ending
      [limited_mode_duration_minutes] after the cooldown, with exit
      threshold [current equity + reference * limited_mode_recovery_pct];
      the mode is COOLDOWN, unless the global drawdown is breached too, in
      which case it is HALT;
    - no daily breach, loss streak reached and [cooldown_short_minutes > 0]:
      the timer is set to [now + cooldown_short_minutes] with next mode
      NORMAL, the limited window fields are left as they were, and the mode
      is COOLDOWN or, on a drawdown breach, HALT;
    - with a cooldown length of zero or less the machine does not enter
      COOLDOWN and the cooldown timer is left as it was. *)
Theorem cooldown_triggers
    (config : BotConfig) (now : datetime) (r : TradeResult) (s : State) :
  _cooldown_enabled s = true ->
  let s' := on_trade_closed config now r s in
  let limits := risk_limits config in
  let breach :=
    daily_pnl (_session_stats s')
    <= - (reference config * max_daily_loss_pct (profile config)) in
  let streak :=
    (max_consecutive_losses_for_cooldown (profile config)
     <= consecutive_losses (_session_stats s'))%Z in
  let halted :=
    Qle_bool (global_drawdown_pct limits) (max_drawdown_pct (_equity_stats s')) in
  (breach -> (0 < cooldown_long_minutes limits)%Z ->
   let until := (now + timedelta_minutes (cooldown_long_minutes limits))%Z in
   _mode s' = (if halted then HALT else COOLDOWN) /\
   _cooldown_until s' = Some until /\
   _next_mode_after_cooldown s' = LIMITED /\
   _limited_until s'
   = Some (until + timedelta_minutes (limited_mode_duration_minutes limits))%Z /\
   _limited_exit_equity s'
   = Some (_current_equity config s'
           + reference config * limited_mode_recovery_pct limits)) /\
  (~ breach -> streak -> (0 < cooldown_short_minutes limits)%Z ->
   _mode s' = (if halted then HALT else COOLDOWN) /\
   _cooldown_until s'
   = Some (now + timedelta_minutes (cooldown_short_minutes limits))%Z /\
   _next_mode_after_cooldown s' = NORMAL /\
   _limited_until s' = _limited_until s /\
   _limited_exit_equity s' = _limited_exit_equity s) /\
  (breach -> (cooldown_long_minutes limits <= 0)%Z ->
   _mode s' <> COOLDOWN /\ _cooldown_until s' = _cooldown_until s) /\
  (~ breach -> streak -> (cooldown_short_minutes limits <= 0)%Z ->
   _mode s' <> COOLDOWN /\ _cooldown_until s' = _cooldown_until s).
Proof.
  intros Hen s' limits breach streak halted.
  destruct (accumulate_frame config r s) as (ss & es & Hacc).
  assert (Hsess : _session_stats s' = ss).
  { subst s'. rewrite session_on_trade_closed, Hacc. reflexivity. }
  assert (Heq : _equity_stats s' = es).
  { subst s'. rewrite equity_on_trade_closed, Hacc. reflexivity. }
  assert (Hs' : s' = on_trade_closed config now r s) by reflexivity.
  unfold on_trade_closed in Hs'. rewrite Hacc in Hs'.
  unfold daily_loss_breached, loss_streak_reached, _max_daily_loss_abs in Hs'.
  simpl in Hs'.
  subst breach streak halted. rewrite Hsess, Heq. unfold _current_equity. rewrite Heq.
  clearbody s'. clear Hsess Heq Hacc.
  unfold _trigger_daily_loss_cooldown, _trigger_short_cooldown in Hs'.
  simpl in Hs'. rewrite Hen in Hs'. simpl in Hs'.
  split; [|split; [|split]].
  - intros Hb Hmin. apply Qle_bool_iff in Hb. rewrite Hb in Hs'.
    rewrite (enter_cooldown_positive config now _ LIMITED _ Hmin) in Hs'.
    simpl in Hs'. rewrite closing_checks_from_cooldown in Hs' by reflexivity.
    simpl in Hs'. subst s'. fold limits.
    destruct (Qle_bool (global_drawdown_pct limits) (max_drawdown_pct es));
      repeat split; reflexivity.
  - intros Hb Hst Hmin.
    assert (Hb' : Qle_bool (daily_pnl ss)
                    (- (reference config * max_daily_loss_pct (profile config))) = false).
    { destruct (Qle_bool _ _) eqn:E; [|reflexivity].
      apply Qle_bool_iff in E. contradiction. }
    rewrite Hb' in Hs'. apply Z.leb_le in Hst. rewrite Hst in Hs'.
    rewrite (enter_cooldown_positive config now _ NORMAL _ Hmin) in Hs'.
    simpl in Hs'. rewrite closing_checks_from_cooldown in Hs' by reflexivity.
    simpl in Hs'. subst s'. fold limits.
    destruct (Qle_bool (global_drawdown_pct limits) (max_drawdown_pct es));
      repeat split; reflexivity.
  - intros Hb Hmin. apply Qle_bool_iff in Hb. rewrite Hb in Hs'.
    rewrite (enter_cooldown_immediate config now _ LIMITED _ Hmin) in Hs'.
    subst s'.
    match goal with
    | |- context [_evaluate_global_drawdown config ?x] =>
        destruct (closing_checks_never_cooldown config x) as [Hm Hc];
          [simpl; discriminate|]
    end.
    split; [exact Hm | rewrite Hc; reflexivity].
  - intros Hb Hst Hmin.
    assert (Hb' : Qle_bool (daily_pnl ss)
                    (- (reference config * max_daily_loss_pct (profile config))) = false).
    { destruct (Qle_bool _ _) eqn:E; [|reflexivity].
      apply Qle_bool_iff in E. contradiction. }
    rewrite Hb' in Hs'. apply Z.leb_le in Hst. rewrite Hst in Hs'.
    rewrite (enter_cooldown_immediate config now _ NORMAL _ Hmin) in Hs'.
    subst s'.
    match goal with
    | |- context [_evaluate_global_drawdown config ?x] =>
        destruct (closing_checks_never_cooldown config x) as [Hm Hc];
          [simpl; discriminate|]
    end.
    split; [exact Hm | rewrite Hc; reflexivity].
Qed.

(** A loss of 50 on a balance of 1000 under the scenario configuration
    breaches the daily limit of 30: the long cooldown runs for 60 minutes,
    LIMITED for 120 more, unless equity climbs back to 950 + 10. *)
Lemma cooldown_triggers_sample :
  let config := scenario_config in
  let s' := on_trade_closed config 0%Z (loss_of 50) fresh_state in
  let limits := risk_limits config in
  let halted :=
    Qle_bool (global_drawdown_pct limits) (max_drawdown_pct (_equity_stats s')) in
  let until := (0 + timedelta_minutes (cooldown_long_minutes limits))%Z in
  _mode s' = (if halted then HALT else COOLDOWN) /\
  _cooldown_until s' = Some until /\
  _next_mode_after_cooldown s' = LIMITED /\
  _limited_until s'
  = Some (until + timedelta_minutes (limited_mode_duration_minutes limits))%Z /\
  _limited_exit_equity s'
  = Some (_current_equity config s'
          + reference config * limited_mode_recovery_pct limits).
Proof.
  refine (proj1 (cooldown_triggers scenario_config 0%Z (loss_of 50) fresh_state eq_refl)
            _ _).
  - vm_compute. discriminate.
  - reflexivity.
Defined.

(** C5.  A machine constructed from the snapshot that [export_state]
    returns for a reachable state is in that very state, whatever the clock
    reads at construction; so on every later sequence of trade results,
    clock readings and accessor calls it returns the same answers and makes
    the same transitions as the original. *)
Theorem export_import_round_trip
    (config : BotConfig) (now0 : datetime) (s : State) :
  reachable config s ->
  __init__ config now0 (Some (export_state s)) = Ok s /\
  (forall es,
      exists s',
        __init__ config now0 (Some (export_state s)) = Ok s' /\
        run config s' es = run config s es).
Proof.
  intro Hr. apply reachable_well_formed in Hr.
  assert (H : __init__ config now0 (Some (export_state s)) = Ok s).
  { unfold __init__.
    change (payload_truthy (export_state s)) with true. cbv iota.
    apply hydrate_export; [exact Hr | reflexivity | reflexivity | reflexivity]. }
  split; [exact H|].
  intro es. exists s. split; [exact H | reflexivity].
Qed.

(** A machine in its long cooldown, exported and rebuilt a day later. *)
Lemma export_import_round_trip_sample :
  let s := snd (step scenario_config fresh_state (TradeClosed 0%Z (loss_of 50))) in
  __init__ scenario_config 86400000000%Z (Some (export_state s)) = Ok s.
Proof.
  intro s.
  refine (proj1 (export_import_round_trip scenario_config 86400000000%Z s _)).
  subst s. apply reachable_step.
  apply (reachable_init scenario_config 0%Z None).
  vm_compute. reflexivity.
Defined.

End StateManagerFacts.

(** ** OrderExecutor *)

Module OrderExecutorFacts.
Import PyFacts OrderExecutor Scenarios.

(** *** The stable sort by execution time *)

Lemma in_insert_by_time (row r : ExecutionRow) (l : list ExecutionRow) :
  In r (insert_by_time row l) <-> r = row \/ In r l.
Proof.
  induction l as [|y l IH]; simpl.
  - intuition congruence.
  - destruct (x_execTime row <=? x_execTime y)%Z; simpl; [intuition congruence|].
    rewrite IH. intuition congruence.
Qed.

Lemma in_sorted_by_time (r : ExecutionRow) (l : list ExecutionRow) :
  In r (sorted_by_time l) <-> In r l.
Proof.
  induction l as [|y l IH]; simpl; [tauto|].
  rewrite in_insert_by_time, IH. intuition congruence.
Qed.

Lemma insert_by_time_sorted (row : ExecutionRow) (l : list ExecutionRow) :
  StronglySorted earlier l -> StronglySorted earlier (insert_by_time row l).
Proof.
  induction 1 as [|y l Hs IH Hall]; simpl.
  - constructor; constructor.
  - destruct (x_execTime row <=? x_execTime y)%Z eqn:E.
    + apply Z.leb_le in E. constructor; [constructor; assumption|].
      constructor; [exact E|].
      eapply Forall_impl; [|exact Hall].
      intros a Ha. unfold earlier in *. lia.
    + apply Z.leb_gt in E. constructor; [exact IH|].
      apply Forall_forall. intros a Ha. apply in_insert_by_time in Ha.
      destruct Ha as [->|Ha].
      * unfold earlier. lia.
      * rewrite Forall_forall in Hall. apply Hall, Ha.
Qed.

Lemma sorted_by_time_sorted (l : list ExecutionRow) :
  StronglySorted earlier (sorted_by_time l).
Proof.
  induction l as [|y l IH]; simpl; [constructor|].
  apply insert_by_time_sorted, IH.
Qed.

(** *** The exit fill *)

Lemma exit_candidateb_spec (t : ActiveTrade) (row : ExecutionRow) :
  exit_candidateb (side t) (last_exec_time_ms t) row = true <-> exit_candidate t row.
Proof.
  unfold exit_candidateb, exit_candidate, closes.
  rewrite andb_true_iff, orb_true_iff, !andb_true_iff, Z.ltb_lt, !String.eqb_eq.
  tauto.
Qed.

Lemma first_exit_row_find (trade_side : string) (watermark : Z) (rows : list ExecutionRow) :
  first_exit_row trade_side watermark rows
  = find (exit_candidateb trade_side watermark) rows.
Proof.
  induction rows as [|row rest IH]; simpl; [reflexivity|].
  unfold exit_candidateb at 1.
  destruct (x_execTime row <=? watermark)%Z eqn:E.
  - apply Z.leb_le in E.
    assert (E' : (watermark <? x_execTime row)%Z = false) by (apply Z.ltb_ge; exact E).
    rewrite E'. simpl. exact IH.
  - apply Z.leb_gt in E.
    assert (E' : (watermark <? x_execTime row)%Z = true) by (apply Z.ltb_lt; exact E).
    rewrite E'. simpl.
    destruct (String.eqb trade_side "LONG" && String.eqb (upper (x_side row)) "SELL");
      simpl; [reflexivity|].
    destruct (String.eqb trade_side "SHORT" && String.eqb (upper (x_side row)) "BUY");
      simpl; [reflexivity | exact IH].
Qed.

Lemma find_sorted_is_earliest (P : ExecutionRow -> bool) (l : list ExecutionRow)
    (row : ExecutionRow) :
  StronglySorted earlier l -> find P l = Some row ->
  forall row', In row' l -> P row' = true -> earlier row row'.
Proof.
  induction 1 as [|y l Hs IH Hall]; simpl; [discriminate|].
  intros Hfind row' Hin HP.
  destruct (P y) eqn:Ey.
  - inversion Hfind; subst y.
    destruct Hin as [->|Hin]; [unfold earlier; lia|].
    rewrite Forall_forall in Hall. apply Hall, Hin.
  - destruct Hin as [->|Hin]; [congruence|].
    apply IH; assumption.
Qed.

(** What the scan of [_find_exit_fill] picks among the fills it was given. *)
Lemma first_exit_row_spec (t : ActiveTrade) (execs : list ExecutionRow) :
  match first_exit_row (side t) (last_exec_time_ms t) (sorted_by_time execs) with
  | Some row =>
      In row execs /\ exit_candidate t row /\
      forall row', In row' execs -> exit_candidate t row' -> earlier row row'
  | None => forall row, In row execs -> ~ exit_candidate t row
  end.
Proof.
  rewrite first_exit_row_find.
  destruct (find _ (sorted_by_time execs)) as [row|] eqn:E.
  - pose proof (find_some _ _ E) as [Hin HP].
    apply (proj1 (in_sorted_by_time _ _)) in Hin.
    apply (proj1 (exit_candidateb_spec _ _)) in HP.
    split; [exact Hin | split; [exact HP|]].
    intros row' Hin' HP'.
    eapply find_sorted_is_earliest;
      [apply sorted_by_time_sorted | exact E
      | apply (proj2 (in_sorted_by_time _ _)), Hin' |].
    apply (proj2 (exit_candidateb_spec _ _)), HP'.
  - intros row Hin HP.
    apply (proj2 (in_sorted_by_time _ _)) in Hin.
    pose proof (find_none _ _ E row Hin) as Hf.
    apply (proj2 (exit_candidateb_spec _ _)) in HP. congruence.
Qed.

(** *** Position size *)

Lemma fold_sizes_ge (rows : list PositionRow) (acc : Q) :
  (forall row, In row rows -> 0 <= p_size row) ->
  acc <= fold_left (fun a row => a + p_size row) rows acc.
Proof.
  revert acc. induction rows as [|row rows IH]; intros acc H; simpl.
  - apply Qle_refl.
  - eapply Qle_trans; [|apply IH; intros; apply H; right; assumption].
    assert (0 <= p_size row) by (apply H; left; reflexivity). lra.
Qed.

Lemma open_size_nonneg (rows : list PositionRow) :
  (forall row, In row rows -> 0 <= p_size row) -> 0 <= open_size rows.
Proof. intro H. unfold open_size. apply fold_sizes_ge, H. Qed.

Lemma fold_sizes_total (rows : list PositionRow) (acc : Q) :
  fold_left (fun a row => a + p_size row) rows acc == acc + total_size rows.
Proof.
  revert acc. induction rows as [|row rows IH]; intro acc; simpl.
  - lra.
  - rewrite IH. lra.
Qed.

(** What the code adds up is the total of the report. *)
Lemma open_size_total (rows : list PositionRow) : open_size rows == total_size rows.
Proof. unfold open_size. rewrite fold_sizes_total. lra. Qed.

Lemma total_size_unsigned (rows : list PositionRow) :
  (forall row, In row rows -> 0 <= p_size row) ->
  0 <= total_size rows /\
  (0 < total_size rows <-> exists row, In row rows /\ 0 < p_size row).
Proof.
  induction rows as [|row rows IH]; intro H; simpl.
  - split; [lra|]. split; [intro Hlt; lra | intros (row & [] & _)].
  - assert (Hrow : 0 <= p_size row) by (apply H; left; reflexivity).
    destruct IH as [Hge Hiff]; [intros r Hr; apply H; right; exact Hr|].
    split; [lra|]. split.
    + intro Hlt. destruct (Qlt_le_dec 0 (p_size row)) as [Hp|Hp].
      * exists row. split; [left; reflexivity | exact Hp].
      * assert (Hrest : 0 < total_size rows) by lra.
        destruct (proj1 Hiff Hrest) as (r & Hr & Hpr).
        exists r. split; [right; exact Hr | exact Hpr].
    + intros (r & [<-|Hr] & Hpr); [lra|].
      assert (0 < total_size rows) by (apply Hiff; exists r; split; assumption). lra.
Qed.

(** C6.  Given the position rows the gateway answers with, and the total of
    their sizes:
    - while that total is positive, [poll_trade_close] returns [None] and
      leaves the slot and every trade object as they were;
    - once it is not -- the position is flat -- and the gateway answers the
      fill query, the call returns: either the price of a fill that is an
      exit candidate (strictly after the watermark, on the closing side)
      and no later than any other candidate, with the trade's watermark
      moved to that fill's time; or [None], when the answer holds no exit
      candidate, the trade unchanged;
    - sizes being unsigned, as the exchange reports them (the direction
      travels in [side]), a total that is not zero is positive, and it is
      positive exactly when some row reports an open size. *)
Theorem poll_trade_close_reconciles
    (env : Environment) (trade : ref) (ex : Executor) (rows : list PositionRow) :
  get_position env (interactions ex) = Ok rows ->
  let t := store ex trade in
  let res := fst (poll_trade_close env trade ex) in
  let ex' := snd (poll_trade_close env trade ex) in
  (0 < total_size rows ->
   res = Ok None /\ _active_trade ex' = _active_trade ex /\
   forall r, store ex' r = store ex r) /\
  (total_size rows <= 0 ->
   forall execs,
     get_executions env (S (interactions ex)) (Some (entry_exec_time_ms t)) = Ok execs ->
     match res with
     | Ok (Some price) =>
         exists row,
           In row execs /\ exit_candidate t row /\
           (forall row', In row' execs -> exit_candidate t row' ->
                         (x_execTime row <= x_execTime row')%Z) /\
           price = x_execPrice row /\
           last_exec_time_ms (store ex' trade) = x_execTime row
     | Ok None =>
         (forall row, In row execs -> ~ exit_candidate t row) /\
         store ex' trade = t
     | Raise _ => False
     end) /\
  ((forall row, In row rows -> 0 <= p_size row) ->
   (~ total_size rows == 0 -> 0 < total_size rows) /\
   (0 < total_size rows <-> exists row, In row rows /\ 0 < p_size row)).
Proof.
  intros Hpos. cbv zeta.
  assert (Hunsigned :
    (forall row, In row rows -> 0 <= p_size row) ->
    (~ total_size rows == 0 -> 0 < total_size rows) /\
    (0 < total_size rows <-> exists row, In row rows /\ 0 < p_size row)).
  { intro Hnn. destruct (total_size_unsigned rows Hnn) as [Hge Hiff].
    split; [|exact Hiff]. intro Hne.
    destruct (Qlt_le_dec 0 (total_size rows)) as [Hlt|Hle]; [exact Hlt|].
    exfalso. apply Hne. apply Qle_antisym; assumption. }
  pose proof (open_size_total rows) as Hsum.
  unfold poll_trade_close, bind, interact. rewrite Hpos.
  destruct (Qlt_bool 0 (open_size rows)) eqn:Hsz.
  - apply Qlt_bool_true in Hsz. rewrite Hsum in Hsz.
    split; [|split; [|exact Hunsigned]].
    + intros _. simpl. repeat split; reflexivity.
    + intro Hz. exfalso. exact (Qlt_not_le _ _ Hsz Hz).
  - apply Qlt_bool_false in Hsz. rewrite Hsum in Hsz.
    split; [|split; [|exact Hunsigned]].
    + intro Hp. exfalso. exact (Qlt_not_le _ _ Hp Hsz).
    + intros _ execs Hex.
      unfold _find_exit_fill, bind, deref, interact. cbn [interactions store].
      rewrite Hex.
      destruct execs as [|e execs]; [simpl; split; [tauto | reflexivity]|].
      pose proof (first_exit_row_spec (store ex trade) (e :: execs)) as Hscan.
      destruct (first_exit_row _ _ (sorted_by_time (e :: execs))) as [row|] eqn:E.
      * destruct Hscan as (Hin & Hcand & Hmin).
        cbn [fst snd set_last_exec_time_ms set_slot ret store].
        exists row.
        split; [exact Hin | split; [exact Hcand | split; [exact Hmin | split]]];
          [reflexivity|].
        rewrite Nat.eqb_refl. reflexivity.
      * cbn [fst snd set_slot ret store]. split; [exact Hscan | reflexivity].
Qed.

(** On the exchange where half a contract is still open the poll returns
    nothing and the trade stays in the slot.  On the sample exchange the
    position is flat; of the two sells after the watermark the one at
    2000 ms is the exit: price 101. *)
Lemma poll_trade_close_sample :
  (fst (poll_trade_close stuck_env 0%nat holding) = Ok None /\
   _active_trade (snd (poll_trade_close stuck_env 0%nat holding)) = _active_trade holding /\
   forall r, store (snd (poll_trade_close stuck_env 0%nat holding)) r = store holding r) /\
  fst (poll_trade_close flat_env 0%nat holding) = Ok (Some 101) /\
  exists row,
    In row sample_fills /\ exit_candidate sample_trade row /\
    (forall row', In row' sample_fills -> exit_candidate sample_trade row' ->
                  (x_execTime row <= x_execTime row')%Z) /\
    101 = x_execPrice row /\
    last_exec_time_ms (store (snd (poll_trade_close flat_env 0%nat holding)) 0%nat)
    = x_execTime row.
Proof.
  split; [|split; [reflexivity|]].
  - destruct (poll_trade_close_reconciles stuck_env 0%nat holding
                [ {| p_size := 1 # 2; p_side := "Buy"; p_stopLoss := 99;
                     p_takeProfit := 101; p_entryPrice := 100; p_positionIdx := "0" |} ]
                eq_refl) as [H _].
    apply H. reflexivity.
  - destruct (poll_trade_close_reconciles flat_env 0%nat holding [] eq_refl)
      as (_ & H & _).
    exact (H (Qle_refl 0) sample_fills eq_refl).
Defined.

(** *** Fill discovery *)

Lemma fetch_fill_loop_frame (env : Environment) (attempts : nat) (order_id : string)
    (ex : Executor) :
  let ex' := snd (_fetch_fill_loop env attempts order_id ex) in
  _active_trade ex' = _active_trade ex /\ store ex' = store ex /\
  next_ref ex' = next_ref ex.
Proof.
  revert ex. induction attempts as [|n IH]; intro ex; simpl; [auto|].
  unfold bind, interact.
  destruct (get_executions env (interactions ex) None) as [rows|e]; simpl; [|auto].
  destruct (find _ rows); simpl; [auto|].
  match goal with
  | |- context [_fetch_fill_loop env n order_id ?x] => specialize (IH x)
  end.
  simpl in IH. exact IH.
Qed.

Lemma fetch_fill_loop_nothing (env : Environment) (attempts : nat) (order_id : string)
    (ex : Executor) :
  no_fill_reported env order_id (interactions ex) attempts ->
  fst (_fetch_fill_loop env attempts order_id ex) = Ok (None, None).
Proof.
  revert ex. induction attempts as [|n IH]; intros ex H; simpl; [reflexivity|].
  unfold bind, interact.
  destruct (H 0%nat) as (rows & Hrows & Hfind); [lia|].
  rewrite Nat.add_0_r in Hrows. rewrite Hrows, Hfind.
  apply IH. simpl. intros k Hk.
  destruct (H (S k)) as (rows' & Hrows' & Hfind'); [lia|].
  exists rows'. split; [|exact Hfind'].
  rewrite <- Hrows'. f_equal. lia.
Qed.

(** C1, as stated, fails: on [stuck_env] the closing order is submitted, no
    poll lists a fill for it, the position is still open, and yet
    [close_trade] empties the slot. *)
Lemma close_trade_clears_slot_without_fill :
  ~ (_active_trade holding = Some 0%nat ->
     create_order stuck_env 0 (closing_request sample_trade None) = Ok (Some "close-1") ->
     no_fill_reported stuck_env "close-1" 1 5 ->
     (forall n, exists rows, get_position stuck_env n = Ok rows /\ ~ open_size rows == 0) ->
     _active_trade (snd (close_trade stuck_env "TIME_STOP" None holding)) <> None).
Proof.
  intro H. apply H.
  - reflexivity.
  - reflexivity.
  - intros k _. eexists. split; reflexivity.
  - intro n. eexists. split; [reflexivity|]. vm_compute. discriminate.
  - reflexivity.
Qed.

(** C1, amended.  With a trade in the slot, [close_trade] empties the slot
    whenever it returns, with or without a discovered fill -- in particular
    when the order is submitted and none of the five polls lists a fill for
    it, where it returns [None]; the slot is left as it was exactly when
    the call raises, that is when the gateway fails on the order or on a
    poll. *)
Theorem close_trade_clears_slot_on_return
    (env : Environment) (reason : string) (price : option Q) (ex : Executor)
    (active : ref) :
  _active_trade ex = Some active ->
  let res := fst (close_trade env reason price ex) in
  let ex' := snd (close_trade env reason price ex) in
  match res with
  | Ok _ => _active_trade ex' = None
  | Raise _ => _active_trade ex' = Some active
  end /\
  (forall resp,
      create_order env (interactions ex) (closing_request (store ex active) price)
      = Ok resp ->
      no_fill_reported env (order_id_of resp) (S (interactions ex)) 5 ->
      res = Ok None /\ _active_trade ex' = None).
Proof.
  intros Hslot. simpl.
  unfold close_trade, bind, get_slot, deref, interact. rewrite Hslot.
  fold (closing_request (store ex active) price).
  destruct (create_order env (interactions ex) (closing_request (store ex active) price))
    as [resp|e] eqn:Horder.
  - match goal with
    | |- context [_fetch_fill env (order_id_of resp) ?x] => set (ex1 := x)
    end.
    pose proof (fetch_fill_loop_frame env 5 (order_id_of resp) ex1) as Hframe.
    pose proof (fetch_fill_loop_nothing env 5 (order_id_of resp) ex1) as Hnothing.
    fold (_fetch_fill env (order_id_of resp)) in Hframe, Hnothing.
    destruct (_fetch_fill env (order_id_of resp) ex1) as [[[fill_price exec_time]|e] ex2].
    + simpl in Hframe. destruct Hframe as (Hs & _).
      rewrite Hs. subst ex1. cbn [_active_trade]. rewrite Hslot.
      assert (Hclear :
        forall (m : M unit) (fp : option Q),
          (forall x, fst (m x) = Ok tt) ->
          forall x,
            _active_trade
              (snd (match m x with
                    | (Ok _, x') =>
                        match set_slot None x' with
                        | (Ok _, x'') => ret fp x''
                        | (Raise e, x'') => (Raise e, x'')
                        end
                    | (Raise e, x') => (Raise e, x')
                    end)) = None /\
            fst (match m x with
                 | (Ok _, x') =>
                     match set_slot None x' with
                     | (Ok _, x'') => ret fp x''
                     | (Raise e, x'') => (Raise e, x'')
                     end
                 | (Raise e, x') => (Raise e, x')
                 end) = Ok fp).
      { intros m fp Hm x. specialize (Hm x).
        destruct (m x) as [[u|e] x']; simpl in *; [split; reflexivity | discriminate]. }
      match goal with
      | |- context [match ?m ex2 with _ => _ end] =>
          destruct (Hclear m fill_price) with (x := ex2) as [Hc Hf];
            [intro x; destruct exec_time; try reflexivity;
             destruct (truthy_int _); reflexivity|]
      end.
      rewrite Hf. split; [exact Hc|].
      intros resp' Hresp Hnone. inversion Hresp; subst resp'.
      specialize (Hnothing Hnone). simpl in Hnothing. inversion Hnothing; subst.
      split; [reflexivity | exact Hc].
    + simpl in Hframe. destruct Hframe as (Hs & _). simpl.
      split; [rewrite Hs; exact Hslot|].
      intros resp' Hresp Hnone. inversion Hresp; subst resp'.
      specialize (Hnothing Hnone). simpl in Hnothing. discriminate.
  - simpl. split; [exact Hslot|]. intros resp' Hresp. discriminate.
Qed.

(** On [stuck_env]: the order goes out, nothing is found, the slot empties. *)
Lemma close_trade_clears_slot_sample :
  fst (close_trade stuck_env "TIME_STOP" None holding) = Ok None /\
  _active_trade (snd (close_trade stuck_env "TIME_STOP" None holding)) = None.
Proof.
  destruct (close_trade_clears_slot_on_return stuck_env "TIME_STOP" None holding 0%nat
              eq_refl) as [_ H].
  apply (H (Some "close-1")); [reflexivity|].
  intros k _. eexists. split; reflexivity.
Defined.

(** *** Recovery after a restart *)

Lemma first_nonzero_position (rows : list PositionRow) :
  (exists row, In row rows /\ ~ p_size row == 0) ->
  exists row, find (fun row => negb (Qeq_bool (p_size row) 0)) rows = Some row.
Proof.
  intros (row & Hin & Hsize).
  destruct (find _ rows) as [row'|] eqn:E; [eauto|].
  pose proof (find_none _ _ E row Hin) as Hf. simpl in Hf.
  apply negb_false_iff, Qeq_bool_iff in Hf. contradiction.
Qed.

(** C10.  When nothing is in the slot and the gateway reports a position of
    nonzero size, [refresh_active_trade] puts a new trade in the slot whose
    [time_stop_minutes] is 0; [is_time_stop_reached] answers false for it at
    every instant. *)
Theorem recovered_trade_has_no_time_stop
    (env : Environment) (ex : Executor) (rows : list PositionRow) :
  _active_trade ex = None ->
  get_position env (interactions ex) = Ok rows ->
  (exists row, In row rows /\ ~ p_size row == 0) ->
  exists trade,
    fst (refresh_active_trade env ex) = Ok (Some trade) /\
    _active_trade (snd (refresh_active_trade env ex)) = Some trade /\
    time_stop_minutes (store (snd (refresh_active_trade env ex)) trade) = 0%Z /\
    forall now,
      is_time_stop_reached (store (snd (refresh_active_trade env ex)) trade) now = false.
Proof.
  intros Hslot Hpos Hrow.
  destruct (first_nonzero_position rows Hrow) as [row Hfind].
  unfold refresh_active_trade, bind, interact, get_slot, new_object, set_slot, ret.
  rewrite Hpos, Hfind. cbn [_active_trade]. rewrite Hslot.
  cbn [fst snd _active_trade store next_ref].
  eexists. split; [reflexivity|]. split; [reflexivity|].
  rewrite Nat.eqb_refl. split; [reflexivity|].
  intro now. reflexivity.
Qed.

(** A restarted executor facing the open position of [stuck_env]. *)
Lemma recovered_trade_sample :
  exists trade,
    fst (refresh_active_trade stuck_env restarted) = Ok (Some trade) /\
    _active_trade (snd (refresh_active_trade stuck_env restarted)) = Some trade /\
    time_stop_minutes (store (snd (refresh_active_trade stuck_env restarted)) trade) = 0%Z /\
    forall now,
      is_time_stop_reached (store (snd (refresh_active_trade stuck_env restarted)) trade)
        now = false.
Proof.
  apply (recovered_trade_has_no_time_stop stuck_env restarted
           [ {| p_size := 1 # 2; p_side := "Buy"; p_stopLoss := 99; p_takeProfit := 101;
                p_entryPrice := 100; p_positionIdx := "0" |} ]).
  - reflexivity.
  - reflexivity.
  - eexists. split; [left; reflexivity|]. vm_compute. discriminate.
Defined.

End OrderExecutorFacts.

(* ===================================================================== *)
(** * Further properties of the surrounding code *)
(* ===================================================================== *)

(** ** StateManager: timers, counters and daily bookkeeping *)

Module StateManagerCoverage.
Import PyFacts StateManager Scenarios Coverage StateManagerFacts.

Ltac split_leb :=
  repeat match goal with
    | |- context [(?a <=? ?b)%Z] => destruct (Z.leb_spec a b)
    end.

(** X1.  Lazy timer evaluation catches up: evaluating the timers at some
    instant and then again at a later one leaves the machine exactly where
    a single evaluation at the later instant leaves it (in particular,
    evaluating twice at one instant changes nothing the second time). *)
Theorem timers_catch_up (now now' : datetime) (s : State) :
  (now <= now')%Z ->
  _evaluate_timers now' (_evaluate_timers now s) = _evaluate_timers now' s.
Proof.
  intro H. destruct s as [ss es m cu nm lu le v c en].
  unfold _evaluate_timers, reached.
  destruct m; destruct cu as [tc|]; destruct lu as [tl|]; destruct nm; simpl;
    repeat (split_leb; simpl); try reflexivity; lia.
Qed.

(** The long cooldown read after 30 minutes and then after 4 hours, against
    a single reading after 4 hours: NORMAL either way. *)
Lemma timers_catch_up_sample :
  _evaluate_timers 14400000000%Z (_evaluate_timers 1800000000%Z cooling_state)
  = _evaluate_timers 14400000000%Z cooling_state.
Proof.
  apply (timers_catch_up 1800000000%Z 14400000000%Z cooling_state). lia.
Defined.

(** X2.  After every closed trade the recorded peak is at least the current
    equity, the recorded maximum drawdown is at least the current drawdown
    [(peak - equity) / peak] whenever the peak is positive, and a drawdown
    that was not negative stays so. *)
Theorem peak_and_drawdown_bound_equity
    (config : BotConfig) (now : datetime) (r : TradeResult) (s : State) :
  let s' := on_trade_closed config now r s in
  let equity := _current_equity config s' in
  let peak := peak_equity (_equity_stats s') in
  equity <= peak /\
  (0 < peak -> (peak - equity) / peak <= max_drawdown_pct (_equity_stats s')) /\
  (0 <= max_drawdown_pct (_equity_stats s) -> 0 <= max_drawdown_pct (_equity_stats s')).
Proof.
  simpl. unfold _current_equity.
  rewrite equity_on_trade_closed, accumulate_cumulative, accumulate_peak.
  pose proof (accumulate_max_drawdown config r s) as Hd. simpl in Hd. rewrite Hd.
  split; [apply py_max_le_r|]. split.
  - intro Hp. apply Qlt_bool_true in Hp. rewrite Hp. apply py_max_le_r.
  - intro H0. destruct (Qlt_bool 0 _); [|exact H0].
    eapply Qle_trans; [exact H0 | apply py_max_le_l].
Qed.

(** A loss of 50 from a fresh balance of 1000: the drawdown on record is at
    least 50 / 1000. *)
Lemma peak_and_drawdown_bound_equity_sample :
  let s' := on_trade_closed scenario_config 0%Z (loss_of 50) fresh_state in
  (peak_equity (_equity_stats s') - _current_equity scenario_config s')
  / peak_equity (_equity_stats s')
  <= max_drawdown_pct (_equity_stats s').
Proof.
  refine (proj1 (proj2 (peak_and_drawdown_bound_equity scenario_config 0%Z (loss_of 50)
                          fresh_state)) _).
  vm_compute. reflexivity.
Defined.

Section Counters.

Variable config : BotConfig.

Lemma counters_enter_cooldown now minutes next s :
  _cooldown_counters (_enter_cooldown config now minutes next s) = _cooldown_counters s.
Proof. unfold _enter_cooldown. repeat case_if; reflexivity. Qed.

Lemma counters_global_drawdown s :
  _cooldown_counters (_evaluate_global_drawdown config s) = _cooldown_counters s.
Proof. unfold _evaluate_global_drawdown. case_if; reflexivity. Qed.

Lemma counters_limited_exit s :
  _cooldown_counters (_evaluate_limited_exit config s) = _cooldown_counters s.
Proof.
  unfold _evaluate_limited_exit. case_if; [|reflexivity].
  destruct (_limited_exit_equity s); [|reflexivity]. case_if; reflexivity.
Qed.

Lemma counters_timers now s :
  _cooldown_counters (_evaluate_timers now s) = _cooldown_counters s.
Proof. unfold _evaluate_timers. repeat case_if; reflexivity. Qed.

Lemma breach_on_trade_closed now r s :
  daily_loss_breached config (on_trade_closed config now r s)
  = daily_loss_breached config (accumulate config r s).
Proof. unfold daily_loss_breached. now rewrite session_on_trade_closed. Qed.

Lemma streak_on_trade_closed now r s :
  loss_streak_reached config (on_trade_closed config now r s)
  = loss_streak_reached config (accumulate config r s).
Proof. unfold loss_streak_reached. now rewrite session_on_trade_closed. Qed.

Lemma counters_on_trade_closed now r s :
  let s2 := accumulate config r s in
  _cooldown_counters (on_trade_closed config now r s)
  = if negb (_cooldown_enabled s) then _cooldown_counters s
    else if daily_loss_breached config s2
         then {| short := short (_cooldown_counters s);
                 long := (long (_cooldown_counters s) + 1)%Z |}
         else if loss_streak_reached config s2
              then {| short := (short (_cooldown_counters s) + 1)%Z;
                      long := long (_cooldown_counters s) |}
              else _cooldown_counters s.
Proof.
  simpl. destruct (accumulate_frame config r s) as (ss & es & Hacc).
  unfold on_trade_closed.
  rewrite counters_limited_exit, counters_global_drawdown, Hacc.
  unfold _trigger_daily_loss_cooldown, _trigger_short_cooldown. simpl.
  destruct (_cooldown_enabled s); simpl.
  - repeat case_if; rewrite ?counters_enter_cooldown; reflexivity.
  - repeat case_if; reflexivity.
Qed.

End Counters.

(** X3.  The cooldown counters count triggers.  On a machine with cooldowns
    enabled, a call of [on_trade_closed] adds one to ["long"] exactly when
    the daily loss is breached after the call, adds one to ["short"]
    exactly when it is not and the loss streak is reached, and otherwise
    leaves both alone -- whatever the cooldown lengths and whether or not
    the call ends in HALT.  Along any run of events neither counter ever
    goes down. *)
Theorem cooldown_counters_count_triggers (config : BotConfig) :
  (forall now r s,
      _cooldown_enabled s = true ->
      let s' := on_trade_closed config now r s in
      let c := _cooldown_counters s in
      let c' := _cooldown_counters s' in
      long c' = (if daily_loss_breached config s' then long c + 1 else long c)%Z /\
      short c' = (if daily_loss_breached config s' then short c
                  else if loss_streak_reached config s' then short c + 1
                       else short c)%Z) /\
  (forall es s,
      (short (_cooldown_counters s)
       <= short (_cooldown_counters (snd (run config s es))))%Z /\
      (long (_cooldown_counters s)
       <= long (_cooldown_counters (snd (run config s es))))%Z).
Proof.
  split.
  - intros now r s Hen. simpl.
    rewrite breach_on_trade_closed, streak_on_trade_closed.
    pose proof (counters_on_trade_closed config now r s) as H. simpl in H.
    rewrite H, Hen. simpl.
    destruct (daily_loss_breached config _); [split; reflexivity|].
    destruct (loss_streak_reached config _); split; reflexivity.
  - induction es as [|e es IH]; intro s; simpl; [lia|].
    assert (Hstep :
      (short (_cooldown_counters s)
       <= short (_cooldown_counters (snd (step config s e))))%Z /\
      (long (_cooldown_counters s)
       <= long (_cooldown_counters (snd (step config s e))))%Z).
    { destruct e as [now r|now|now|now now'| |]; simpl.
      - pose proof (counters_on_trade_closed config now r s) as H. simpl in H.
        rewrite H. repeat case_if; simpl; lia.
      - unfold can_trade_now.
        destruct (_mode _); simpl; rewrite counters_timers; lia.
      - rewrite counters_timers. lia.
      - unfold current_cooldown_countdown.
        destruct (_mode _); simpl; try (rewrite counters_timers; lia).
        destruct (_cooldown_until _); simpl; rewrite counters_timers; lia.
      - destruct (StateManagerFacts.bump_cases s) as [(v & -> & _)|(e' & ->)];
          simpl; lia.
      - lia. }
    destruct (step config s e) as [o s1]. simpl in *.
    specialize (IH s1).
    destruct (run config s1 es) as [os s2]. simpl in *. lia.
Qed.

(** Five losses of 1 in a row under the scenario configuration: the fifth
    reaches the streak of 5, so ["short"] stands at 1 and ["long"] at 0. *)
Lemma cooldown_counters_count_triggers_sample :
  let s4 := snd (run scenario_config fresh_state
                   (map (fun _ => TradeClosed 0%Z (loss_of 1)) [1; 2; 3; 4]%nat)) in
  let s5 := on_trade_closed scenario_config 0%Z (loss_of 1) s4 in
  long (_cooldown_counters s5) = 0%Z /\ short (_cooldown_counters s5) = 1%Z.
Proof.
  intros s4 s5.
  assert (Hen : _cooldown_enabled s4 = true) by (vm_compute; reflexivity).
  pose proof (proj1 (cooldown_counters_count_triggers scenario_config)
                0%Z (loss_of 1) s4 Hen) as H.
  cbv zeta in H. subst s5. destruct H as [Hl Hs]. rewrite Hl, Hs.
  vm_compute. split; reflexivity.
Defined.

(** X4.  Along any run of events the cumulative result moves by exactly the
    sum of the net results ([pnl - fees]) of the trades closed in it; so
    current equity is the reference balance plus everything closed so far,
    across day changes and mode changes alike. *)
Theorem cumulative_pnl_is_sum_of_trades
    (config : BotConfig) (es : list event) (s : State) :
  cumulative_pnl (_equity_stats (snd (run config s es)))
  == cumulative_pnl (_equity_stats s) + net_of_events es /\
  _current_equity config (snd (run config s es))
  == _current_equity config s + net_of_events es.
Proof.
  assert (H : forall es s,
             cumulative_pnl (_equity_stats (snd (run config s es)))
             == cumulative_pnl (_equity_stats s) + net_of_events es).
  { clear. induction es as [|e es IH]; intro s; simpl; [ring|].
    assert (Hstep :
      cumulative_pnl (_equity_stats (snd (step config s e)))
      == cumulative_pnl (_equity_stats s)
         + match e with TradeClosed _ r => net_pnl r | _ => 0 end).
    { destruct e as [now r|now|now|now now'| |]; simpl.
      - rewrite equity_on_trade_closed, accumulate_cumulative. reflexivity.
      - pose proof (equity_can_trade now s) as H.
        destruct (can_trade_now now s) as [[a b] s']. simpl in *. rewrite H. ring.
      - unfold current_mode. simpl. rewrite equity_timers. ring.
      - pose proof (equity_countdown now now' s) as H.
        destruct (current_cooldown_countdown now now' s) as [[a b] s'].
        simpl in *. rewrite H. ring.
      - pose proof (equity_bump s) as H.
        destruct (bump_internal_version s) as [[v|e'] s']; simpl in *; rewrite H; ring.
      - ring. }
    destruct (step config s e) as [o s1]. simpl in *.
    specialize (IH s1).
    destruct (run config s1 es) as [os s2]. simpl in *.
    rewrite IH, Hstep. destruct e; ring. }
  split; [apply H|]. unfold _current_equity. rewrite H. ring.
Qed.

(** X5.  Daily bookkeeping of [on_trade_closed].  The trading day becomes
    the UTC date of the trade.  When that date differs from the day on
    record -- later or earlier -- the daily counters restart from this
    trade alone; otherwise the trade is added to them.  A loss extends the
    streak by one and anything else resets it to zero, so the streak never
    exceeds the number of trades of the day once that held before. *)
Theorem daily_stats_roll
    (config : BotConfig) (now : datetime) (r : TradeResult) (s : State) :
  let ss := _session_stats s in
  let ss' := _session_stats (on_trade_closed config now r s) in
  trading_day ss' = utc_date (timestamp r) /\
  (utc_date (timestamp r) <> trading_day ss ->
   daily_pnl ss' == net_pnl r /\ daily_trades ss' = 1%Z /\
   consecutive_losses ss' = (if is_loss r then 1 else 0)%Z) /\
  (utc_date (timestamp r) = trading_day ss ->
   daily_pnl ss' = daily_pnl ss + net_pnl r /\
   daily_trades ss' = (daily_trades ss + 1)%Z /\
   consecutive_losses ss' = (if is_loss r then consecutive_losses ss + 1 else 0)%Z) /\
  ((0 <= consecutive_losses ss <= daily_trades ss)%Z ->
   (0 <= consecutive_losses ss' <= daily_trades ss')%Z).
Proof.
  simpl. rewrite session_on_trade_closed.
  assert (Hs : _session_stats (accumulate config r s)
               = let ss0 := _session_stats (_maybe_roll_daily_stats (timestamp r) s) in
                 {| trading_day := trading_day ss0;
                    daily_pnl := daily_pnl ss0 + net_pnl r;
                    daily_trades := (daily_trades ss0 + 1)%Z;
                    consecutive_losses :=
                      if is_loss r then (consecutive_losses ss0 + 1)%Z else 0%Z |}).
  { unfold accumulate, _update_drawdown_metrics. case_if; reflexivity. }
  rewrite Hs. clear Hs. unfold _maybe_roll_daily_stats.
  destruct (Z.eqb_spec (utc_date (timestamp r)) (trading_day (_session_stats s)))
    as [E|E]; simpl.
  - split; [symmetry; exact E|]. split; [intro; contradiction|].
    split; [intros _; repeat split; reflexivity|].
    destruct (is_loss r); lia.
  - split; [reflexivity|].
    split; [intros _; split; [ring | split; reflexivity]|].
    split; [intro; contradiction|].
    destruct (is_loss r); lia.
Qed.

(** A win stamped on day 3 closes on a machine whose books are on day 0,
    one loss deep: the day's books hold that win alone. *)
Lemma daily_stats_roll_sample :
  let ss' := _session_stats
               (on_trade_closed scenario_config 0%Z (win_of 20 (3 * day_us)%Z)
                  cooling_state) in
  daily_pnl ss' == 20 - 0 /\ daily_trades ss' = 1%Z /\ consecutive_losses ss' = 0%Z.
Proof.
  refine (proj1 (proj2 (daily_stats_roll scenario_config 0%Z (win_of 20 (3 * day_us)%Z)
                          cooling_state)) _).
  vm_compute. discriminate.
Defined.

Lemma on_trade_closed_untriggered (config : BotConfig) now r s :
  daily_loss_breached config (on_trade_closed config now r s) = false ->
  loss_streak_reached config (on_trade_closed config now r s) = false ->
  on_trade_closed config now r s
  = _evaluate_limited_exit config
      (_evaluate_global_drawdown config (accumulate config r s)).
Proof.
  rewrite breach_on_trade_closed, streak_on_trade_closed. intros Hb Hs.
  unfold on_trade_closed. rewrite Hb, Hs. reflexivity.
Qed.

(** X6.  No cooldown without a loss.  With a positive streak threshold (as
    configuration validation demands), a closed trade that is not a net loss
    and leaves the daily loss within its limit triggers nothing: the
    counters, the cooldown timer and the mode to follow it are untouched,
    and the mode either stays as it was, becomes HALT through the drawdown
    check, or leaves LIMITED for NORMAL through the equity check. *)
Theorem no_cooldown_without_loss
    (config : BotConfig) (now : datetime) (r : TradeResult) (s : State) :
  is_loss r = false ->
  (0 < max_consecutive_losses_for_cooldown (profile config))%Z ->
  let s' := on_trade_closed config now r s in
  daily_loss_breached config s' = false ->
  loss_streak_reached config s' = false /\
  _cooldown_counters s' = _cooldown_counters s /\
  _cooldown_until s' = _cooldown_until s /\
  _next_mode_after_cooldown s' = _next_mode_after_cooldown s /\
  (_mode s' = _mode s \/ _mode s' = HALT \/
   (_mode s = LIMITED /\ _mode s' = NORMAL /\
    _limited_until s' = None /\ _limited_exit_equity s' = None)).
Proof.
  intros Hwin Hmax s' Hb.
  assert (Hs : loss_streak_reached config s' = false).
  { subst s'. rewrite streak_on_trade_closed.
    unfold loss_streak_reached.
    assert (E : consecutive_losses (_session_stats (accumulate config r s)) = 0%Z).
    { unfold accumulate, _update_drawdown_metrics. rewrite Hwin.
      case_if; reflexivity. }
    rewrite E. apply Z.leb_gt. exact Hmax. }
  split; [exact Hs|].
  subst s'. rewrite (on_trade_closed_untriggered config now r s Hb Hs).
  destruct (accumulate_frame config r s) as (ss & es & Hacc). rewrite Hacc.
  unfold _evaluate_limited_exit, _evaluate_global_drawdown. simpl.
  destruct (Qle_bool _ (max_drawdown_pct es)); simpl; [repeat split; auto|].
  destruct (_mode s) eqn:Em; simpl; try (repeat split; auto; fail).
  destruct (_limited_exit_equity s) as [th|]; simpl; [|repeat split; auto].
  destruct (negb (Qeq_bool th 0)); simpl; [|repeat split; auto].
  destruct (Qle_bool th _); simpl; repeat split; auto.
  right. right. repeat split.
Qed.

(** A win of 25 on the machine in LIMITED (threshold 960, equity 950 + 25):
    nothing is triggered and the machine is back in NORMAL. *)
Lemma no_cooldown_without_loss_sample :
  let s' := on_trade_closed scenario_config 0%Z (win_of 25 0%Z) limited_state in
  loss_streak_reached scenario_config s' = false /\
  _cooldown_counters s' = _cooldown_counters limited_state /\
  _cooldown_until s' = _cooldown_until limited_state /\
  _next_mode_after_cooldown s' = _next_mode_after_cooldown limited_state /\
  (_mode s' = _mode limited_state \/ _mode s' = HALT \/
   (_mode limited_state = LIMITED /\ _mode s' = NORMAL /\
    _limited_until s' = None /\ _limited_exit_equity s' = None)).
Proof.
  refine (no_cooldown_without_loss scenario_config 0%Z (win_of 25 0%Z) limited_state
            _ _ _).
  - vm_compute. reflexivity.
  - reflexivity.
  - vm_compute. reflexivity.
Defined.

(** X7.  Leaving LIMITED through equity.  When [on_trade_closed] runs on a
    machine in LIMITED and neither a cooldown trigger nor the drawdown halt
    fires, the machine returns to NORMAL and drops its window exactly when
    the window's threshold is a nonzero number that current equity has
    reached; otherwise it stays in LIMITED with the window as it was.  A
    threshold of exactly zero counts as no threshold. *)
Theorem limited_exit_on_equity
    (config : BotConfig) (now : datetime) (r : TradeResult) (s : State) :
  _mode s = LIMITED ->
  let s' := on_trade_closed config now r s in
  daily_loss_breached config s' = false ->
  loss_streak_reached config s' = false ->
  Qle_bool (global_drawdown_pct (risk_limits config))
    (max_drawdown_pct (_equity_stats s')) = false ->
  (forall threshold,
      _limited_exit_equity s = Some threshold -> ~ threshold == 0 ->
      threshold <= _current_equity config s' ->
      _mode s' = NORMAL /\ _limited_until s' = None /\ _limited_exit_equity s' = None) /\
  ((forall threshold,
       _limited_exit_equity s = Some threshold ->
       threshold == 0 \/ _current_equity config s' < threshold) ->
   _mode s' = LIMITED /\ _limited_until s' = _limited_until s /\
   _limited_exit_equity s' = _limited_exit_equity s).
Proof.
  intros Hm s' Hb Hs Hh.
  assert (Heq : _equity_stats s' = _equity_stats (accumulate config r s))
    by apply equity_on_trade_closed.
  unfold _current_equity. rewrite Heq in *.
  subst s'. rewrite (on_trade_closed_untriggered config now r s Hb Hs).
  destruct (accumulate_frame config r s) as (ss & es & Hacc). rewrite Hacc in *.
  simpl in Hh.
  unfold _evaluate_limited_exit, _evaluate_global_drawdown, _current_equity. simpl.
  rewrite Hh. simpl. rewrite Hm. simpl. split.
  - intros th Hth Hnz Hle. rewrite Hth. simpl.
    apply Qeq_bool_false in Hnz. rewrite Hnz. simpl.
    apply Qle_bool_iff in Hle. rewrite Hle. simpl. repeat split.
  - intro Hall. destruct (_limited_exit_equity s) as [th|] eqn:Hth; simpl.
    + destruct (Hall th eq_refl) as [Hz|Hlt].
      * apply Qeq_bool_iff in Hz. rewrite Hz. simpl. rewrite Hm, Hth. repeat split.
      * destruct (negb (Qeq_bool th 0)); simpl; [|rewrite Hm, Hth; repeat split].
        apply Qle_bool_false in Hlt. rewrite Hlt. simpl. rewrite Hm, Hth.
        repeat split.
    + rewrite Hm, Hth. repeat split.
Qed.

(** The machine in LIMITED with threshold 960 and equity 950: a win of 25
    lifts equity to 975 and the machine to NORMAL. *)
Lemma limited_exit_on_equity_sample :
  let s' := on_trade_closed scenario_config 0%Z (win_of 25 0%Z) limited_state in
  _mode s' = NORMAL /\ _limited_until s' = None /\ _limited_exit_equity s' = None.
Proof.
  refine (proj1 (limited_exit_on_equity scenario_config 0%Z (win_of 25 0%Z) limited_state
                   eq_refl _ _ _) 960 eq_refl _ _).
  - vm_compute. reflexivity.
  - vm_compute. reflexivity.
  - vm_compute. reflexivity.
  - vm_compute. discriminate.
  - vm_compute. discriminate.
Defined.

(** *** Drawdown halts *)

Lemma on_trade_closed_halts (config : BotConfig) now r s :
  global_drawdown_pct (risk_limits config)
  <= max_drawdown_pct (_equity_stats (accumulate config r s)) ->
  _mode (on_trade_closed config now r s) = HALT.
Proof.
  intro H. unfold on_trade_closed.
  match goal with
  | |- _mode (_evaluate_limited_exit _ (_evaluate_global_drawdown _ ?x)) = _ =>
      set (s3 := x)
  end.
  assert (E : _equity_stats s3 = _equity_stats (accumulate config r s)).
  { subst s3. repeat case_if; auto using equity_trigger_daily, equity_trigger_short. }
  assert (Hh : _mode (_evaluate_global_drawdown config s3) = HALT).
  { unfold _evaluate_global_drawdown. rewrite E.
    apply Qle_bool_iff in H. rewrite H. reflexivity. }
  rewrite limited_exit_keeps_other_modes; [exact Hh|]. rewrite Hh. discriminate.
Qed.

(** X8.  A drawdown halt is for good.  Once the recorded maximum drawdown
    has reached [global_drawdown_pct] and the machine is in HALT, it is in
    HALT after every further run of events -- closed trades, winning ones
    included, timer evaluations, version bumps: the drawdown on record
    never falls, and every closed trade re-applies the halt after whatever
    cooldown it triggered. *)
Theorem drawdown_halt_is_permanent
    (config : BotConfig) (es : list event) (s : State) :
  _mode s = HALT ->
  global_drawdown_pct (risk_limits config) <= max_drawdown_pct (_equity_stats s) ->
  _mode (snd (run config s es)) = HALT /\
  global_drawdown_pct (risk_limits config)
  <= max_drawdown_pct (_equity_stats (snd (run config s es))).
Proof.
  revert s. induction es as [|e es IH]; intros s Hm Hd; simpl; [auto|].
  assert (Hstep : _mode (snd (step config s e)) = HALT /\
                  global_drawdown_pct (risk_limits config)
                  <= max_drawdown_pct (_equity_stats (snd (step config s e)))).
  { split.
    - destruct e as [now r|now|now|now now'| |];
        try (apply accessor_keeps_halt; [reflexivity | exact Hm]).
      simpl. apply on_trade_closed_halts.
      eapply Qle_trans; [exact Hd|].
      pose proof (step_monotone config s (TradeClosed now r)) as [_ H]. simpl in H.
      rewrite equity_on_trade_closed in H. exact H.
    - eapply Qle_trans; [exact Hd | apply step_monotone]. }
  destruct (step config s e) as [o s1]. simpl in *.
  destruct Hstep as [Hm1 Hd1]. specialize (IH s1 Hm1 Hd1).
  destruct (run config s1 es) as [os s2]. exact IH.
Qed.

(** The machine halted by a loss of 300, then a win of 400 a day later and
    a reading of the mode: still HALT. *)
Lemma drawdown_halt_sample :
  let halted := on_trade_closed scenario_config 0%Z (loss_of 300) fresh_state in
  _mode (snd (run scenario_config halted
                [TradeClosed day_us (win_of 400 day_us); CurrentMode (2 * day_us)%Z]))
  = HALT.
Proof.
  intro halted.
  apply (drawdown_halt_is_permanent scenario_config
           [TradeClosed day_us (win_of 400 day_us); CurrentMode (2 * day_us)%Z] halted).
  - vm_compute. reflexivity.
  - vm_compute. discriminate.
Defined.

(** *** The countdown and the gate *)

Lemma timers_cooldown_pending now s t :
  _mode (_evaluate_timers now s) = COOLDOWN ->
  _cooldown_until (_evaluate_timers now s) = Some t ->
  (now < t)%Z.
Proof.
  destruct s as [ss es m cu nm lu le v c en].
  unfold _evaluate_timers, reached.
  destruct m; destruct cu as [tc|]; destruct lu as [tl|]; destruct nm; simpl;
    repeat (split_leb; simpl); intros Hm Hc;
    try discriminate; inversion Hc; subst; lia.
Qed.

(** X9.  [current_cooldown_countdown] and [can_trade_now] agree.  Read at
    the same instant they leave the machine in the same state; the minutes
    left are never negative; a countdown is reported only when the gate
    blocks with COOLDOWN, and then -- the clock not having moved between
    the two readings of the method -- with a positive number of minutes;
    when the gate lets trades through the answer is [(None, 0.0)]. *)
Theorem cooldown_countdown_agrees_with_gate (now now' : datetime) (s : State) :
  let answer := fst (current_cooldown_countdown now now' s) in
  let gate := fst (can_trade_now now s) in
  snd (current_cooldown_countdown now now' s) = snd (can_trade_now now s) /\
  0 <= snd answer /\
  (fst answer <> None -> gate = (false, Some "COOLDOWN")) /\
  (fst answer <> None -> now' = now -> 0 < snd answer) /\
  (fst gate = true -> answer = (None, 0)).
Proof.
  simpl. unfold current_cooldown_countdown, can_trade_now.
  pose proof (timers_cooldown_pending now s) as Hpending.
  destruct (_mode (_evaluate_timers now s)) eqn:Em; simpl;
    try (repeat split; try apply Qle_refl; try congruence; fail).
  destruct (_cooldown_until (_evaluate_timers now s)) as [t|] eqn:Ec; simpl.
  - split; [reflexivity|]. split; [apply py_max_le_l|].
    split; [reflexivity|]. split; [|discriminate].
    intros _ ->. specialize (Hpending t eq_refl eq_refl).
    eapply Qlt_le_trans; [|apply py_max_le_r].
    apply Qlt_shift_div_l; [reflexivity|]. rewrite Qmult_0_l.
    rewrite <- (Zlt_Qlt 0). lia.
  - repeat split; try apply Qle_refl; try congruence.
Qed.

(** The long cooldown of one hour read after 30 minutes: blocked, 30 minutes
    to go. *)
Lemma cooldown_countdown_sample :
  fst (can_trade_now 1800000000%Z cooling_state) = (false, Some "COOLDOWN") /\
  0 < snd (fst (current_cooldown_countdown 1800000000%Z 1800000000%Z cooling_state)).
Proof.
  destruct (cooldown_countdown_agrees_with_gate 1800000000%Z 1800000000%Z cooling_state)
    as (_ & _ & H1 & H2 & _).
  split; [apply H1 | apply H2]; try reflexivity; vm_compute; discriminate.
Defined.

(** *** Version strings *)

Lemma int_of_digits_uint (u : Decimal.uint) (acc : N) :
  int_of_digits acc (NilEmpty.string_of_uint u)
  = match acc with
    | N0 => Pos.of_uint u
    | Npos a => Npos (Pos.of_uint_acc u a)
    end.
Proof.
  assert (Hacc : forall (a : positive) (k : N),
             (N.pos a * 10 + k)%N
             = match k with
               | N0 => N.pos (10 * a)
               | N.pos p => N.pos (p + 10 * a)
               end)
    by (intros a [|p]; lia).
  revert acc.
  induction u as [|u IH|u IH|u IH|u IH|u IH|u IH|u IH|u IH|u IH|u IH];
    intro acc; [destruct acc; reflexivity|..];
    cbn [NilEmpty.string_of_uint int_of_digits];
    match goal with
    | |- context [N.of_nat ?d] =>
        let k := eval vm_compute in (N.of_nat d) in change (N.of_nat d) with k
    end;
    rewrite IH; destruct acc as [|a]; try reflexivity;
    rewrite Hacc; reflexivity.
Qed.

Lemma all_digits_uint (u : Decimal.uint) : all_digits (NilEmpty.string_of_uint u) = true.
Proof. induction u; simpl; auto. Qed.

Lemma to_uint_nonnil (n : N) : N.to_uint n <> Decimal.Nil.
Proof.
  destruct n as [|p]; simpl; [discriminate|]. apply Unsigned.to_uint_nonnil.
Qed.

Lemma py_str_all_digits (n : N) :
  all_digits (py_str n) = true /\ string_truthy (py_str n) = true.
Proof.
  unfold py_str. pose proof (to_uint_nonnil n) as H.
  destruct (N.to_uint n) eqn:E; try contradiction;
    unfold NilZero.string_of_uint; rewrite all_digits_uint; split; reflexivity.
Qed.

Lemma py_str_digits (n : N) : isdigit (py_str n) = true.
Proof.
  destruct (py_str_all_digits n) as [H1 H2].
  now rewrite (isdigit_ascii_digits _ H1).
Qed.

Lemma py_int_of_py_str (n : N) : convertible n -> py_int_of_string (py_str n) = Ok n.
Proof.
  intro Hn. destruct (py_str_all_digits n) as [H1 H2].
  rewrite (py_int_ascii_digits _ H1 H2 Hn). f_equal.
  unfold py_str. pose proof (to_uint_nonnil n) as H.
  assert (E : NilZero.string_of_uint (N.to_uint n)
              = NilEmpty.string_of_uint (N.to_uint n))
    by (destruct (N.to_uint n); try contradiction; reflexivity).
  rewrite E, int_of_digits_uint. apply DecimalN.Unsigned.of_to.
Qed.

Lemma py_format_int_convertible (n : N) : convertible n -> py_format_int n = Ok (py_str n).
Proof. unfold convertible, py_format_int. intro H. cbv zeta. rewrite Nat.ltb_antisym, H. reflexivity. Qed.

Lemma py_format_int_cases (n : N) :
  py_format_int n = Ok (py_str n) \/ exists msg, py_format_int n = Raise (ValueError msg).
Proof.
  unfold py_format_int. cbv zeta.
  destruct (int_max_str_digits <? String.length (py_str n))%nat; eauto.
Qed.

Lemma py_int_of_string_raises (s : string) (e : exn) :
  py_int_of_string s = Raise e -> exists msg, e = ValueError msg.
Proof.
  unfold py_int_of_string.
  destruct (decimal_run 0 0 (decode s)) as [[value digits] rest].
  destruct (int_max_str_digits <? digits)%nat; [intro H; inversion H; eauto|].
  destruct digits; [intro H; inversion H; eauto|].
  destruct rest; intro H; inversion H; eauto.
Qed.

Lemma digit_is_no_dot (c : ascii) : is_digit c = true -> Ascii.eqb c "." = false.
Proof.
  intro H. destruct (Ascii.eqb_spec c "."); [subst; discriminate | reflexivity].
Qed.

Lemma split_dot_digits (a : string) :
  all_digits a = true ->
  split_dot a = [a] /\
  forall rest, split_dot (a ++ String "." rest) = a :: split_dot rest.
Proof.
  induction a as [|c a IH]; simpl; intro H; [split; reflexivity|].
  apply andb_true_iff in H. destruct H as [Hc Ha].
  rewrite (digit_is_no_dot c Hc). destruct (IH Ha) as [H1 H2].
  split; [rewrite H1; reflexivity|]. intro rest. rewrite H2. reflexivity.
Qed.

Lemma split_dot_version (a b c : N) :
  split_dot (py_str a ++ "." ++ py_str b ++ "." ++ py_str c)
  = [py_str a; py_str b; py_str c].
Proof.
  destruct (py_str_all_digits a) as [Ha _]. destruct (py_str_all_digits b) as [Hb _].
  destruct (py_str_all_digits c) as [Hc _].
  change ("." ++ py_str b ++ "." ++ py_str c)
    with (String "." (py_str b ++ String "." (py_str c))).
  rewrite (proj2 (split_dot_digits _ Ha)).
  rewrite (proj2 (split_dot_digits _ Hb)).
  rewrite (proj1 (split_dot_digits _ Hc)). reflexivity.
Qed.

(** X10.  Version bumps.  On a version made of three decimal numbers
    [major.minor.patch], each within the limit of 4300 digits that [int]
    and [str] convert, [bump_internal_version] keeps major and minor, adds
    one to the patch, stores and returns the result.  Whatever the version
    was: a returned version is three decimal numbers and is the one
    stored; an ill-formed version (not three parts, or a part that is not
    all digits) is reset to ["0.0.1"]; and the call raises only
    [ValueError], only on three parts of digits -- one that [int] does not
    read, as a superscript digit, or a number beyond the limit -- and then
    leaves the machine as it was. *)
Theorem bump_internal_version_increments (s : State) :
  (forall a b c : N,
      _internal_version s = py_str a ++ "." ++ py_str b ++ "." ++ py_str c ->
      convertible a -> convertible b -> convertible c -> convertible (c + 1) ->
      bump_internal_version s
      = (Ok (py_str a ++ "." ++ py_str b ++ "." ++ py_str (c + 1)),
         set_internal_version (py_str a ++ "." ++ py_str b ++ "." ++ py_str (c + 1)) s)) /\
  (forall v,
      fst (bump_internal_version s) = Ok v ->
      (exists a b c : N, v = py_str a ++ "." ++ py_str b ++ "." ++ py_str c) /\
      snd (bump_internal_version s) = set_internal_version v s) /\
  ((forall a b c, split_dot (_internal_version s) = [a; b; c] ->
                  isdigit a && isdigit b && isdigit c = false) ->
   bump_internal_version s = (Ok "0.0.1", set_internal_version "0.0.1" s)) /\
  (forall e,
      fst (bump_internal_version s) = Raise e ->
      (exists msg, e = ValueError msg) /\
      snd (bump_internal_version s) = s /\
      exists a b c,
        split_dot (_internal_version s) = [a; b; c] /\
        isdigit a && isdigit b && isdigit c = true).
Proof.
  split; [|split; [|split]].
  - intros a b c Hv Ha Hb Hc Hc1. unfold bump_internal_version.
    rewrite Hv, split_dot_version, !py_str_digits.
    rewrite (py_int_of_py_str a Ha), (py_int_of_py_str b Hb), (py_int_of_py_str c Hc).
    cbn [andb]. cbv zeta. unfold format_version.
    rewrite (py_format_int_convertible a Ha), (py_format_int_convertible b Hb),
      (py_format_int_convertible _ Hc1).
    reflexivity.
  - intro v. unfold bump_internal_version.
    assert (Hreset : Ok "0.0.1" = Ok v ->
              (exists a b c : N, v = py_str a ++ "." ++ py_str b ++ "." ++ py_str c) /\
              set_internal_version "0.0.1" s = set_internal_version v s).
    { intro H. inversion H. split; [exists 0%N, 0%N, 1%N|]; reflexivity. }
    destruct (split_dot (_internal_version s)) as [|a [|b [|c [|d l]]]];
      try exact Hreset.
    destruct (isdigit a && isdigit b && isdigit c); [|exact Hreset].
    destruct (py_int_of_string a) as [major|e]; [|discriminate].
    destruct (py_int_of_string b) as [minor|e]; [|discriminate].
    destruct (py_int_of_string c) as [patch|e]; [|discriminate].
    cbv zeta. unfold format_version.
    destruct (py_format_int_cases major) as [->|[msg ->]]; [|discriminate].
    destruct (py_format_int_cases minor) as [->|[msg ->]]; [|discriminate].
    destruct (py_format_int_cases (patch + 1)) as [->|[msg ->]]; [|discriminate].
    cbn [fst snd]. intro H. inversion H.
    split; [exists major, minor, (patch + 1)%N|]; reflexivity.
  - intro Hill. unfold bump_internal_version.
    destruct (split_dot (_internal_version s)) as [|a [|b [|c [|d l]]]];
      try reflexivity.
    rewrite (Hill a b c eq_refl). reflexivity.
  - intro e. unfold bump_internal_version.
    destruct (split_dot (_internal_version s)) as [|a [|b [|c [|d l]]]];
      try discriminate.
    destruct (isdigit a && isdigit b && isdigit c) eqn:Hd; [|discriminate].
    assert (Hshape : exists a' b' c',
               [a; b; c] = [a'; b'; c'] /\ isdigit a' && isdigit b' && isdigit c' = true)
      by (exists a, b, c; split; [reflexivity | exact Hd]).
    destruct (py_int_of_string a) as [major|ea] eqn:Ea;
      [|intro H; inversion H; subst; split;
        [eapply py_int_of_string_raises, Ea | split; [reflexivity | exact Hshape]]].
    destruct (py_int_of_string b) as [minor|eb] eqn:Eb;
      [|intro H; inversion H; subst; split;
        [eapply py_int_of_string_raises, Eb | split; [reflexivity | exact Hshape]]].
    destruct (py_int_of_string c) as [patch|ec] eqn:Ec;
      [|intro H; inversion H; subst; split;
        [eapply py_int_of_string_raises, Ec | split; [reflexivity | exact Hshape]]].
    cbv zeta. unfold format_version.
    destruct (py_format_int_cases major) as [->|[msg ->]];
      [|intro H; inversion H; split; [eauto | split; [reflexivity | exact Hshape]]].
    destruct (py_format_int_cases minor) as [->|[msg ->]];
      [|intro H; inversion H; split; [eauto | split; [reflexivity | exact Hshape]]].
    destruct (py_format_int_cases (patch + 1)) as [->|[msg ->]];
      [discriminate|].
    intro H; inversion H; split; [eauto | split; [reflexivity | exact Hshape]].
Qed.

(** From version 1.4.9 the bump goes to 1.4.10. *)
Lemma bump_internal_version_sample :
  bump_internal_version (set_internal_version "1.4.9" fresh_state)
  = (Ok "1.4.10", set_internal_version "1.4.10" (set_internal_version "1.4.9" fresh_state)).
Proof.
  destruct (bump_internal_version_increments (set_internal_version "1.4.9" fresh_state))
    as [H _].
  exact (H 1%N 4%N 9%N eq_refl eq_refl eq_refl eq_refl eq_refl).
Defined.

(** A superscript two for a patch passes [isdigit] and fails in [int]:
    the call raises and the version stays.  Arabic-Indic digits are read
    as numbers: the version after 1.2.3 in that script is 1.2.4. *)
Lemma bump_internal_version_beyond_ascii :
  (exists msg,
      bump_internal_version (set_internal_version superscript_version fresh_state)
      = (Raise (ValueError msg), set_internal_version superscript_version fresh_state)) /\
  fst (bump_internal_version (set_internal_version arabic_version fresh_state)) = Ok "1.2.4".
Proof.
  split; [eexists|]; vm_compute; reflexivity.
Qed.

End StateManagerCoverage.

(** ** LimitsChecker *)

Module LimitsCheckerFacts.
Import PyFacts StrategyConfig MarketData StateManager Scenarios Coverage StateManagerFacts
  LimitsChecker.

Lemma timers_frame now s :
  _session_stats (_evaluate_timers now s) = _session_stats s /\
  _equity_stats (_evaluate_timers now s) = _equity_stats s /\
  _cooldown_counters (_evaluate_timers now s) = _cooldown_counters s.
Proof. unfold _evaluate_timers. repeat case_if; repeat split; reflexivity. Qed.

Lemma timers_from_open_modes now s :
  _mode s = NORMAL \/ _mode s = LIMITED ->
  _mode (_evaluate_timers now s) = NORMAL \/ _mode (_evaluate_timers now s) = LIMITED.
Proof.
  unfold _evaluate_timers. intros [H|H]; rewrite H; simpl; rewrite ?H; simpl; auto.
  case_if; simpl; auto.
Qed.

Lemma timers_normal now s : _mode s = NORMAL -> _evaluate_timers now s = s.
Proof. intro H. unfold _evaluate_timers. rewrite H. simpl. rewrite H. reflexivity. Qed.

Section Evaluate.

Variable self : Checker.
Variable config : BotConfig.
Variable strategy_params : StrategyParams.

Lemma evaluate_open now1 now2 snapshot s :
  gate_open (_evaluate_timers now1 s) ->
  let s2 := _evaluate_timers now2 (_evaluate_timers now1 s) in
  evaluate self config strategy_params now1 now2 snapshot s
  = (if daily_loss_blocked self config s2
     then {| allow_trade := false; reason := Some "DAILY_LOSS_LIMIT" |}
     else if trade_count_blocked config s2
     then {| allow_trade := false; reason := Some "DAILY_TRADE_LIMIT" |}
     else if market_dead strategy_params snapshot
     then {| allow_trade := false; reason := Some "MARKET_TOO_DEAD" |}
     else if market_extended snapshot
     then {| allow_trade := false; reason := Some "EXTENDED_FROM_VWAP" |}
     else {| allow_trade := true; reason := None |}, s2).
Proof.
  intros H. simpl.
  unfold daily_loss_blocked, trade_count_blocked, market_dead, market_extended.
  destruct (timers_frame now2 (_evaluate_timers now1 s)) as (Hss & _ & _).
  rewrite Hss.
  unfold evaluate, can_trade_now, current_mode.
  destruct H as [H|H]; rewrite H; simpl; repeat case_if; reflexivity.
Qed.

Lemma evaluate_shut now1 now2 snapshot s :
  ~ gate_open (_evaluate_timers now1 s) ->
  let s1 := _evaluate_timers now1 s in
  evaluate self config strategy_params now1 now2 snapshot s
  = ({| allow_trade := false; reason := Some (BotMode_value (_mode s1)) |}, s1) /\
  (_mode s1 = COOLDOWN \/ _mode s1 = HALT).
Proof.
  intro H. simpl. unfold evaluate, can_trade_now. unfold gate_open in H.
  destruct (_mode (_evaluate_timers now1 s)) eqn:Em; simpl; try tauto; auto.
Qed.

Lemma gate_open_dec s' : gate_open s' \/ ~ gate_open s'.
Proof.
  unfold gate_open. destruct (_mode s'); auto; right; intros [H|H]; discriminate.
Qed.

End Evaluate.

Lemma daily_loss_blocked_spec self config s' :
  daily_loss_blocked self config s' = false <->
  (_enforce_daily_loss self = true ->
   daily_pnl (_session_stats s')
   <= - (reference_account_size_usdt (risk_limits config)
         * max_daily_loss_pct (profile config)) ->
   _mode s' = LIMITED).
Proof.
  unfold daily_loss_blocked. split.
  - intros H He Hd. apply Qle_bool_iff in Hd. rewrite He, Hd in H. simpl in H.
    destruct (_mode s'); simpl in H; try discriminate. reflexivity.
  - intro H. destruct (_enforce_daily_loss self); [|reflexivity].
    destruct (Qle_bool _ _) eqn:Hd; [|reflexivity].
    apply Qle_bool_iff in Hd. rewrite (H eq_refl Hd). reflexivity.
Qed.

(** X11.  [evaluate] allows a trade exactly when every guard passes on the
    state it leaves behind: the mode is NORMAL or LIMITED; the daily loss
    is within its limit, or the mode is LIMITED (or the daily-loss guard is
    off); the day's trade count is below [max_daily_trades]; the ATR is at
    least [min_atr]; and the distance from VWAP is at most 1.5 percent.  An
    allowed result carries no reason, a blocked one always carries one. *)
Theorem evaluate_allows_exactly_within_limits
    (self : Checker) (config : BotConfig) (strategy_params : StrategyParams)
    (now1 now2 : datetime) (snapshot : MarketSnapshot) (s : State) :
  let res := fst (evaluate self config strategy_params now1 now2 snapshot s) in
  let s' := snd (evaluate self config strategy_params now1 now2 snapshot s) in
  (allow_trade res = true <->
   gate_open s' /\
   (_enforce_daily_loss self = true ->
    daily_pnl (_session_stats s')
    <= - (reference_account_size_usdt (risk_limits config)
          * max_daily_loss_pct (profile config)) ->
    _mode s' = LIMITED) /\
   (daily_trades (_session_stats s') < max_daily_trades (profile config))%Z /\
   min_atr strategy_params <= atr snapshot /\
   Qabs (vwap_distance_pct snapshot) <= 3 # 2) /\
  (allow_trade res = true <-> reason res = None).
Proof.
  simpl.
  destruct (gate_open_dec (_evaluate_timers now1 s)) as [Ho|Hc].
  - pose proof (evaluate_open self config strategy_params now1 now2 snapshot s Ho) as E.
    simpl in E. rewrite E. simpl.
    set (s2 := _evaluate_timers now2 (_evaluate_timers now1 s)).
    assert (Ho2 : gate_open s2) by (apply timers_from_open_modes, Ho).
    pose proof (daily_loss_blocked_spec self config s2) as Hdl.
    unfold trade_count_blocked, market_dead, market_extended.
    destruct (daily_loss_blocked self config s2) eqn:E1; simpl.
    { split; split; try discriminate. intros (_ & H & _).
      apply Hdl in H. discriminate. }
    destruct (Z.leb_spec (max_daily_trades (profile config))
                (daily_trades (_session_stats s2))) as [E2|E2]; simpl.
    { split; split; try discriminate. intros (_ & _ & H & _). lia. }
    destruct (Qlt_bool (atr snapshot) (min_atr strategy_params)) eqn:E3; simpl.
    { split; split; try discriminate. intros (_ & _ & _ & H & _).
      apply Qlt_bool_true in E3. exfalso. apply (Qlt_not_le _ _ E3 H). }
    destruct (Qlt_bool (3 # 2) (Qabs (vwap_distance_pct snapshot))) eqn:E4; simpl.
    { split; split; try discriminate. intros (_ & _ & _ & _ & H).
      apply Qlt_bool_true in E4. exfalso. apply (Qlt_not_le _ _ E4 H). }
    apply Qlt_bool_false in E3, E4.
    split; split; try reflexivity. intros _.
    split; [exact Ho2|]. split; [apply Hdl; reflexivity|]. auto.
  - destruct (evaluate_shut self config strategy_params now1 now2 snapshot s Hc)
      as [E Hm].
    rewrite E. simpl. split; split; try discriminate.
    intros (H & _). contradiction.
Qed.

(** A fresh machine, one hour into the epoch, on a lively market: allowed. *)
Lemma evaluate_allows_sample :
  allow_trade (fst (evaluate new_checker scenario_config quiet_params
                      3600000000%Z 3600000001%Z lively_market fresh_state)) = true.
Proof.
  apply (proj1 (evaluate_allows_exactly_within_limits new_checker scenario_config
                  quiet_params 3600000000%Z 3600000001%Z lively_market fresh_state)).
  split; [left; reflexivity|]. split; [intros _ H; vm_compute in H; contradiction|].
  split; [reflexivity|]. split; vm_compute; discriminate.
Defined.

(** X12.  The reason of a block names the first guard that failed.  A
    blocked state machine is reported by its mode, whatever the market
    looks like; DAILY_LOSS_LIMIT is answered only in NORMAL mode with the
    daily loss at or beyond its limit; DAILY_TRADE_LIMIT only when the
    daily-loss guard passed and the count is reached; MARKET_TOO_DEAD only
    when the account guards passed and [atr < min_atr]; EXTENDED_FROM_VWAP
    only when everything before passed and the distance exceeds 1.5. *)
Theorem evaluate_reason_is_first_failure
    (self : Checker) (config : BotConfig) (strategy_params : StrategyParams)
    (now1 now2 : datetime) (snapshot : MarketSnapshot) (s : State) :
  let res := fst (evaluate self config strategy_params now1 now2 snapshot s) in
  let s' := snd (evaluate self config strategy_params now1 now2 snapshot s) in
  (~ gate_open s' <->
   res = {| allow_trade := false; reason := Some (BotMode_value (_mode s')) |} /\
   (_mode s' = COOLDOWN \/ _mode s' = HALT)) /\
  (reason res = Some "DAILY_LOSS_LIMIT" ->
   _mode s' = NORMAL /\
   daily_pnl (_session_stats s')
   <= - (reference_account_size_usdt (risk_limits config)
         * max_daily_loss_pct (profile config))) /\
  (reason res = Some "DAILY_TRADE_LIMIT" ->
   gate_open s' /\ daily_loss_blocked self config s' = false /\
   (max_daily_trades (profile config) <= daily_trades (_session_stats s'))%Z) /\
  (reason res = Some "MARKET_TOO_DEAD" ->
   gate_open s' /\ daily_loss_blocked self config s' = false /\
   (daily_trades (_session_stats s') < max_daily_trades (profile config))%Z /\
   atr snapshot < min_atr strategy_params) /\
  (reason res = Some "EXTENDED_FROM_VWAP" ->
   gate_open s' /\ daily_loss_blocked self config s' = false /\
   (daily_trades (_session_stats s') < max_daily_trades (profile config))%Z /\
   min_atr strategy_params <= atr snapshot /\
   3 # 2 < Qabs (vwap_distance_pct snapshot)).
Proof.
  simpl.
  destruct (gate_open_dec (_evaluate_timers now1 s)) as [Ho|Hc].
  - pose proof (evaluate_open self config strategy_params now1 now2 snapshot s Ho) as E.
    simpl in E. rewrite E. simpl.
    set (s2 := _evaluate_timers now2 (_evaluate_timers now1 s)).
    assert (Ho2 : gate_open s2) by (apply timers_from_open_modes, Ho).
    split.
    { split; [intro H; contradiction|]. intros [_ [H|H]]; destruct Ho2 as [H'|H'];
        rewrite H in H'; discriminate. }
    unfold trade_count_blocked, market_dead, market_extended.
    destruct (daily_loss_blocked self config s2) eqn:E1; simpl.
    { repeat split; try discriminate.
      - unfold daily_loss_blocked in E1. apply andb_true_iff in E1.
        destruct E1 as [_ E1]. destruct Ho2 as [H'|H']; [exact H'|].
        rewrite H' in E1. discriminate.
      - unfold daily_loss_blocked in E1. apply andb_true_iff in E1.
        destruct E1 as [E1 _]. apply andb_true_iff in E1. destruct E1 as [_ E1].
        apply Qle_bool_iff. exact E1. }
    destruct (Z.leb_spec (max_daily_trades (profile config))
                (daily_trades (_session_stats s2))) as [E2|E2]; simpl.
    { repeat split; try discriminate; auto. }
    destruct (Qlt_bool (atr snapshot) (min_atr strategy_params)) eqn:E3; simpl.
    { apply Qlt_bool_true in E3. repeat split; try discriminate; auto. }
    destruct (Qlt_bool (3 # 2) (Qabs (vwap_distance_pct snapshot))) eqn:E4; simpl.
    { apply Qlt_bool_true in E4. apply Qlt_bool_false in E3.
      repeat split; try discriminate; auto. }
    repeat split; discriminate.
  - destruct (evaluate_shut self config strategy_params now1 now2 snapshot s Hc)
      as [E Hm].
    rewrite E. simpl. split; [split; auto|].
    destruct Hm as [Hm|Hm]; rewrite Hm; simpl; repeat split; discriminate.
Qed.

(** The machine in its long cooldown, on a dead and extended market: the
    answer is COOLDOWN all the same. *)
Lemma evaluate_reason_sample :
  fst (evaluate new_checker scenario_config quiet_params 1800000000%Z 1800000001%Z
         dead_market cooling_state)
  = {| allow_trade := false; reason := Some "COOLDOWN" |}.
Proof.
  destruct (evaluate_reason_is_first_failure new_checker scenario_config quiet_params
              1800000000%Z 1800000001%Z dead_market
              cooling_state) as [H _].
  destruct (proj1 H) as [E _]; [|exact E].
  vm_compute. intros [E|E]; discriminate.
Defined.

(** X13.  A daily-loss block does not lift with time.  On a machine in
    NORMAL whose daily loss is at or beyond its limit, every call of
    [evaluate] -- at any clock readings, on any market -- answers
    DAILY_LOSS_LIMIT and leaves the machine as it is: the daily counters
    change only in [on_trade_closed], so the block stands until a trade is
    closed or the machine is rebuilt from other state. *)
Theorem daily_loss_block_outlasts_time
    (self : Checker) (config : BotConfig) (strategy_params : StrategyParams)
    (calls : list (datetime * datetime * MarketSnapshot)) (s : State) :
  _enforce_daily_loss self = true ->
  _mode s = NORMAL ->
  daily_pnl (_session_stats s)
  <= - (reference_account_size_usdt (risk_limits config)
        * max_daily_loss_pct (profile config)) ->
  Forall (fun res => res = {| allow_trade := false; reason := Some "DAILY_LOSS_LIMIT" |})
    (fst (evaluate_all self config strategy_params calls s)) /\
  snd (evaluate_all self config strategy_params calls s) = s.
Proof.
  intros He Hm Hd. induction calls as [|[[now1 now2] snapshot] calls IH]; simpl.
  - split; [constructor | reflexivity].
  - assert (E : evaluate self config strategy_params now1 now2 snapshot s
                = ({| allow_trade := false; reason := Some "DAILY_LOSS_LIMIT" |}, s)).
    { pose proof (evaluate_open self config strategy_params now1 now2 snapshot s) as E.
      simpl in E. rewrite !(timers_normal _ s Hm) in E.
      rewrite E; [|left; exact Hm].
      unfold daily_loss_blocked. apply Qle_bool_iff in Hd. rewrite He, Hd, Hm.
      reflexivity. }
    rewrite E.
    destruct (evaluate_all self config strategy_params calls s) as [rs s2].
    simpl in *. destruct IH as [IH1 IH2].
    split; [constructor; [reflexivity | exact IH1] | exact IH2].
Qed.

(** The machine whose limited window has run out with the day's loss of 50
    still on the books (limit 30): asked the next day and the day after,
    it is blocked both times. *)
Lemma daily_loss_block_sample :
  Forall (fun res => res = {| allow_trade := false; reason := Some "DAILY_LOSS_LIMIT" |})
    (fst (evaluate_all new_checker scenario_config quiet_params
            [ (86400000000%Z, 86400000001%Z, lively_market);
              (172800000000%Z, 172800000001%Z, lively_market) ] recovered_state)) /\
  snd (evaluate_all new_checker scenario_config quiet_params
         [ (86400000000%Z, 86400000001%Z, lively_market);
           (172800000000%Z, 172800000001%Z, lively_market) ] recovered_state)
  = recovered_state.
Proof.
  apply daily_loss_block_outlasts_time;
    [reflexivity | reflexivity | vm_compute; discriminate].
Defined.

(** X14.  [evaluate] only reads the books.  Whatever it answers, the
    session statistics, the equity statistics, the cooldown counters and
    the internal version are those the machine had before the call; all
    that can have moved are the timers.  When the two clock readings of the
    call are in order and the state machine does not block, the machine is
    left as a single timer evaluation at the later reading leaves it. *)
Theorem evaluate_reads_only
    (self : Checker) (config : BotConfig) (strategy_params : StrategyParams)
    (now1 now2 : datetime) (snapshot : MarketSnapshot) (s : State) :
  let s' := snd (evaluate self config strategy_params now1 now2 snapshot s) in
  _session_stats s' = _session_stats s /\
  _equity_stats s' = _equity_stats s /\
  _cooldown_counters s' = _cooldown_counters s /\
  _internal_version s' = _internal_version s /\
  ((now1 <= now2)%Z -> gate_open s' -> s' = _evaluate_timers now2 s).
Proof.
  simpl.
  assert (Hv : forall now x, _internal_version (_evaluate_timers now x) = _internal_version x).
  { intros now x. unfold _evaluate_timers. repeat case_if; reflexivity. }
  destruct (gate_open_dec (_evaluate_timers now1 s)) as [Ho|Hc].
  - pose proof (evaluate_open self config strategy_params now1 now2 snapshot s Ho) as E.
    simpl in E. rewrite E. simpl.
    destruct (timers_frame now1 s) as (A1 & A2 & A3).
    destruct (timers_frame now2 (_evaluate_timers now1 s)) as (B1 & B2 & B3).
    rewrite B1, B2, B3, A1, A2, A3, !Hv. repeat split.
    intros Hle _. clear - Hle.
    destruct s as [ss es m cu nm lu le v c en].
    unfold _evaluate_timers, reached.
    destruct m; destruct cu as [tc|]; destruct lu as [tl|]; destruct nm; simpl;
      repeat (StateManagerCoverage.split_leb; simpl); try reflexivity; lia.
  - destruct (evaluate_shut self config strategy_params now1 now2 snapshot s Hc)
      as [E Hm].
    rewrite E. simpl. destruct (timers_frame now1 s) as (A1 & A2 & A3).
    rewrite A1, A2, A3, Hv. repeat split.
    intros _ Ho. contradiction.
Qed.

(** The long cooldown and the limited window both over by the time of the
    call: the machine is left in NORMAL, as one evaluation would leave it. *)
Lemma evaluate_reads_only_sample :
  snd (evaluate new_checker scenario_config quiet_params 14400000000%Z 14400000001%Z
         lively_market cooling_state)
  = _evaluate_timers 14400000001%Z cooling_state.
Proof.
  apply (evaluate_reads_only new_checker scenario_config quiet_params
           14400000000%Z 14400000001%Z lively_market cooling_state).
  - lia.
  - left. reflexivity.
Defined.

End LimitsCheckerFacts.

(** ** Sizing and the result of a trade *)

Module SizingFacts.
Import PyFacts RiskManager Scenarios Coverage RiskManagerFacts.

(** [int(..)] is monotone. *)
Lemma py_int_monotone (x y : Q) : x <= y -> (py_int x <= py_int y)%Z.
Proof.
  destruct x as [a b], y as [c d]. unfold Qle, py_int. simpl. intro H.
  rewrite <- (Z.quot_mul_cancel_r a (Z.pos b) (Z.pos d)) by lia.
  rewrite <- (Z.quot_mul_cancel_r c (Z.pos d) (Z.pos b)) by lia.
  rewrite (Z.mul_comm (Z.pos d) (Z.pos b)).
  apply Z.quot_le_mono; [reflexivity | exact H].
Qed.

(** What a returned size satisfies, on an instrument with a decimal step. *)
Lemma evaluate_ok_bounds (config : BotConfig) (info : SymbolInfo) (entry sl tp : Q)
    (r : RiskResult) :
  decimal_step info = true ->
  evaluate config info entry sl tp = Ok r ->
  exists p : Z,
    (0 < p)%Z /\ precision_of_step info = Ok p /\
    0 < Qabs (entry - sl) /\
    qty r = inject_Z (py_int (risk_amount r / Qabs (entry - sl) * inject_Z p)) / inject_Z p /\
    0 < qty r /\
    qty r * Qabs (entry - sl) <= risk_amount r.
Proof.
  intros Hinfo He.
  destruct (decimal_step_precision info Hinfo) as (p & Hp & Hprec & Hstep & Hs & Hm).
  assert (Hd : 0 < Qabs (entry - sl)).
  { destruct (Qlt_le_dec 0 (Qabs (entry - sl))) as [|Hle]; [assumption|].
    unfold evaluate in He. apply Qle_bool_iff in Hle. rewrite Hle in He. discriminate. }
  pose proof (apply_precision_decimal info p
                (reference_account_size_usdt (risk_limits config)
                 * risk_per_trade_pct (profile config) / Qabs (entry - sl)) Hp Hprec) as Hq.
  rewrite (evaluate_unfold config info entry sl tp _ Hd Hq) in He.
  destruct (Qlt_bool _ (min_qty info)) eqn:Hmin; [discriminate|].
  inversion He; subst r; clear He. simpl. apply Qlt_bool_false in Hmin.
  exists p. split; [exact Hp|]. split; [exact Hprec|]. split; [exact Hd|].
  split; [reflexivity|].
  assert (Hqpos : 0 < inject_Z (py_int (reference_account_size_usdt (risk_limits config)
                                        * risk_per_trade_pct (profile config)
                                        / Qabs (entry - sl) * inject_Z p)) / inject_Z p)
    by exact (Qlt_le_trans _ _ _ Hm Hmin).
  split; [exact Hqpos|].
  destruct (positive_size_is_floored p _ (qty_step info) _ Hp Hstep eq_refl Hqpos)
    as [_ Hle].
  apply Qle_trans with (reference_account_size_usdt (risk_limits config)
                        * risk_per_trade_pct (profile config)
                        / Qabs (entry - sl) * Qabs (entry - sl)).
  - apply Qmult_le_compat_r; [exact Hle | apply Qlt_le_weak, Hd].
  - rewrite Qmult_comm, Qmult_div_r; [apply Qle_refl|].
    intro E. rewrite E in Hd. discriminate Hd.
Qed.

Lemma evaluate_risk_amount (config : BotConfig) (info : SymbolInfo) (entry sl tp : Q)
    (r : RiskResult) :
  evaluate config info entry sl tp = Ok r ->
  risk_amount r
  = reference_account_size_usdt (risk_limits config) * risk_per_trade_pct (profile config).
Proof.
  unfold evaluate. destruct (Qle_bool _ 0); [discriminate|].
  destruct (_apply_precision info _); [|discriminate].
  destruct (Qlt_bool _ _); [discriminate|]. intro H. inversion H. reflexivity.
Qed.

(** X15.  A stop-out costs what was risked, no more.  When a trade carries
    the quantity [evaluate] returned for its entry and stop (instrument with
    a decimal step), sits on the right side of its stop (stop below entry
    for LONG, above for SHORT) and is closed exactly at the stop, the result
    computed by [_calculate_pnl] is minus quantity times stop distance, and
    that loss is at most [risk_amount]. *)
Theorem stop_out_loses_at_most_risk
    (config : BotConfig) (info : SymbolInfo) (entry sl tp : Q) (r : RiskResult)
    (trade : OrderExecutor.ActiveTrade) :
  decimal_step info = true ->
  evaluate config info entry sl tp = Ok r ->
  OrderExecutor.entry_price trade = entry ->
  OrderExecutor.qty trade = qty r ->
  (OrderExecutor.side trade = "LONG" /\ sl < entry) \/
  (OrderExecutor.side trade = "SHORT" /\ entry < sl) ->
  Runner._calculate_pnl trade sl == - (qty r * Qabs (entry - sl)) /\
  - risk_amount r <= Runner._calculate_pnl trade sl.
Proof.
  intros Hinfo He Hentry Hqty Hside.
  destruct (evaluate_ok_bounds config info entry sl tp r Hinfo He)
    as (p & _ & _ & Hd & _ & Hq & Hbound).
  assert (Hpnl : Runner._calculate_pnl trade sl == - (qty r * Qabs (entry - sl))).
  { unfold Runner._calculate_pnl. rewrite Hentry, Hqty.
    destruct Hside as [[Hs Hlt]|[Hs Hlt]]; rewrite Hs; simpl.
    - rewrite (Qabs_pos (entry - sl)) by lra. ring.
    - rewrite (Qabs_neg (entry - sl)) by lra. ring. }
  split; [exact Hpnl|]. rewrite Hpnl. lra.
Qed.

(** The sizing scenario on BTCUSDT (quantity 10 for entry 100, stop 99),
    taken LONG and stopped at 99: the result is -10, the amount risked. *)
Lemma stop_out_sample :
  let trade :=
    {| OrderExecutor.side := "LONG"; OrderExecutor.qty := 10000 # 1000;
       OrderExecutor.entry_price := 100; OrderExecutor.sl_price := 99;
       OrderExecutor.tp_price := 102; OrderExecutor.opened_at := 0%Z;
       OrderExecutor.entry_order_id := "entry-1";
       OrderExecutor.time_stop_minutes := 30%Z;
       OrderExecutor.entry_exec_time_ms := 1000%Z;
       OrderExecutor.last_exec_time_ms := 1000%Z |} in
  - (1000 * (1 # 100)) <= Runner._calculate_pnl trade 99.
Proof.
  intro trade.
  assert (He : exists r, evaluate scenario_config _BTCUSDT_INFO 100 99 102 = Ok r
                         /\ qty r = OrderExecutor.qty trade
                         /\ risk_amount r = 1000 * (1 # 100)).
  { eexists. split; [vm_compute; reflexivity|]. split; [|reflexivity].
    vm_compute. reflexivity. }
  destruct He as (r & He & Hq & Hr). rewrite <- Hr.
  apply (stop_out_loses_at_most_risk scenario_config _BTCUSDT_INFO 100 99 102 r trade
           eq_refl He eq_refl (eq_sym Hq)).
  left. split; reflexivity.
Defined.

(** X16.  A wider stop never sizes a larger position.  For one account and
    one instrument (decimal step), if [evaluate] returns for two candidate
    trades and the stop distance of the second is at least that of the
    first, the quantity of the second is at most that of the first. *)
Theorem wider_stop_never_sizes_larger
    (config : BotConfig) (info : SymbolInfo)
    (entry sl tp entry' sl' tp' : Q) (r r' : RiskResult) :
  decimal_step info = true ->
  evaluate config info entry sl tp = Ok r ->
  evaluate config info entry' sl' tp' = Ok r' ->
  Qabs (entry - sl) <= Qabs (entry' - sl') ->
  qty r' <= qty r.
Proof.
  intros Hinfo He He' Hdist.
  destruct (evaluate_ok_bounds config info entry sl tp r Hinfo He)
    as (p & Hp & Hprec & Hd & Hq & Hpos & Hbound).
  destruct (evaluate_ok_bounds config info entry' sl' tp' r' Hinfo He')
    as (p' & Hp' & Hprec' & Hd' & Hq' & Hpos' & Hbound').
  assert (p' = p) by congruence. subst p'.
  rewrite (evaluate_risk_amount _ _ _ _ _ _ He) in *.
  rewrite (evaluate_risk_amount _ _ _ _ _ _ He') in *.
  set (risk := reference_account_size_usdt (risk_limits config)
               * risk_per_trade_pct (profile config)) in *.
  set (d := Qabs (entry - sl)) in *. set (d' := Qabs (entry' - sl')) in *.
  assert (HpQ : 0 < inject_Z p) by (rewrite (Zlt_Qlt 0 p) in Hp; exact Hp).
  assert (Hrisk : 0 < risk).
  { eapply Qlt_le_trans; [|exact Hbound].
    setoid_replace 0 with (0 * d) by ring.
    apply Qmult_lt_compat_r; assumption. }
  assert (Hraw : risk / d' <= risk / d).
  { apply Qle_shift_div_l; [exact Hd|].
    apply Qle_trans with (risk / d' * d').
    - apply Qmult_le_l; [|exact Hdist].
      apply Qlt_shift_div_l; [exact Hd'|]. rewrite Qmult_0_l. exact Hrisk.
    - rewrite Qmult_comm, Qmult_div_r; [apply Qle_refl|].
      intro E. rewrite E in Hd'. discriminate Hd'. }
  rewrite Hq, Hq'.
  apply Qmult_le_compat_r; [|apply Qlt_le_weak, Qinv_lt_0_compat, HpQ].
  rewrite <- Zle_Qle. apply py_int_monotone.
  apply Qmult_le_compat_r; [exact Hraw | apply Qlt_le_weak, HpQ].
Qed.

(** On SOLUSDT with 10 at risk: a stop 1.1 away sizes 9.0, a stop 2 away
    sizes 5.0. *)
Lemma wider_stop_sample :
  exists r r',
    evaluate scenario_config _SOLUSDT_INFO 150 (1489 # 10) 152 = Ok r /\
    evaluate scenario_config _SOLUSDT_INFO 150 148 152 = Ok r' /\
    qty r' <= qty r.
Proof.
  eexists. eexists. split; [vm_compute; reflexivity|]. split; [vm_compute; reflexivity|].
  eapply (wider_stop_never_sizes_larger scenario_config _SOLUSDT_INFO
            150 (1489 # 10) 152 150 148 152).
  - reflexivity.
  - vm_compute. reflexivity.
  - vm_compute. reflexivity.
  - vm_compute. discriminate.
Defined.

(** *** Instrument lookup *)

(** X17.  [get_symbol_info] looks a name up by its upper-cased form.  A
    returned record is one of the two listed and carries the upper-cased
    name as its symbol; a name whose upper-cased form is neither BTCUSDT
    nor SOLUSDT raises [KeyError].  For ASCII names the casing does not
    matter: two names that differ in the case of their letters only get
    the same answer, and so do a name and its upper-cased form.  Upper case
    is that of Unicode, so a name with a long s for an S resolves too. *)
Theorem get_symbol_info_case_insensitive (name : string) :
  (forall info,
      get_symbol_info name = Ok info ->
      symbol info = upper name /\ (info = _BTCUSDT_INFO \/ info = _SOLUSDT_INFO)) /\
  (upper name <> "BTCUSDT" -> upper name <> "SOLUSDT" ->
   exists msg, get_symbol_info name = Raise (KeyError msg)) /\
  (is_ascii name = true ->
   get_symbol_info (upper name) = get_symbol_info name /\
   forall other,
     is_ascii other = true -> ascii_upper other = ascii_upper name ->
     get_symbol_info other = get_symbol_info name).
Proof.
  split; [|split].
  - unfold get_symbol_info, _SYMBOL_MAP. simpl.
    destruct (String.eqb_spec (upper name) "BTCUSDT") as [E1|E1].
    + intros info H; inversion H; subst; simpl; split; [congruence | auto].
    + destruct (String.eqb_spec (upper name) "SOLUSDT") as [E2|E2]; [|discriminate].
      intros info H; inversion H; subst; simpl; split; [congruence | auto].
  - unfold get_symbol_info, _SYMBOL_MAP. simpl. intros E1 E2.
    destruct (String.eqb_spec (upper name) "BTCUSDT") as [E|_]; [contradiction|].
    destruct (String.eqb_spec (upper name) "SOLUSDT") as [E|_]; [contradiction|].
    eexists. reflexivity.
  - intro Hname. split.
    + unfold get_symbol_info. now rewrite (upper_idempotent_ascii name Hname).
    + intros other Hother E. unfold get_symbol_info.
      now rewrite (upper_ascii_text other Hother), (upper_ascii_text name Hname), E.
Qed.

(** Lower and mixed case find Solana, and so does a long s; an unlisted
    name raises. *)
Lemma get_symbol_info_sample :
  get_symbol_info "solusdt" = Ok _SOLUSDT_INFO /\
  get_symbol_info "SolUsdt" = get_symbol_info "solusdt" /\
  get_symbol_info long_s_name = Ok _SOLUSDT_INFO /\
  exists msg, get_symbol_info "ethusdt" = Raise (KeyError msg).
Proof.
  split; [vm_compute; reflexivity|]. split; [|split].
  - apply (get_symbol_info_case_insensitive "solusdt"); reflexivity.
  - vm_compute. reflexivity.
  - apply (get_symbol_info_case_insensitive "ethusdt"); vm_compute; discriminate.
Defined.

End SizingFacts.

(** ** OrderExecutor: opening, polling and reconciling *)

Module OrderExecutorCoverage.
Import PyFacts OrderExecutor Scenarios OrderExecutorFacts.

(** X18.  Fill discovery is a bounded poll that stops at the first answer
    listing the order.  [_fetch_fill] queries the executions at least once
    and at most five times and touches neither the slot nor any trade.  It
    returns the price and time of the first row carrying the order id in
    the first answer that has one, no earlier answer having any; it
    returns [(None, None)] after five answers without such a row; and it
    raises exactly what the first failing query raised. *)
Theorem fetch_fill_is_a_bounded_poll
    (env : Environment) (order_id : string) (ex : Executor) :
  let res := fst (_fetch_fill env order_id ex) in
  let ex' := snd (_fetch_fill env order_id ex) in
  (interactions ex < interactions ex' <= interactions ex + 5)%nat /\
  _active_trade ex' = _active_trade ex /\
  (forall r, store ex' r = store ex r) /\
  match res with
  | Ok (Some price, Some time) =>
      exists k rows row,
        (k < 5)%nat /\ interactions ex' = (interactions ex + S k)%nat /\
        no_fill_reported env order_id (interactions ex) k /\
        get_executions env (interactions ex + k) None = Ok rows /\
        find (fun row => String.eqb (x_orderId row) order_id) rows = Some row /\
        price = x_execPrice row /\ time = x_execTime row
  | Ok (None, None) =>
      no_fill_reported env order_id (interactions ex) 5 /\
      interactions ex' = (interactions ex + 5)%nat
  | Ok _ => False
  | Raise e =>
      exists k,
        (k < 5)%nat /\ interactions ex' = (interactions ex + S k)%nat /\
        no_fill_reported env order_id (interactions ex) k /\
        get_executions env (interactions ex + k) None = Raise e
  end.
Proof.
  cbv zeta. unfold _fetch_fill.
  destruct (fetch_fill_loop_frame env 5 order_id ex) as (Hslot & Hstore & _).
  assert (Hloop : forall n ex0,
    let res := fst (_fetch_fill_loop env n order_id ex0) in
    let ex' := snd (_fetch_fill_loop env n order_id ex0) in
    (interactions ex0 <= interactions ex' <= interactions ex0 + n)%nat /\
    (0 < n -> interactions ex0 < interactions ex')%nat /\
    match res with
    | Ok (Some price, Some time) =>
        exists k rows row,
          (k < n)%nat /\ interactions ex' = (interactions ex0 + S k)%nat /\
          no_fill_reported env order_id (interactions ex0) k /\
          get_executions env (interactions ex0 + k) None = Ok rows /\
          find (fun row => String.eqb (x_orderId row) order_id) rows = Some row /\
          price = x_execPrice row /\ time = x_execTime row
    | Ok (None, None) =>
        no_fill_reported env order_id (interactions ex0) n /\
        interactions ex' = (interactions ex0 + n)%nat
    | Ok _ => False
    | Raise e =>
        exists k,
          (k < n)%nat /\ interactions ex' = (interactions ex0 + S k)%nat /\
          no_fill_reported env order_id (interactions ex0) k /\
          get_executions env (interactions ex0 + k) None = Raise e
    end).
  { clear. induction n as [|n IH]; intro ex0; simpl.
    - split; [lia|]. split; [lia|]. split; [|lia]. intros k Hk. lia.
    - unfold bind, interact.
      destruct (get_executions env (interactions ex0) None) as [rows|e] eqn:Hq; simpl.
      + destruct (find _ rows) as [row|] eqn:Hf; simpl.
        * split; [lia|]. split; [lia|].
          exists 0%nat, rows, row. rewrite Nat.add_0_r.
          split; [lia|]. split; [lia|]. split; [intros k Hk; lia|]. auto.
        * match goal with
          | |- context [_fetch_fill_loop env n order_id ?x] => specialize (IH x)
          end.
          simpl in IH. destruct IH as (Hb & _ & IH).
          split; [lia|]. split; [lia|].
          assert (Hext : forall m,
                    no_fill_reported env order_id (S (interactions ex0)) m ->
                    no_fill_reported env order_id (interactions ex0) (S m)).
          { intros m Hm [|k] Hk.
            - exists rows. rewrite Nat.add_0_r. auto.
            - destruct (Hm k) as (rows' & H1 & H2); [lia|].
              exists rows'. split; [|exact H2]. rewrite <- H1. f_equal. lia. }
          destruct (fst (_fetch_fill_loop env n order_id _)) as [[[p|] [t|]]|e];
            try contradiction.
          -- destruct IH as (k & rows' & row & Hk & Hi & Hn & Hg & Hf' & Hp & Ht).
             exists (S k), rows', row.
             split; [lia|]. split; [lia|]. split; [apply Hext, Hn|].
             split; [rewrite <- Hg; f_equal; lia | auto].
          -- destruct IH as [Hn Hi]. split; [apply Hext, Hn | lia].
          -- destruct IH as (k & Hk & Hi & Hn & Hg).
             exists (S k).
             split; [lia|]. split; [lia|]. split; [apply Hext, Hn|].
             rewrite <- Hg. f_equal. lia.
      + split; [lia|]. split; [lia|].
        exists 0%nat. rewrite Nat.add_0_r.
        split; [lia|]. split; [lia|]. split; [intros k Hk; lia | exact Hq]. }
  specialize (Hloop 5%nat ex). cbv zeta in Hloop.
  destruct Hloop as (Hb & Hlt & Hres).
  split; [split; [apply Hlt; lia | lia]|].
  split; [exact Hslot|]. split; [intro r; rewrite Hstore; reflexivity|].
  exact Hres.
Qed.

Lemma fetch_fill_loop_found (env : Environment) (n : nat) (order_id : string)
    (ex : Executor) (p : Q) (et : option Z) :
  fst (_fetch_fill_loop env n order_id ex) = Ok (Some p, et) ->
  exists k rows row,
    get_executions env k None = Ok rows /\ In row rows /\
    x_orderId row = order_id /\ p = x_execPrice row /\ et = Some (x_execTime row).
Proof.
  revert ex. induction n as [|n IH]; intro ex; simpl; [discriminate|].
  unfold bind, interact.
  destruct (get_executions env (interactions ex) None) as [rows|e] eqn:Hq; simpl;
    [|discriminate].
  destruct (find _ rows) as [row|] eqn:Hf; simpl.
  - intro H. inversion H; subst. apply find_some in Hf. destruct Hf as [Hin Heq].
    apply String.eqb_eq in Heq. exists (interactions ex), rows, row. auto.
  - apply IH.
Qed.

(** X19.  What [open_trade] leaves behind.  When it returns, the slot holds
    the returned trade, a new object; the trade carries the side, quantity,
    stop, target and time-stop budget it was asked for; its entry stamp and
    its watermark are the same instant; its entry price is the requested
    one or else the nonzero price of a fill the exchange listed under the
    trade's order id; and no other trade object has changed.  When it
    raises -- the order or a poll failed -- slot and trades are as before. *)
Theorem open_trade_records_the_fill
    (env : Environment) (asked_side : string) (asked_qty entry sl tp : Q) (minutes : Z)
    (ex : Executor) :
  let res := fst (open_trade env asked_side asked_qty entry sl tp minutes ex) in
  let ex' := snd (open_trade env asked_side asked_qty entry sl tp minutes ex) in
  match res with
  | Ok trade =>
      let t := store ex' trade in
      trade = next_ref ex /\ _active_trade ex' = Some trade /\
      side t = asked_side /\ qty t = asked_qty /\ sl_price t = sl /\ tp_price t = tp /\
      time_stop_minutes t = minutes /\
      last_exec_time_ms t = entry_exec_time_ms t /\
      (entry_price t = entry \/
       (~ entry_price t == 0 /\
        exists k rows row,
          get_executions env k None = Ok rows /\ In row rows /\
          x_orderId row = entry_order_id t /\ x_execPrice row = entry_price t)) /\
      (forall r, r <> trade -> store ex' r = store ex r)
  | Raise _ =>
      _active_trade ex' = _active_trade ex /\ (forall r, store ex' r = store ex r)
  end.
Proof.
  cbv zeta. unfold open_trade, bind, interact.
  destruct (create_order env (interactions ex) _) as [resp|e]; [|simpl; auto].
  match goal with
  | |- context [_fetch_fill env (order_id_of resp) ?x] => set (ex1 := x)
  end.
  pose proof (fetch_fill_loop_frame env 5 (order_id_of resp) ex1) as Hframe.
  pose proof (fetch_fill_loop_found env 5 (order_id_of resp) ex1) as Hfound.
  fold (_fetch_fill env (order_id_of resp)) in Hframe, Hfound.
  destruct (_fetch_fill env (order_id_of resp) ex1) as [[[fill_price exec_time]|e] ex2];
    simpl in Hframe, Hfound; destruct Hframe as (Hs & Hst & Hn);
    [|simpl; rewrite Hs, Hst; auto].
  assert (Hprice :
    forall p, fill_price = Some p ->
      exists k rows row,
        get_executions env k None = Ok rows /\ In row rows /\
        x_orderId row = order_id_of resp /\ p = x_execPrice row).
  { intros p ->. destruct (Hfound p exec_time eq_refl) as (k & rows & row & H).
    exists k, rows, row. tauto. }
  clear Hfound.
  assert (Hfresh : forall r, r <> next_ref ex -> (r =? next_ref ex)%nat = false)
    by (intros r Hr; apply Nat.eqb_neq; exact Hr).
  destruct exec_time as [t0|]; [destruct (truthy_int (Some t0))|];
    cbn [fst snd ret new_object set_slot store next_ref _active_trade interactions];
    rewrite Hn, Hst; subst ex1; cbn [next_ref store];
    rewrite Nat.eqb_refl; cbn [side qty sl_price tp_price time_stop_minutes
                                 last_exec_time_ms entry_exec_time_ms entry_price
                                 entry_order_id];
    (split; [reflexivity|]); (split; [reflexivity|]);
    (split; [reflexivity|]); (split; [reflexivity|]);
    (split; [reflexivity|]); (split; [reflexivity|]);
    (split; [reflexivity|]); (split; [reflexivity|]);
    (split; [|intros r Hr; rewrite (Hfresh r Hr); reflexivity]);
    (destruct fill_price as [p|]; [|left; reflexivity]);
    (destruct (truthy_float (Some p)) eqn:Hp; [|left; reflexivity]);
    right; (split; [simpl in Hp; apply negb_true_iff, Qeq_bool_false in Hp; exact Hp|]);
    destruct (Hprice p eq_refl) as (k & rows & row & H1 & H2 & H3 & H4);
    exists k, rows, row; auto.
Qed.

(** X20.  Reconciliation replaces the trade by what the exchange reports.
    When the gateway answers the position query, [refresh_active_trade]
    looks at the first row of nonzero size.  If there is one, the slot gets
    a new trade with that row's size, entry price, stop and target, LONG
    when the row's side reads BUY in any casing and SHORT otherwise; its
    opening time and both execution stamps are the clock readings of this
    call, so the time-stop clock and the watermark start afresh; only the
    time-stop budget is carried over from the trade held before (zero when
    there was none).  If there is none, the slot is emptied.  No existing
    trade object is modified. *)
Theorem refresh_replaces_trade_by_report
    (env : Environment) (ex : Executor) (rows : list PositionRow) :
  get_position env (interactions ex) = Ok rows ->
  let res := fst (refresh_active_trade env ex) in
  let ex' := snd (refresh_active_trade env ex) in
  match find (fun row => negb (Qeq_bool (p_size row) 0)) rows with
  | Some row =>
      let trade := next_ref ex in
      let t := store ex' trade in
      res = Ok (Some trade) /\ _active_trade ex' = Some trade /\
      qty t = p_size row /\ entry_price t = p_entryPrice row /\
      sl_price t = p_stopLoss row /\ tp_price t = p_takeProfit row /\
      side t = (if String.eqb (upper (p_side row)) "BUY" then "LONG" else "SHORT") /\
      opened_at t = utcnow env (S (S (interactions ex))) /\
      entry_exec_time_ms t = time_ms env (S (interactions ex)) /\
      last_exec_time_ms t = time_ms env (S (interactions ex)) /\
      time_stop_minutes t
      = match _active_trade ex with
        | Some active => time_stop_minutes (store ex active)
        | None => 0%Z
        end /\
      (forall r, r <> trade -> store ex' r = store ex r)
  | None =>
      res = Ok None /\ _active_trade ex' = None /\ (forall r, store ex' r = store ex r)
  end.
Proof.
  intro Hpos. cbv zeta.
  unfold refresh_active_trade, bind, interact, get_slot, deref, new_object, set_slot, ret.
  rewrite Hpos.
  destruct (find _ rows) as [row|]; [|cbn; auto].
  cbn [_active_trade store next_ref interactions].
  destruct (_active_trade ex) as [active|];
    cbn [fst snd _active_trade store next_ref interactions];
    rewrite Nat.eqb_refl;
    cbn [side qty sl_price tp_price time_stop_minutes last_exec_time_ms
           entry_exec_time_ms entry_price opened_at];
    repeat (split; [reflexivity|]);
    intros r Hr; apply Nat.eqb_neq in Hr; rewrite Hr; reflexivity.
Qed.

(** The executor holding the sample trade (budget 30 minutes) refreshes
    against the open position of 0.5: the new trade keeps the 30 minutes
    and opens at the reading of this call. *)
Lemma refresh_sample :
  let ex' := snd (refresh_active_trade stuck_env holding) in
  let t := store ex' 1%nat in
  fst (refresh_active_trade stuck_env holding) = Ok (Some 1%nat) /\
  _active_trade ex' = Some 1%nat /\ qty t = 1 # 2 /\
  side t = "LONG" /\ time_stop_minutes t = 30%Z /\ opened_at t = 5000002%Z.
Proof.
  pose proof (refresh_replaces_trade_by_report stuck_env holding
                [ {| p_size := 1 # 2; p_side := "Buy"; p_stopLoss := 99;
                     p_takeProfit := 101; p_entryPrice := 100;
                     p_positionIdx := "0" |} ] eq_refl) as H.
  cbv zeta in H. cbn [find p_size Qeq_bool negb] in H.
  change (negb (Qeq_bool (1 # 2) 0)) with true in H. cbv iota in H.
  destruct H as (H1 & H2 & H3 & _ & _ & _ & H7 & H8 & _ & _ & H11 & _).
  cbv zeta. change (next_ref holding) with 1%nat in *.
  rewrite H1, H2, H3, H7, H8, H11. repeat split.
Defined.

(** X21.  When [poll_trade_close] lets go of the trade.  If the position
    query raises, or the position is flat and the fill query raises, the
    call raises the same and leaves slot and trades as they were, so the
    next poll starts over.  If the position is flat and the fill query
    answers, the slot is emptied whether or not an exit fill was found;
    from then on [close_trade] returns [None] without contacting the
    exchange. *)
Theorem poll_trade_close_lets_go
    (env : Environment) (trade : ref) (ex : Executor) :
  let res := fst (poll_trade_close env trade ex) in
  let ex' := snd (poll_trade_close env trade ex) in
  (forall e,
      get_position env (interactions ex) = Raise e ->
      res = Raise e /\ _active_trade ex' = _active_trade ex /\
      (forall r, store ex' r = store ex r)) /\
  (forall rows e,
      get_position env (interactions ex) = Ok rows -> open_size rows <= 0 ->
      get_executions env (S (interactions ex))
        (Some (entry_exec_time_ms (store ex trade))) = Raise e ->
      res = Raise e /\ _active_trade ex' = _active_trade ex /\
      (forall r, store ex' r = store ex r)) /\
  (forall rows execs,
      get_position env (interactions ex) = Ok rows -> open_size rows <= 0 ->
      get_executions env (S (interactions ex))
        (Some (entry_exec_time_ms (store ex trade))) = Ok execs ->
      (exists answer, res = Ok answer) /\ _active_trade ex' = None /\
      interactions ex' = S (S (interactions ex)) /\
      forall reason price, close_trade env reason price ex' = (Ok None, ex')).
Proof.
  cbv zeta. unfold poll_trade_close, bind, interact.
  split; [|split].
  - intros e Hpos. rewrite Hpos. cbn. auto.
  - intros rows e Hpos Hflat Hex. rewrite Hpos.
    apply Qlt_bool_false in Hflat. rewrite Hflat.
    unfold _find_exit_fill, bind, deref, interact. cbn [interactions store].
    rewrite Hex. cbn. auto.
  - intros rows execs Hpos Hflat Hex. rewrite Hpos.
    apply Qlt_bool_false in Hflat. rewrite Hflat.
    unfold _find_exit_fill, bind, deref, interact. cbn [interactions store].
    rewrite Hex.
    assert (Hclose : forall x, _active_trade x = None ->
                       forall reason price, close_trade env reason price x = (Ok None, x)).
    { intros x Hx reason price. unfold close_trade, bind, get_slot. rewrite Hx.
      reflexivity. }
    match goal with
    | |- (exists answer, fst ?P = _) /\ _ => set (R := P)
    end.
    assert (H : (exists answer, fst R = Ok answer) /\ _active_trade (snd R) = None /\
                interactions (snd R) = S (S (interactions ex))).
    { subst R. destruct execs as [|x execs]; [cbn; eauto|].
      destruct (first_exit_row _ _ (sorted_by_time (x :: execs))) as [row|];
        cbn [fst snd set_last_exec_time_ms set_slot ret _active_trade interactions];
        eauto. }
    destruct H as (H1 & H2 & H3).
    split; [exact H1|]. split; [exact H2|]. split; [exact H3|].
    apply Hclose, H2.
Qed.

(** On the exchange that shows the position gone without an exit fill, the
    poll returns nothing and yet lets go of the trade. *)
Lemma poll_trade_close_lets_go_sample :
  fst (poll_trade_close Coverage.ghost_env 0%nat holding) = Ok None /\
  _active_trade (snd (poll_trade_close Coverage.ghost_env 0%nat holding)) = None /\
  close_trade Coverage.ghost_env "TIME_STOP" None
    (snd (poll_trade_close Coverage.ghost_env 0%nat holding))
  = (Ok None, snd (poll_trade_close Coverage.ghost_env 0%nat holding)).
Proof.
  destruct (poll_trade_close_lets_go Coverage.ghost_env 0%nat holding) as (_ & _ & H).
  edestruct (H []) as (_ & H2 & _ & H4);
    [reflexivity | vm_compute; discriminate | reflexivity |].
  split; [reflexivity|]. split; [exact H2 | apply H4].
Defined.

End OrderExecutorCoverage.

(** ** ScalpV0Strategy *)

Module ScalpV0Facts.
Import PyFacts StrategyConfig MarketData ScalpV0 Coverage.

(** *** Setups and answers *)

Lemma detect_setup_cases (self : ScalpV0Strategy) (snapshot : MarketSnapshot) (setup : string) :
  _detect_setup self snapshot = Some setup ->
  (setup = "LONG" /\ ema_slow snapshot < ema_fast snapshot /\ vwap snapshot < price snapshot) \/
  (setup = "SHORT" /\ ema_fast snapshot < ema_slow snapshot /\ price snapshot < vwap snapshot).
Proof.
  unfold _detect_setup.
  destruct (previous_candle snapshot) as [prev|]; [|discriminate].
  destruct (Qlt_bool (ema_slow snapshot) (ema_fast snapshot)
            && Qlt_bool (vwap snapshot) (price snapshot)) eqn:Hl.
  - apply andb_prop in Hl. destruct Hl as [H1 H2].
    apply Qlt_bool_true in H1, H2.
    destruct (negb _); [discriminate|]. destruct (_pullback_long _ _ _); [|discriminate].
    intro H. inversion H. left. auto.
  - destruct (Qlt_bool (ema_fast snapshot) (ema_slow snapshot)
              && Qlt_bool (price snapshot) (vwap snapshot)) eqn:Hs; [|discriminate].
    apply andb_prop in Hs. destruct Hs as [H1 H2].
    apply Qlt_bool_true in H1, H2.
    destruct (negb _); [discriminate|]. destruct (_pullback_short _ _ _); [|discriminate].
    intro H. inversion H. right. auto.
Qed.


(** What [generate_signal] can answer. *)
Lemma generate_signal_cases (self : ScalpV0Strategy) (snapshot : MarketSnapshot) :
  match generate_signal self snapshot with
  | Ok signal =>
      (exists why, signal = no_trade snapshot why) \/
      (exists setup,
          _detect_setup self snapshot = Some setup /\
          min_atr (_params self) <= atr snapshot /\
          Qabs (vwap_distance_pct snapshot) <= max_vwap_distance_pct (_params self) /\
          (profile_name (_profile self) = "PROFILE_PROD" ->
           Qabs (vwap_distance_pct snapshot) <= 1 # 2) /\
          signal = {| side := setup; entry_price := price snapshot;
                      sl_price := fst (_build_levels self setup (price snapshot)
                                         (atr snapshot));
                      tp_price := snd (_build_levels self setup (price snapshot)
                                         (atr snapshot));
                      time_stop_minutes := StrategyConfig.time_stop_minutes (_params self);
                      reason := None |})
  | Raise e =>
      e = ZeroDivisionError /\ price snapshot == 0 /\
      min_atr (_params self) <= atr snapshot /\
      Qabs (vwap_distance_pct snapshot) <= max_vwap_distance_pct (_params self)
  end.
Proof.
  assert (Hin : min_atr (_params self) <= atr snapshot ->
    match generate_signal_in_session self snapshot with
    | Ok signal =>
        (exists why, signal = no_trade snapshot why) \/
        (exists setup,
            _detect_setup self snapshot = Some setup /\
            min_atr (_params self) <= atr snapshot /\
            Qabs (vwap_distance_pct snapshot) <= max_vwap_distance_pct (_params self) /\
            (profile_name (_profile self) = "PROFILE_PROD" ->
             Qabs (vwap_distance_pct snapshot) <= 1 # 2) /\
            signal = {| side := setup; entry_price := price snapshot;
                        sl_price := fst (_build_levels self setup (price snapshot)
                                           (atr snapshot));
                        tp_price := snd (_build_levels self setup (price snapshot)
                                           (atr snapshot));
                        time_stop_minutes := StrategyConfig.time_stop_minutes (_params self);
                        reason := None |})
    | Raise e =>
        e = ZeroDivisionError /\ price snapshot == 0 /\
        min_atr (_params self) <= atr snapshot /\
        Qabs (vwap_distance_pct snapshot) <= max_vwap_distance_pct (_params self)
    end).
  { intro Hatr. unfold generate_signal_in_session.
    destruct (Qlt_bool (max_vwap_distance_pct (_params self)) _) eqn:Hv; [left; eauto|].
    apply Qlt_bool_false in Hv.
    unfold py_truediv. destruct (Qeq_bool (price snapshot) 0) eqn:Hp.
    { apply Qeq_bool_iff in Hp. auto. }
    cbv zeta.
    destruct (Qlt_bool (max_price_ema_distance_pct (_params self)) _); [left; eauto|].
    destruct (match volatility snapshot with Some _ => _ | None => _ end); [left; eauto|].
    destruct (String.eqb_spec (profile_name (_profile self)) "PROFILE_PROD") as [Hprod|Hprod];
      cbn [andb].
    - destruct (Qlt_bool (1 # 2) _) eqn:Hhalf; [left; eauto|].
      apply Qlt_bool_false in Hhalf.
      destruct (_detect_setup self snapshot) as [setup|]; [|left; eauto].
      destruct (_build_levels self setup (price snapshot) (atr snapshot)) as [sl tp]
        eqn:Elevels.
      right. exists setup. rewrite Elevels.
      split; [reflexivity|]. split; [exact Hatr|]. split; [exact Hv|].
      split; [intros _; exact Hhalf | reflexivity].
    - destruct (_detect_setup self snapshot) as [setup|]; [|left; eauto].
      destruct (_build_levels self setup (price snapshot) (atr snapshot)) as [sl tp]
        eqn:Elevels.
      right. exists setup. rewrite Elevels.
      split; [reflexivity|]. split; [exact Hatr|]. split; [exact Hv|].
      split; [intro; contradiction | reflexivity]. }
  unfold generate_signal.
  destruct (Qlt_bool (atr snapshot) (min_atr (_params self))) eqn:Hatr; [left; eauto|].
  apply Qlt_bool_false in Hatr. specialize (Hin Hatr).
  destruct (negb (_is_in_session self (timestamp snapshot))); [|exact Hin].
  destruct (negb (_allow_offsession self)); [left; eauto|].
  destruct (negb (_is_high_quality_offsession self snapshot)); [left; eauto | exact Hin].
Qed.

(** X22.  The levels of a signal bracket its entry.  With [min_atr] and
    both ATR multipliers positive, a signal to trade enters at the
    snapshot price, carries the configured time stop and no reason, and is
    either a LONG with stop [atr * atr_multiplier_sl] below and target
    [atr * atr_multiplier_tp] above the entry, or a SHORT with the stop
    above and the target below: the stop is always on the losing side and
    at a distance that is not zero. *)
Theorem signal_levels_bracket_entry
    (self : ScalpV0Strategy) (snapshot : MarketSnapshot) (signal : TradeSignal) :
  generate_signal self snapshot = Ok signal ->
  is_trade signal ->
  0 < min_atr (_params self) ->
  0 < atr_multiplier_sl (_params self) ->
  0 < atr_multiplier_tp (_params self) ->
  entry_price signal = price snapshot /\
  time_stop_minutes signal = StrategyConfig.time_stop_minutes (_params self) /\
  reason signal = None /\
  ((side signal = "LONG" /\
    sl_price signal = price snapshot - atr snapshot * atr_multiplier_sl (_params self) /\
    tp_price signal = price snapshot + atr snapshot * atr_multiplier_tp (_params self) /\
    sl_price signal < entry_price signal /\ entry_price signal < tp_price signal) \/
   (side signal = "SHORT" /\
    sl_price signal = price snapshot + atr snapshot * atr_multiplier_sl (_params self) /\
    tp_price signal = price snapshot - atr snapshot * atr_multiplier_tp (_params self) /\
    tp_price signal < entry_price signal /\ entry_price signal < sl_price signal)).
Proof.
  intros Hsig Htrade Hmin Hsl Htp.
  pose proof (generate_signal_cases self snapshot) as H. rewrite Hsig in H.
  destruct H as [[why ->]|(setup & Hsetup & Hatr & _ & _ & ->)].
  { exfalso. apply Htrade. reflexivity. }
  cbn [entry_price time_stop_minutes reason side sl_price tp_price].
  split; [reflexivity|]. split; [reflexivity|]. split; [reflexivity|].
  assert (Hpos : 0 < atr snapshot) by exact (Qlt_le_trans _ _ _ Hmin Hatr).
  assert (Hd1 : 0 < atr snapshot * atr_multiplier_sl (_params self)).
  { apply Qmult_lt_0_compat; assumption. }
  assert (Hd2 : 0 < atr snapshot * atr_multiplier_tp (_params self)).
  { apply Qmult_lt_0_compat; assumption. }
  destruct (detect_setup_cases self snapshot setup Hsetup) as [(-> & _)|(-> & _)];
    [left | right]; cbn [_build_levels String.eqb Ascii.eqb Bool.eqb fst snd];
    (split; [reflexivity|]); (split; [reflexivity|]); (split; [reflexivity|]); split; lra.
Qed.

(** The sample market gives a LONG at 100.3 with stop 98.3 and target
    104.3. *)
Lemma signal_levels_sample :
  let signal := {| side := "LONG"; entry_price := 1003 # 10; sl_price := 983 # 10;
                   tp_price := 1043 # 10; time_stop_minutes := 30; reason := None |} in
  entry_price signal = price lively_market /\
  time_stop_minutes signal = StrategyConfig.time_stop_minutes (_params sample_strategy) /\
  reason signal = None /\
  ((side signal = "LONG" /\
    sl_price signal
    = price lively_market - atr lively_market * atr_multiplier_sl (_params sample_strategy) /\
    tp_price signal
    = price lively_market + atr lively_market * atr_multiplier_tp (_params sample_strategy) /\
    sl_price signal < entry_price signal /\ entry_price signal < tp_price signal) \/
   (side signal = "SHORT" /\
    sl_price signal
    = price lively_market + atr lively_market * atr_multiplier_sl (_params sample_strategy) /\
    tp_price signal
    = price lively_market - atr lively_market * atr_multiplier_tp (_params sample_strategy) /\
    tp_price signal < entry_price signal /\ entry_price signal < sl_price signal)).
Proof.
  intro signal.
  apply (signal_levels_bracket_entry sample_strategy lively_market signal).
  - vm_compute. reflexivity.
  - intro H. discriminate H.
  - reflexivity.
  - reflexivity.
  - reflexivity.
Defined.

(** X23.  A signal to trade has passed the market guards of
    [LimitsChecker.evaluate] already.  On the snapshot that produced it
    the ATR is at least [min_atr], so MARKET_TOO_DEAD cannot be the answer
    for it; and under PROFILE_PROD, or with [max_vwap_distance_pct] at
    most 1.5, the distance from VWAP is within 1.5, so neither can
    EXTENDED_FROM_VWAP. *)
Theorem traded_signal_passes_market_guards
    (self : ScalpV0Strategy) (snapshot : MarketSnapshot) (signal : TradeSignal) :
  generate_signal self snapshot = Ok signal ->
  is_trade signal ->
  LimitsChecker.market_dead (_params self) snapshot = false /\
  (profile_name (_profile self) = "PROFILE_PROD" \/
   max_vwap_distance_pct (_params self) <= 3 # 2 ->
   LimitsChecker.market_extended snapshot = false).
Proof.
  intros Hsig Htrade.
  pose proof (generate_signal_cases self snapshot) as H. rewrite Hsig in H.
  destruct H as [[why ->]|(setup & _ & Hatr & Hv & Hprod & _)].
  { exfalso. apply Htrade. reflexivity. }
  unfold LimitsChecker.market_dead, LimitsChecker.market_extended. split.
  - apply Qlt_bool_false. exact Hatr.
  - intros [Hp|Hmax]; apply Qlt_bool_false.
    + specialize (Hprod Hp). lra.
    + lra.
Qed.

(** The sample market and its LONG. *)
Lemma traded_signal_sample :
  LimitsChecker.market_dead (_params sample_strategy) lively_market = false /\
  (profile_name (_profile sample_strategy) = "PROFILE_PROD" \/
   max_vwap_distance_pct (_params sample_strategy) <= 3 # 2 ->
   LimitsChecker.market_extended lively_market = false).
Proof.
  apply (traded_signal_passes_market_guards sample_strategy lively_market
           {| side := "LONG"; entry_price := 1003 # 10; sl_price := 983 # 10;
              tp_price := 1043 # 10; time_stop_minutes := 30; reason := None |}).
  - vm_compute. reflexivity.
  - intro H. discriminate H.
Defined.

(** X24.  [generate_signal] answers every snapshot whose price is not
    zero.  It raises only [ZeroDivisionError], and only on a price of zero
    that reached the distance to the fast average (ATR, session and VWAP
    guards passed).  Of its answers, the signals to trade are exactly
    those without a reason; a NO_TRADE signal has entry, stop and target
    at the snapshot price and a time stop of zero. *)
Theorem generate_signal_raises_only_on_zero_price
    (self : ScalpV0Strategy) (snapshot : MarketSnapshot) :
  (~ price snapshot == 0 -> exists signal, generate_signal self snapshot = Ok signal) /\
  (forall e, generate_signal self snapshot = Raise e ->
             e = ZeroDivisionError /\ price snapshot == 0 /\
             min_atr (_params self) <= atr snapshot /\
             Qabs (vwap_distance_pct snapshot) <= max_vwap_distance_pct (_params self)) /\
  (forall signal, generate_signal self snapshot = Ok signal ->
                  (is_trade signal <-> reason signal = None) /\
                  (~ is_trade signal ->
                   entry_price signal = price snapshot /\
                   sl_price signal = price snapshot /\
                   tp_price signal = price snapshot /\
                   time_stop_minutes signal = 0%Z)).
Proof.
  pose proof (generate_signal_cases self snapshot) as H.
  destruct (generate_signal self snapshot) as [signal|e].
  - split; [eauto|]. split; [discriminate|].
    intros signal' E. inversion E; subst signal'.
    destruct H as [[why ->]|(setup & Hsetup & _ & _ & _ & ->)].
    + unfold is_trade. cbn. split; [|auto].
      split; [intro Hn; exfalso; apply Hn; reflexivity | discriminate].
    + unfold is_trade. cbn [side reason].
      assert (Hs : setup <> "NO_TRADE").
      { destruct (detect_setup_cases self snapshot setup Hsetup) as [(-> & _)|(-> & _)];
          discriminate. }
      split; [tauto|]. intro Hn. exfalso. exact (Hn Hs).
  - destruct H as (-> & Hp & Hatr & Hv).
    split; [intro Hn; exfalso; exact (Hn Hp)|].
    split; [|discriminate].
    intros e E. inversion E. auto.
Qed.

End ScalpV0Facts.

(** ** BotRunner: the monitoring loop *)

Module RunnerFacts.
Import PyFacts OrderExecutor Scenarios Coverage OrderExecutorFacts Runner.

(** *** What a poll and a close leave in the slot *)

Lemma poll_trade_close_cases (env : Environment) (trade : ref) (ex : Executor) :
  let res := fst (poll_trade_close env trade ex) in
  let ex' := snd (poll_trade_close env trade ex) in
  match res with
  | Ok (Some _) => _active_trade ex' = None
  | Ok None =>
      (_active_trade ex' = _active_trade ex \/ _active_trade ex' = None) /\
      store ex' = store ex
  | Raise _ => True
  end.
Proof.
  cbv zeta. unfold poll_trade_close, bind, interact.
  destruct (get_position env (interactions ex)) as [rows|e]; [|exact I].
  destruct (Qlt_bool 0 (open_size rows)); [cbn; auto|].
  unfold _find_exit_fill, bind, deref, interact. cbn [interactions store].
  destruct (get_executions env _ _) as [execs|e]; [|exact I].
  destruct execs as [|x execs]; [cbn; auto|].
  destruct (first_exit_row _ _ (sorted_by_time (x :: execs))) as [row|]; cbn; auto.
Qed.

Lemma close_trade_returns_empty (env : Environment) (reason : string) (price : option Q)
    (ex : Executor) :
  match fst (close_trade env reason price ex) with
  | Ok _ => _active_trade (snd (close_trade env reason price ex)) = None
  | Raise _ => True
  end.
Proof.
  unfold close_trade, bind, get_slot, deref, interact.
  destruct (_active_trade ex) as [active|] eqn:Hslot; [|exact Hslot].
  destruct (create_order env (interactions ex) _) as [resp|e]; [|exact I].
  destruct (_fetch_fill env (order_id_of resp) _) as [[[fill_price exec_time]|e] ex2];
    [|exact I].
  destruct (_active_trade ex2), exec_time as [t'|]; try reflexivity;
    destruct (truthy_int (Some t')); reflexivity.
Qed.

(** X25.  The monitoring loop hands back an empty slot.  Whenever
    [_monitor_trade] leaves its loop -- after any number of rounds, with
    an exit price for [_finalize_trade] -- the executor holds no active
    trade any more, and the reason it reports is ["SL/TP"] (the poll
    returned a price) or ["TIME_STOP"] (the time stop was reached and
    [close_trade] returned). *)
Theorem monitor_trade_ends_with_empty_slot
    (env : Environment) (refresh_snapshot : nat -> result Q) (polls : nat) (trade : ref)
    (ex ex' : Executor) (exit_price : Q) (reason : string) :
  _monitor_trade env refresh_snapshot polls trade ex
  = (Ok (Some (exit_price, reason)), ex') ->
  _active_trade ex' = None /\ (reason = "SL/TP" \/ reason = "TIME_STOP").
Proof.
  revert ex. induction polls as [|n IH]; intros ex H; [discriminate H|].
  cbn [_monitor_trade] in H. unfold bind at 1, interact at 1 in H.
  destruct (refresh_snapshot (interactions ex)) as [price|e]; [|discriminate H].
  unfold bind at 1, interact at 1 in H. cbn [interactions] in H.
  match type of H with
  | ?m ?x = _ => set (ex1 := x) in H
  end.
  unfold bind at 1 in H.
  pose proof (poll_trade_close_cases env trade ex1) as Hpoll. cbv zeta in Hpoll.
  destruct (poll_trade_close env trade ex1) as [[[p|]|e] ex2]; cbn [fst snd] in Hpoll.
  - inversion H; subst. auto.
  - unfold bind at 1, deref in H.
    destruct (is_time_stop_reached (store ex2 trade) _).
    + unfold bind at 1 in H.
      pose proof (close_trade_returns_empty env "TIME_STOP" None ex2) as Hclose.
      destruct (close_trade env "TIME_STOP" None ex2) as [[closed|e] ex3];
        cbn [fst snd] in Hclose; [|discriminate H].
      inversion H; subst. auto.
    + exact (IH ex2 H).
  - discriminate H.
Qed.


(** On the sample exchange the first round finds the exit at 101. *)
Lemma monitor_trade_sample :
  _active_trade (snd (_monitor_trade flat_env steady_market 1 0%nat holding)) = None /\
  ("SL/TP" = "SL/TP" \/ "SL/TP" = "TIME_STOP").
Proof.
  apply (monitor_trade_ends_with_empty_slot flat_env steady_market 1 0%nat holding
           (snd (_monitor_trade flat_env steady_market 1 0%nat holding)) 101 "SL/TP").
  vm_compute. reflexivity.
Defined.

Lemma no_candidate_no_exit_row (t : ActiveTrade) (execs : list ExecutionRow) :
  (forall row, In row execs -> ~ exit_candidate t row) ->
  first_exit_row (side t) (last_exec_time_ms t) (sorted_by_time execs) = None.
Proof.
  intro H. pose proof (first_exit_row_spec t execs) as Hspec.
  destruct (first_exit_row _ _ _) as [row|]; [|reflexivity].
  destruct Hspec as (Hin & Hcand & _). exfalso. exact (H row Hin Hcand).
Qed.

(** X26.  A position that vanished without an exit fill is booked at the
    time stop, at the market price.  In a round where the time stop is
    reached, the exchange reports no open position and its fills hold no
    exit candidate for the trade, the loop ends with the price of the
    snapshot taken in that round and the reason ["TIME_STOP"]: the poll
    has emptied the slot, so [close_trade] returns [None] at once.  The
    round is four interactions -- snapshot, clock, position, fills -- and
    no order is sent. *)
Theorem time_stop_after_vanished_position
    (env : Environment) (refresh_snapshot : nat -> result Q) (polls : nat) (trade : ref)
    (ex : Executor) (price : Q) (rows : list PositionRow) (execs : list ExecutionRow) :
  refresh_snapshot (interactions ex) = Ok price ->
  is_time_stop_reached (store ex trade) (utcnow env (1 + interactions ex)) = true ->
  get_position env (2 + interactions ex) = Ok rows -> open_size rows <= 0 ->
  get_executions env (3 + interactions ex) (Some (entry_exec_time_ms (store ex trade)))
  = Ok execs ->
  (forall row, In row execs -> ~ exit_candidate (store ex trade) row) ->
  _monitor_trade env refresh_snapshot (S polls) trade ex
  = (Ok (Some (price, "TIME_STOP")),
     {| store := store ex; next_ref := next_ref ex; _active_trade := None;
        interactions := 4 + interactions ex |}).
Proof.
  intros Hsnap Hstop Hpos Hflat Hex Hnone.
  cbn [_monitor_trade]. unfold bind at 1, interact at 1. rewrite Hsnap.
  unfold bind at 1, interact at 1. cbn [interactions].
  unfold bind at 1. unfold poll_trade_close, bind at 1, interact at 1.
  cbn [interactions store next_ref _active_trade]. cbn [Nat.add] in Hpos. rewrite Hpos.
  apply Qlt_bool_false in Hflat. rewrite Hflat.
  unfold bind at 1. unfold _find_exit_fill, bind at 1, deref at 1.
  unfold bind at 1, interact at 1. cbn [interactions store next_ref _active_trade].
  cbn [Nat.add] in Hex. rewrite Hex.
  pose proof (no_candidate_no_exit_row (store ex trade) execs Hnone) as Hrow.
  cbn [Nat.add] in Hstop.
  destruct execs as [|x execs].
  - cbn [ret bind set_slot deref store fst snd next_ref _active_trade interactions].
    rewrite Hstop. unfold close_trade, bind, get_slot. cbn [_active_trade ret py_or].
    reflexivity.
  - unfold bind at 1, deref at 1. cbn [store]. rewrite Hrow.
    cbn [ret bind set_slot deref store fst snd next_ref _active_trade interactions].
    rewrite Hstop. unfold close_trade, bind, get_slot. cbn [_active_trade ret py_or].
    reflexivity.
Qed.

(** Half an hour on, with the position gone and only the entry fill
    listed, the sample trade is closed at the snapshot price 100; the
    exchange would have refused any order. *)
Lemma time_stop_after_vanished_position_sample :
  _monitor_trade overdue_ghost_env steady_market 1 0%nat holding
  = (Ok (Some (100, "TIME_STOP")),
     {| store := store holding; next_ref := next_ref holding; _active_trade := None;
        interactions := 4 + interactions holding |}).
Proof.
  apply (time_stop_after_vanished_position overdue_ghost_env steady_market 0 0%nat holding
           100 []
           [ {| x_orderId := "entry-1"; x_side := "Buy"; x_execPrice := 100;
                x_execTime := 1000%Z |} ]).
  - reflexivity.
  - vm_compute. reflexivity.
  - reflexivity.
  - vm_compute. discriminate.
  - reflexivity.
  - intros row [<-|[]] [H _]. vm_compute in H. discriminate H.
Defined.

(** X27.  The loop waits as long as the position is open.  While the
    snapshots arrive, the exchange reports a position of positive size and
    the time stop of the trade is not reached -- it never is for a trade
    with [time_stop_minutes <= 0] -- every round is three interactions
    that change nothing: after any number of rounds the loop is still
    polling, slot and trades as they were. *)
Theorem monitor_waits_while_position_open
    (env : Environment) (refresh_snapshot : nat -> result Q) (polls : nat) (trade : ref)
    (ex : Executor) :
  (forall n, exists price, refresh_snapshot n = Ok price) ->
  (forall n, exists rows, get_position env n = Ok rows /\ 0 < open_size rows) ->
  (forall n, is_time_stop_reached (store ex trade) (utcnow env n) = false) ->
  _monitor_trade env refresh_snapshot polls trade ex
  = (Ok None,
     {| store := store ex; next_ref := next_ref ex; _active_trade := _active_trade ex;
        interactions := (3 * polls + interactions ex)%nat |}).
Proof.
  intros Hsnap Hpos Hstop. revert ex Hstop.
  induction polls as [|n IH]; intros ex Hstop.
  - destruct ex; reflexivity.
  - cbn [_monitor_trade]. unfold bind at 1, interact at 1.
    destruct (Hsnap (interactions ex)) as [price ->].
    unfold bind at 1, interact at 1. cbn [interactions].
    unfold bind at 1. unfold poll_trade_close, bind at 1, interact at 1.
    cbn [interactions store next_ref _active_trade].
    destruct (Hpos (S (S (interactions ex)))) as (rows & -> & Hopen).
    apply Qlt_bool_true in Hopen. rewrite Hopen.
    cbn [ret]. unfold bind at 1, deref at 1. cbn [store]. rewrite Hstop.
    rewrite IH; cbn [store next_ref _active_trade interactions]; [|exact Hstop].
    do 2 f_equal. lia.
Qed.

(** Three rounds on the exchange where the position stays open, for a
    trade without a time stop. *)
Lemma monitor_waits_sample :
  _monitor_trade stuck_env steady_market 3 0%nat unlimited
  = (Ok None,
     {| store := store unlimited; next_ref := next_ref unlimited;
        _active_trade := _active_trade unlimited;
        interactions := (3 * 3 + interactions unlimited)%nat |}).
Proof.
  apply (monitor_waits_while_position_open stuck_env steady_market 3 0%nat unlimited).
  - intro n. exists 100. reflexivity.
  - intro n. eexists. split; [reflexivity|]. vm_compute. reflexivity.
  - intro n. reflexivity.
Defined.

End RunnerFacts.

(** ** StatsEngine and PromotionChecker *)

Module StatsEngineFacts.
Import PyFacts StatsEngine Coverage.

(** *** Daily breakdown *)

Lemma fold_sum_shift (f : TradeRecord -> Q) (trades : list TradeRecord) (a : Q) :
  fold_left (fun acc t => acc + f t) trades a == a + py_sum f trades.
Proof.
  unfold py_sum. revert a. induction trades as [|t trades IH]; intro a; simpl.
  - lra.
  - rewrite IH, (IH (0 + f t)). lra.
Qed.

Lemma day_get_add_to_day (k day : Z) (amount : Q) (d : list (Z * Q)) :
  day_get k (add_to_day day amount d)
  = if (day =? k)%Z
    then Some (match day_get k d with Some v => v + amount | None => 0 + amount end)
    else day_get k d.
Proof.
  induction d as [|[k' v] d IH]; simpl.
  - destruct (Z.eqb_spec day k); reflexivity.
  - destruct (Z.eqb_spec k' day) as [->|Hne]; simpl.
    + destruct (Z.eqb_spec day k); reflexivity.
    + destruct (Z.eqb_spec k' k) as [->|Hne'].
      * destruct (Z.eqb_spec day k); [congruence | reflexivity].
      * exact IH.
Qed.

Lemma keys_add_to_day (day : Z) (amount : Q) (d : list (Z * Q)) (k : Z) :
  In k (map fst (add_to_day day amount d)) <-> k = day \/ In k (map fst d).
Proof.
  induction d as [|[k' v] d IH]; simpl.
  - intuition.
  - destruct (Z.eqb_spec k' day) as [->|Hne]; simpl; [intuition|].
    rewrite IH. intuition.
Qed.

Lemma nodup_add_to_day (day : Z) (amount : Q) (d : list (Z * Q)) :
  NoDup (map fst d) -> NoDup (map fst (add_to_day day amount d)).
Proof.
  induction d as [|[k' v] d IH]; simpl; intro H.
  - constructor; [intros [] | constructor].
  - inversion H as [|? ? Hnin Hd]; subst.
    destruct (Z.eqb_spec k' day) as [->|Hne]; simpl.
    + constructor; assumption.
    + constructor; [|apply IH, Hd].
      rewrite keys_add_to_day. intros [->|Hin]; [congruence | exact (Hnin Hin)].
Qed.

Lemma total_add_to_day (day : Z) (amount : Q) (d : list (Z * Q)) :
  total_of_days (add_to_day day amount d) == total_of_days d + amount.
Proof.
  unfold total_of_days. induction d as [|[k' v] d IH]; simpl.
  - lra.
  - destruct (Z.eqb_spec k' day); simpl; [lra|]. rewrite IH. lra.
Qed.

Lemma aggregate_from (trades : list TradeRecord) (d : list (Z * Q)) :
  NoDup (map fst d) ->
  let d' := fold_left daily_step trades d in
  NoDup (map fst d') /\
  total_of_days d' == total_of_days d + py_sum pnl trades /\
  forall day,
    day_get day d'
    = match trades_of_day day trades with
      | [] => day_get day d
      | l => Some (fold_left (fun acc t => acc + pnl t) l
                     (match day_get day d with Some v => v | None => 0 end))
      end.
Proof.
  revert d. induction trades as [|t trades IH]; intros d Hd; cbv zeta.
  - simpl. split; [exact Hd|]. split; [unfold py_sum; simpl; lra | reflexivity].
  - cbn [fold_left].
    destruct (IH (daily_step d t) (nodup_add_to_day _ _ _ Hd)) as (H1 & H2 & H3).
    split; [exact H1|]. split.
    + rewrite H2. unfold daily_step at 1. rewrite total_add_to_day.
      unfold py_sum. cbn [fold_left]. rewrite (fold_sum_shift pnl trades (0 + pnl t)).
      unfold py_sum. lra.
    + intro day. rewrite H3. unfold daily_step at 1 2. rewrite day_get_add_to_day.
      unfold trades_of_day. cbn [filter].
      destruct (Z.eqb_spec (date (timestamp t)) day) as [E|E].
      * cbn [fold_left].
        destruct (filter _ trades); destruct (day_get day d); reflexivity.
      * reflexivity.
Qed.

(** X28.  The daily breakdown of [compute] adds up.  [pnl_by_day] has one
    entry per calendar day on which a trade of the history closed and none
    for other days; the amount of a day is the sum of the results of that
    day's trades, taken in the order of the history; and the amounts of
    all days total [net_pnl]. *)
Theorem pnl_by_day_adds_up (trades : list TradeRecord) :
  let stats := compute trades in
  NoDup (map fst (pnl_by_day stats)) /\
  (forall day,
      day_get day (pnl_by_day stats)
      = match trades_of_day day trades with
        | [] => None
        | l => Some (py_sum pnl l)
        end) /\
  total_of_days (pnl_by_day stats) == net_pnl stats.
Proof.
  cbv zeta.
  destruct (aggregate_from trades [] (NoDup_nil _)) as (H1 & H2 & H3).
  assert (E : pnl_by_day (compute trades) = fold_left daily_step trades []).
  { destruct trades; reflexivity. }
  assert (En : net_pnl (compute trades) = py_sum pnl trades).
  { destruct trades; reflexivity. }
  rewrite E, En. split; [exact H1|]. split.
  - intro day. rewrite H3. reflexivity.
  - rewrite H2. unfold total_of_days. simpl. lra.
Qed.

(** *** Drawdown of the profit curve *)

Lemma drawdown_step_grows (st : Q * Q * Q) (trade : TradeRecord) :
  snd st <= snd (drawdown_step st trade).
Proof.
  destruct st as [[c p] m]. unfold drawdown_step.
  destruct (Qlt_bool 0 (py_max p (c + pnl trade))); simpl.
  - apply py_max_le_l.
  - apply Qle_refl.
Qed.

Lemma drawdown_fold_grows (trades : list TradeRecord) (st : Q * Q * Q) :
  snd st <= snd (fold_left drawdown_step trades st).
Proof.
  revert st. induction trades as [|t trades IH]; intro st; simpl.
  - apply Qle_refl.
  - eapply Qle_trans; [apply drawdown_step_grows | apply IH].
Qed.

(** X29.  The drawdown of the profit curve is never negative and never
    shrinks when trades are appended to the history. *)
Theorem compute_drawdown_grows_with_history (trades more : list TradeRecord) :
  0 <= _compute_drawdown trades /\
  _compute_drawdown trades <= _compute_drawdown (trades ++ more).
Proof.
  unfold _compute_drawdown. split.
  - apply (drawdown_fold_grows trades (0, 0, 0)).
  - rewrite fold_left_app. apply drawdown_fold_grows.
Qed.

Lemma drawdown_blind (trades : list TradeRecord) (c : Q) :
  (forall n, fold_left (fun acc t => acc + pnl t) (firstn n trades) c <= 0) ->
  snd (fold_left drawdown_step trades (c, 0, 0)) = 0.
Proof.
  revert c. induction trades as [|t trades IH]; intros c H; [reflexivity|].
  cbn [fold_left]. unfold drawdown_step at 2.
  assert (Hc : c + pnl t <= 0) by exact (H 1%nat).
  assert (Hmax : py_max 0 (c + pnl t) = 0).
  { unfold py_max. apply Qlt_bool_false in Hc. rewrite Hc. reflexivity. }
  rewrite Hmax. change (Qlt_bool 0 0) with false. cbv iota.
  apply IH. intro n. exact (H (S n)).
Qed.

(** X30.  A history that was never in profit shows no drawdown.
    [_compute_drawdown] measures against the peak of the profit curve and
    only once that peak is positive, so when the running sum of results
    never rises above zero [compute] reports [max_drawdown_pct = 0],
    whatever was lost; the drawdown rule of [PromotionChecker.evaluate]
    then passes, and the promotion from demo to live is decided by the
    number of trades and the net result alone. *)
Theorem losses_only_show_no_drawdown
    (rules : PromotionChecker.PromotionRules) (trades : list TradeRecord) :
  never_in_profit trades ->
  0 <= PromotionChecker.max_drawdown_pct rules ->
  max_drawdown_pct (compute trades) = 0 /\
  PromotionChecker.demo_to_live_ready (PromotionChecker.evaluate rules trades)
  = (PromotionChecker.min_demo_trades rules <=? Z.of_nat (List.length trades))%Z
    && Qle_bool (PromotionChecker.min_net_profit_usdt rules) (py_sum pnl trades).
Proof.
  intros Hnever Hrule.
  assert (Hdd : max_drawdown_pct (compute trades) = 0).
  { destruct trades as [|t trades]; [reflexivity|].
    exact (drawdown_blind (t :: trades) 0 Hnever). }
  split; [exact Hdd|].
  unfold PromotionChecker.evaluate. cbn [PromotionChecker.demo_to_live_ready].
  rewrite Hdd. apply Qle_bool_iff in Hrule. rewrite Hrule, andb_true_r.
  destruct trades; reflexivity.
Qed.

(** Two losses, of 10 and of 30. *)
Lemma losses_only_sample :
  max_drawdown_pct (compute losing_history) = 0 /\
  PromotionChecker.demo_to_live_ready (PromotionChecker.evaluate lenient_rules losing_history)
  = (PromotionChecker.min_demo_trades lenient_rules
     <=? Z.of_nat (List.length losing_history))%Z
    && Qle_bool (PromotionChecker.min_net_profit_usdt lenient_rules)
         (py_sum pnl losing_history).
Proof.
  apply (losses_only_show_no_drawdown lenient_rules losing_history).
  - intros [|[|[|n]]]; vm_compute; discriminate.
  - vm_compute. discriminate.
Defined.

End StatsEngineFacts.
